(** * Ensemble disagreement extraction and majority vote

    A shallow embedding of [hashiguchi/extract_disagreements.py]: the three
    functions [create_ensemble_prediction], [extract_disagreements] and
    [main], over a small model of the pandas operations they call.

    - A CSV input file is a list of (PassengerId, Transported) rows.
    - A DataFrame indexed by PassengerId is kept row-major: the column
      labels, and per row the index label and one cell per column.
    - [print], [to_csv], raised exceptions and [sys.exit] are effects: a
      computation yields the events it emitted and either a value or the
      exception that ended it.
    - The script is embedded twice: first on inputs that can all be read
      and outputs that can all be written, then (module [io]) on a disk
      where an existing path may be unreadable and a path may be
      unwritable.  The properties about the content of the frames are
      stated on the first, those about whether a run ends well and whether
      a file is written on the second. *)

From stdpp Require Import gmap strings list.
From Stdlib Require Import QArith Ascii.

Open Scope list_scope.
Open Scope nat_scope.

Set Default Proof Using "Type".

(** ** Data *)

Definition RecordId := string.

(** The content of one input file: rows of [PassengerId,Transported]. *)
Definition PredictionTable := list (RecordId * bool).

Record DataFrame := mkDataFrame {
  df_columns : list string;
  df_rows : list (RecordId * list bool)
}.

(** [len(df)] *)
Definition len (df : DataFrame) : nat := length (df_rows df).

(** ** Effects *)

Inductive Exn :=
| IndexError
| FileNotFoundError (file : string)
| ValueError_overlap (cols : list string)
| ZeroDivisionError
| SystemExit (code : Z)
| ReadError (file : string)   (* what [pd.read_csv] raises on an existing path
                                 it cannot read as a CSV file *)
| OSError (path : string).    (* what [to_csv] raises on a path it cannot
                                 create *)

(** One constructor per [print] statement of the script; the arguments are
    the values interpolated into the message. *)
Inductive Msg :=
| WarnEvenCount (n : nat)                       (* line 45 *)
| EnsembleHeader                                (* line 74 *)
| EnsembleUsedFiles (n : nat)                   (* line 75 *)
| EnsembleTrue (n : nat)                        (* line 76 *)
| EnsembleFalse (n : nat)                       (* line 77 *)
| EnsembleSaved (path : string)                 (* line 78 *)
| ErrFileNotFound (file : string)               (* line 97 *)
| LoadedFile (file : string) (nrows : nat)      (* lines 102, 111 *)
| MergedRows (n : nat)                          (* line 119 *)
| DisagreementRows (n : nat)                    (* line 131 *)
| SavedResult (path : string)                   (* line 136 *)
| StatsHeader                                   (* line 139 *)
| StatsTotal (n : nat)                          (* line 140 *)
| StatsDisagreements (n : nat)                  (* line 141 *)
| StatsAgreementRate (percent : Q)              (* line 142 *)
| DistributionHeader                            (* line 145 *)
| Distribution (col : string) (t f : nat)       (* line 149 *)
| SampleHeader                                  (* line 152 *)
| Sample (df : DataFrame)                       (* line 153 *)
| NoDisagreements                               (* line 156 *)
| WarnMissingHeader                             (* line 175 *)
| WarnMissingFile (file : string)               (* line 177 *)
| ErrNoFiles                                    (* line 180 *)
| OnlyExisting (files : list string)            (* line 184 *)
| Banner                                        (* line 192 *)
| InputFiles (files : list string)              (* line 193 *)
| OutputFile (path : string)                    (* line 194 *)
| BlankLine                                     (* line 195 *)
| NoteEvenCount (n : nat)                       (* line 205 *)
| NoteCompareOnly                               (* line 207 *)
| DoneSaved (n : nat) (path : string)           (* line 210 *)
| Done.                                         (* line 212 *)

Inductive Event :=
| Print (m : Msg)
| ToCsv (path : string) (header : list string) (rows : list (RecordId * list bool)).

Inductive result (A : Type) :=
| Ok (a : A)
| Raised (e : Exn).
Arguments Ok {A} a.
Arguments Raised {A} e.

(** A computation: the events emitted, in order, and how it ended. *)
Definition M (A : Type) : Type := list Event * result A.

Definition events {A} (m : M A) : list Event := fst m.
Definition outcome {A} (m : M A) : result A := snd m.

#[global] Instance M_ret : MRet M := λ A a, ([], Ok a).
#[global] Instance M_bind : MBind M := λ A B k m,
  match m with
  | (t, Ok a) => let '(t', r) := k a in (t ++ t', r)
  | (t, Raised e) => (t, Raised e)
  end.

Definition raise {A} (e : Exn) : M A := ([], Raised e).
Definition emit (ev : Event) : M unit := ([ev], Ok tt).
Definition print (m : Msg) : M unit := emit (Print m).

(** [for x in xs: body x] *)
Fixpoint for_each {A} (xs : list A) (body : A → M unit) : M unit :=
  match xs with
  | [] => mret tt
  | x :: xs' => body x;; for_each xs' body
  end.

(** [for x in xs: acc = body acc x] *)
Fixpoint for_fold {A S} (xs : list A) (acc : S) (body : S → A → M S) : M S :=
  match xs with
  | [] => mret acc
  | x :: xs' => acc' ← body acc x; for_fold xs' acc' body
  end.

(** The files written by [to_csv], in order. *)
Definition written (t : list Event)
  : list (string * (list string * list (RecordId * list bool))) :=
  omap (λ ev, match ev with
              | ToCsv p h r => Some (p, (h, r))
              | Print _ => None
              end) t.

(** The messages printed, in order. *)
Definition printed (t : list Event) : list Msg :=
  omap (λ ev, match ev with Print m => Some m | ToCsv _ _ _ => None end) t.

(** The exit status of the interpreter after running [main]. *)
Definition exit_status {A} (r : result A) : Z :=
  match r with
  | Ok _ => 0
  | Raised (SystemExit code) => code
  | Raised _ => 1
  end.

(** ** The pandas and Python operations the script calls *)

(** [a / b] on Python ints: true division, [ZeroDivisionError] when [b = 0]. *)
Definition truediv (a b : Z) : M Q :=
  if decide (b = 0%Z) then raise ZeroDivisionError
  else mret (inject_Z a / inject_Z b)%Q.

(** [x > y] on numbers. *)
Definition Qgtb (x y : Q) : bool := negb (Qle_bool x y).

(** [col.startswith(p)] *)
Definition startswith (col p : string) : bool := String.prefix p col.

Module pd.

(** [df.set_index('PassengerId')] on a freshly read two-column file. *)
Definition set_index (t : PredictionTable) : DataFrame :=
  {| df_columns := ["Transported"];
     df_rows := (λ r, (r.1, [r.2])) <$> t |}.

(** [df.rename(columns={old: new})] *)
Definition rename (old new : string) (df : DataFrame) : DataFrame :=
  {| df_columns := (λ c, if decide (c = old) then new else c) <$> df_columns df;
     df_rows := df_rows df |}.

(** [left.join(right, how='inner')]: joins on the index.  Column labels
    that occur on both sides raise (no suffix is given); otherwise every
    left row is paired with every right row carrying the same index
    label, in the order of the calling frame.  Index labels need not be
    unique: a label that occurs several times is paired once per
    occurrence. *)
Definition join_inner (left right : DataFrame) : M DataFrame :=
  let overlap := filter (λ c, c ∈ df_columns right) (df_columns left) in
  match overlap with
  | _ :: _ => raise (ValueError_overlap overlap)
  | [] =>
      mret {| df_columns := df_columns left ++ df_columns right;
              df_rows :=
                l ← df_rows left;
                r ← filter (λ r, r.1 = l.1) (df_rows right);
                [(l.1, l.2 ++ r.2)] |}
  end.

(** The cells of one row under the label [c]. *)
Definition cells (columns : list string) (vs : list bool) (c : string)
  : list bool :=
  snd <$> filter (λ p, p.1 = c) (zip columns vs).

(** [df[cols]]: the sub-frame of the columns labelled [cols]. *)
Definition getitem (df : DataFrame) (cols : list string) : DataFrame :=
  {| df_columns := c ← cols; filter (λ c', c' = c) (df_columns df);
     df_rows := (λ r, (r.1, c ← cols; cells (df_columns df) r.2 c))
                  <$> df_rows df |}.

(** [df[c]]: one column, as a sequence of cells. *)
Definition column (df : DataFrame) (c : string) : list bool :=
  r ← df_rows df; cells (df_columns df) r.2 c.

(** [df.sum(axis=1)]: per row, the number of [True] cells. *)
Definition sum_axis1 (df : DataFrame) : list nat :=
  (λ r, length (filter (λ b, b = true) r.2)) <$> df_rows df.

(** [df.nunique(axis=1)]: per row, the number of distinct cells. *)
Definition nunique_axis1 (df : DataFrame) : list nat :=
  (λ r, length (remove_dups r.2)) <$> df_rows df.

(** [df[mask]]: the rows at which the boolean mask holds. *)
Definition getitem_mask (df : DataFrame) (mask : list bool) : DataFrame :=
  {| df_columns := df_columns df;
     df_rows := fst <$> filter (λ p, p.2 = true) (zip (df_rows df) mask) |}.

(** [df.head(n)] *)
Definition head (n : nat) (df : DataFrame) : DataFrame :=
  {| df_columns := df_columns df; df_rows := take n (df_rows df) |}.

(** [df.reset_index().to_csv(path, index=False)]: the index becomes the
    first column, named [PassengerId]. *)
Definition reset_index_to_csv (df : DataFrame) (path : string) : M unit :=
  emit (ToCsv path ("PassengerId" :: df_columns df) (df_rows df)).

(** [df[label] = values]: overwrites the cells of an existing column of that
    label, and appends a new column otherwise. *)
Definition setitem (df : DataFrame) (label : string) (values : list bool)
  : DataFrame :=
  if decide (label ∈ df_columns df) then
    {| df_columns := df_columns df;
       df_rows := (λ p, (p.1.1, (λ cv, if decide (cv.1 = label) then p.2 else cv.2)
                                  <$> zip (df_columns df) p.1.2))
                    <$> zip (df_rows df) values |}
  else
    {| df_columns := df_columns df ++ [label];
       df_rows := (λ p, (p.1.1, p.1.2 ++ [p.2])) <$> zip (df_rows df) values |}.

End pd.

Module py.

(** [xs[0]] *)
Definition getitem0 {A} (xs : list A) : M A :=
  match xs with
  | [] => raise IndexError
  | x :: _ => mret x
  end.

(** [xs[1:]] *)
Definition slice1 {A} (xs : list A) : list A := drop 1 xs.

(** [sep.join(xs)] *)
Definition join (sep : string) (xs : list string) : string :=
  String.concat sep xs.

End py.

(** ** The script, where every read and every write succeeds

    In this section a path that exists holds a prediction table and
    [to_csv] always succeeds: it describes the runs in which neither
    [pd.read_csv] nor [to_csv] raises.  The module [io] further down is the
    same script without these two assumptions, and on a disk with readable
    files and writable outputs the two coincide ([io_main_tables]). *)

Section script.

(** [Path(file).stem], as computed by pathlib. *)
Variable stem : string → string.

(** The input files present on disk, with their parsed content. *)
Variable fs : gmap string PredictionTable.

(** [os.path.exists(file)] *)
Definition exists_ (file : string) : bool := bool_decide (is_Some (fs !! file)).

(** [pd.read_csv(file)] *)
Definition read_csv (file : string) : M PredictionTable :=
  match fs !! file with
  | Some t => mret t
  | None => raise (FileNotFoundError file)
  end.

(** [f'Transported_{Path(file).stem}'] *)
Definition column_of (file : string) : string := "Transported_" +:+ stem file.

(** Lines 48-58: load every file and inner-join on the index. *)
Definition load_and_join (csv_files : list string) : M DataFrame :=
  file0 ← py.getitem0 csv_files;
  final_df ← read_csv file0;
  let final_df := pd.set_index final_df in
  let final_df := pd.rename "Transported" (column_of file0) final_df in
  for_fold (py.slice1 csv_files) final_df (λ final_df file,
    df ← read_csv file;
    let df := pd.set_index df in
    let df := pd.rename "Transported" (column_of file) df in
    pd.join_inner final_df df).

(** Lines 61-69: the frame [final_df[['Transported']]] of the majority
    votes; its index is what [reset_index] writes as [PassengerId]. *)
Definition majority_vote (final_df : DataFrame) : DataFrame :=
  let transported_cols :=
    filter (λ col, startswith col "Transported_" = true) (df_columns final_df) in
  let true_counts := pd.sum_axis1 (pd.getitem final_df transported_cols) in
  let final_df :=
    pd.setitem final_df "Transported"
      ((λ k, Qgtb (inject_Z (Z.of_nat k))
                  (inject_Z (Z.of_nat (length transported_cols)) / 2))
         <$> true_counts) in
  pd.getitem final_df ["Transported"].

(** Lines 32-80. *)
Definition create_ensemble_prediction
    (csv_files : list string) (final_output_file : string)
  : M (option DataFrame) :=
  if length csv_files mod 2 =? 0 then
    print (WarnEvenCount (length csv_files));;
    mret None
  else
    final_df ← load_and_join csv_files;
    let result_df := majority_vote final_df in
    pd.reset_index_to_csv result_df final_output_file;;
    print EnsembleHeader;;
    print (EnsembleUsedFiles (length csv_files));;
    print (EnsembleTrue
             (length (filter (λ b, b = true) (pd.column result_df "Transported"))));;
    print (EnsembleFalse
             (length (filter (λ b, negb b = true) (pd.column result_df "Transported"))));;
    print (EnsembleSaved final_output_file);;
    mret (Some result_df).

(** Lines 95-98: the first file of the list that does not exist. *)
Fixpoint first_missing (csv_files : list string) : option string :=
  match csv_files with
  | [] => None
  | file :: rest => if negb (exists_ file) then Some file else first_missing rest
  end.

(** Lines 100-117: load every file and inner-join on the index. *)
Definition load_and_merge (csv_files : list string) : M DataFrame :=
  file0 ← py.getitem0 csv_files;
  merged_df ← read_csv file0;
  print (LoadedFile file0 (length merged_df));;
  let merged_df := pd.set_index merged_df in
  let merged_df := pd.rename "Transported" (column_of file0) merged_df in
  for_fold (py.slice1 csv_files) merged_df (λ merged_df file,
    df ← read_csv file;
    print (LoadedFile file (length df));;
    let df := pd.set_index df in
    let df := pd.rename "Transported" (column_of file) df in
    pd.join_inner merged_df df).

(** Lines 123-129: the rows on which the predictions are not all the same. *)
Definition disagreements (merged_df : DataFrame) : DataFrame :=
  let transported_cols :=
    filter (λ col, startswith col "Transported_" = true) (df_columns merged_df) in
  let disagreement_mask :=
    (λ k, 1 <? k) <$> pd.nunique_axis1 (pd.getitem merged_df transported_cols) in
  pd.getitem_mask merged_df disagreement_mask.

(** Lines 131-156: save and report. *)
Definition report (merged_df disagreements_df : DataFrame) (output_file : string)
  : M unit :=
  let transported_cols :=
    filter (λ col, startswith col "Transported_" = true) (df_columns merged_df) in
  print (DisagreementRows (len disagreements_df));;
  if 0 <? len disagreements_df then
    pd.reset_index_to_csv disagreements_df output_file;;
    print (SavedResult output_file);;
    print StatsHeader;;
    print (StatsTotal (len merged_df));;
    print (StatsDisagreements (len disagreements_df));;
    rate ← truediv (Z.of_nat (len merged_df) - Z.of_nat (len disagreements_df))
                   (Z.of_nat (len merged_df));
    print (StatsAgreementRate (rate * 100));;
    print DistributionHeader;;
    for_each transported_cols (λ col,
      let true_count :=
        length (filter (λ b, b = true) (pd.column disagreements_df col)) in
      let false_count :=
        length (filter (λ b, b = false) (pd.column disagreements_df col)) in
      print (Distribution col true_count false_count));;
    print SampleHeader;;
    print (Sample (pd.head 10 disagreements_df))
  else
    print NoDisagreements.

(** Lines 82-158. *)
Definition extract_disagreements (csv_files : list string) (output_file : string)
  : M (option DataFrame) :=
  match first_missing csv_files with
  | Some file =>
      print (ErrFileNotFound file);;
      mret None
  | None =>
      merged_df ← load_and_merge csv_files;
      print (MergedRows (len merged_df));;
      let disagreements_df := disagreements merged_df in
      report merged_df disagreements_df output_file;;
      mret (Some disagreements_df)
  end.

(** Lines 165-172: split the configured files into existing and missing. *)
Definition check_files (csv_files : list string) : list string * list string :=
  foldl (λ acc file,
           if exists_ file then (acc.1 ++ [file], acc.2)
           else (acc.1, acc.2 ++ [file]))
        ([], []) csv_files.

(** Lines 162-186: warn about the missing files, stop when none exists,
    and go on with the existing ones. *)
Definition select_files (CSV_FILES : list string) : M (list string) :=
  let csv_files := CSV_FILES in
  let '(existing_files, missing_files) := check_files csv_files in
  (if bool_decide (missing_files ≠ []) then
     print WarnMissingHeader;;
     for_each missing_files (λ f, print (WarnMissingFile f))
   else mret tt);;
  (if bool_decide (existing_files = []) then
     print ErrNoFiles;;
     raise (SystemExit 1)
   else mret tt);;
  (if bool_decide (length existing_files ≠ length csv_files) then
     print (OnlyExisting existing_files)
   else mret tt);;
  mret existing_files.

(** Lines 200-207: the majority vote, when asked for and the number of
    files is odd. *)
Definition final_submission (csv_files : list string)
    (CREATE_FINAL_SUBMISSION : bool) : M unit :=
  if CREATE_FINAL_SUBMISSION then
    if length csv_files mod 2 =? 1 then
      create_ensemble_prediction csv_files "final_submission.csv";;
      mret tt
    else
      print (NoteEvenCount (length csv_files))
  else
    print NoteCompareOnly.

(** Lines 209-212: the closing message. *)
Definition closing (disagreements_df : option DataFrame) (output_file : string)
  : M unit :=
  match disagreements_df with
  | Some df =>
      if 0 <? len df then print (DoneSaved (len df) output_file)
      else print Done
  | None => print Done
  end.

(** Lines 188-212: extract the disagreements of the files kept, then the
    optional vote. *)
Definition process (csv_files : list string) (CREATE_FINAL_SUBMISSION : bool)
  : M unit :=
  let file_stems := stem <$> csv_files in
  let output_file := "disagreements_" +:+ py.join "_vs_" file_stems +:+ ".csv" in
  print Banner;;
  print (InputFiles csv_files);;
  print (OutputFile output_file);;
  print BlankLine;;
  disagreements_df ← extract_disagreements csv_files output_file;
  final_submission csv_files CREATE_FINAL_SUBMISSION;;
  closing disagreements_df output_file.

(** Lines 160-212, with the two module constants as arguments. *)
Definition main (CSV_FILES : list string) (CREATE_FINAL_SUBMISSION : bool)
  : M unit :=
  csv_files ← select_files CSV_FILES;
  process csv_files CREATE_FINAL_SUBMISSION.

End script.

(** ** The joined frame, without the effects

    What the loops of lines 54-58 and 109-117 compute when no file is missing
    and no label clashes; the lemmas below relate the loops to it. *)

(** The frame made of one input file: indexed, its column renamed. *)
Definition frame_of (stem : string → string) (file : string) (t : PredictionTable)
  : DataFrame :=
  pd.rename "Transported" (column_of stem file) (pd.set_index t).

Definition join_rows (l r : list (RecordId * list bool))
  : list (RecordId * list bool) :=
  x ← l; y ← filter (λ y, y.1 = x.1) r; [(x.1, x.2 ++ y.2)].

Definition join_frames (l r : DataFrame) : DataFrame :=
  {| df_columns := df_columns l ++ df_columns r;
     df_rows := join_rows (df_rows l) (df_rows r) |}.

Definition merge_all (stem : string → string) (acc : DataFrame)
    (inputs : list (string * PredictionTable)) : DataFrame :=
  foldl (λ acc ft, join_frames acc (frame_of stem ft.1 ft.2)) acc inputs.

(** One turn of either loop; [verbose] tells the loop of
    [extract_disagreements], which prints, from that of
    [create_ensemble_prediction], which does not. *)
Definition merge_step (stem : string → string) (fs : gmap string PredictionTable)
    (verbose : bool) (acc : DataFrame) (file : string) : M DataFrame :=
  df ← read_csv fs file;
  (if verbose then print (LoadedFile file (length df)) else mret tt);;
  pd.join_inner acc (frame_of stem file df).

(** The frame joined from the given files and their contents, in order. *)
Definition merged_table (stem : string → string)
    (inputs : list (string * PredictionTable)) : DataFrame :=
  match inputs with
  | [] => {| df_columns := []; df_rows := [] |}
  | ft :: rest => merge_all stem (frame_of stem ft.1 ft.2) rest
  end.

(** The entry of the disagreement mask for one row of a frame with the
    given labels (lines 123-127). *)
Definition row_mask (columns : list string) (r : RecordId * list bool) : bool :=
  1 <? length (remove_dups
                 (c ← filter (λ col, startswith col "Transported_" = true) columns;
                  pd.cells columns r.2 c)).

(** Neither loop can end in anything but a missing file or a label clash. *)
Definition merge_failure (e : Exn) : Prop :=
  match e with
  | FileNotFoundError _ | ValueError_overlap _ => True
  | _ => False
  end.

(** The RecordIds of a frame and of an input table, as sets. *)
Definition frame_ids (df : DataFrame) : gset RecordId :=
  list_to_set (df_rows df).*1.

Definition table_ids (t : PredictionTable) : gset RecordId :=
  list_to_set t.*1.

(** The intersection of a non-empty family of sets. *)
Definition intersection_all (Xs : list (gset RecordId)) : gset RecordId :=
  match Xs with
  | [] => ∅
  | X :: Xs' => foldl (∩) X Xs'
  end.

(** The number of [True] cells of a row. *)
Definition count_true (vs : list bool) : nat :=
  length (filter (λ b, b = true) vs).

(** The cells of a row are not all equal. *)
Definition disagree (vs : list bool) : Prop :=
  ∃ a b, a ∈ vs ∧ b ∈ vs ∧ a ≠ b.

(** The shape of a joined frame: distinct labels that all carry the
    prediction prefix, and one cell per label in every row. *)
Definition merged_shape (df : DataFrame) : Prop :=
  NoDup (df_columns df) ∧
  Forall (λ c, startswith c "Transported_" = true) (df_columns df) ∧
  Forall (λ r, length r.2 = length (df_columns df)) (df_rows df).

(** The configured files that exist, in the configured order. *)
Definition existing (fs : gmap string PredictionTable) (csv_files : list string)
  : list string :=
  filter (λ f, is_Some (fs !! f)) csv_files.

(** The configured files that do not exist. *)
Definition missing (fs : gmap string PredictionTable) (csv_files : list string)
  : list string :=
  filter (λ f, ¬ is_Some (fs !! f)) csv_files.


(** A run did not end in a division by zero. *)
Definition no_zero_division {A} (r : result A) : Prop :=
  match r with
  | Raised ZeroDivisionError => False
  | _ => True
  end.

(** How often a RecordId occurs in a list of RecordIds. *)
Definition occurrences (k : RecordId) (ids : list RecordId) : nat :=
  length (filter (λ x, x = k) ids).

(** Whether the cells of a row are all equal can be decided: they are not
    iff both truth values occur. *)
#[global] Instance disagree_dec (vs : list bool) : Decision (disagree vs).
Proof.
  refine (cast_if (decide (true ∈ vs ∧ false ∈ vs))); unfold disagree.
  - destruct a as [Ht Hf]. by exists true, false.
  - intros (a & b & Ha & Hb & Hne). apply n.
    destruct a, b; try done; by split.
Defined.

(** The name [main] gives to the disagreement file (line 190). *)
Definition output_name (stem : string → string) (csv_files : list string) : string :=
  "disagreements_" +:+ py.join "_vs_" (stem <$> csv_files) +:+ ".csv".

(** ** The script where reading and writing can fail

    In the section above every path that exists holds a prediction table
    and every [to_csv] succeeds.  Here a path that exists may be something
    [pd.read_csv] raises on (a directory, a file that does not parse), and
    [to_csv] raises on a path it cannot create (a name that is too long, a
    directory that does not exist); neither is caught by the script.  The
    functions are the same lines of the source over these two operations. *)

(** What a path that exists holds: a CSV file with the columns
    [PassengerId] and [Transported], or something [pd.read_csv] raises on. *)
Inductive Entry :=
| CsvFile (t : PredictionTable)
| NotCsv.

(** The disk: the paths that exist, and the paths [to_csv] can write. *)
Record World := mkWorld {
  entries : gmap string Entry;
  writable : string → bool
}.

Module io.

Section script.

Variable stem : string → string.
Variable w : World.

(** [os.path.exists(file)] *)
Definition exists_ (file : string) : bool :=
  bool_decide (is_Some (entries w !! file)).

(** [pd.read_csv(file)] *)
Definition read_csv (file : string) : M PredictionTable :=
  match entries w !! file with
  | Some (CsvFile t) => mret t
  | Some NotCsv => raise (ReadError file)
  | None => raise (FileNotFoundError file)
  end.

(** [df.reset_index().to_csv(path, index=False)] *)
Definition reset_index_to_csv (df : DataFrame) (path : string) : M unit :=
  if writable w path
  then emit (ToCsv path ("PassengerId" :: df_columns df) (df_rows df))
  else raise (OSError path).

(** Lines 48-58. *)
Definition load_and_join (csv_files : list string) : M DataFrame :=
  file0 ← py.getitem0 csv_files;
  final_df ← read_csv file0;
  let final_df := pd.set_index final_df in
  let final_df := pd.rename "Transported" (column_of stem file0) final_df in
  for_fold (py.slice1 csv_files) final_df (λ final_df file,
    df ← read_csv file;
    let df := pd.set_index df in
    let df := pd.rename "Transported" (column_of stem file) df in
    pd.join_inner final_df df).

(** Lines 32-80. *)
Definition create_ensemble_prediction
    (csv_files : list string) (final_output_file : string)
  : M (option DataFrame) :=
  if length csv_files mod 2 =? 0 then
    print (WarnEvenCount (length csv_files));;
    mret None
  else
    final_df ← load_and_join csv_files;
    let result_df := majority_vote final_df in
    reset_index_to_csv result_df final_output_file;;
    print EnsembleHeader;;
    print (EnsembleUsedFiles (length csv_files));;
    print (EnsembleTrue
             (length (filter (λ b, b = true) (pd.column result_df "Transported"))));;
    print (EnsembleFalse
             (length (filter (λ b, negb b = true) (pd.column result_df "Transported"))));;
    print (EnsembleSaved final_output_file);;
    mret (Some result_df).

(** Lines 95-98. *)
Fixpoint first_missing (csv_files : list string) : option string :=
  match csv_files with
  | [] => None
  | file :: rest => if negb (exists_ file) then Some file else first_missing rest
  end.

(** Lines 100-117. *)
Definition load_and_merge (csv_files : list string) : M DataFrame :=
  file0 ← py.getitem0 csv_files;
  merged_df ← read_csv file0;
  print (LoadedFile file0 (length merged_df));;
  let merged_df := pd.set_index merged_df in
  let merged_df := pd.rename "Transported" (column_of stem file0) merged_df in
  for_fold (py.slice1 csv_files) merged_df (λ merged_df file,
    df ← read_csv file;
    print (LoadedFile file (length df));;
    let df := pd.set_index df in
    let df := pd.rename "Transported" (column_of stem file) df in
    pd.join_inner merged_df df).

(** Lines 131-156. *)
Definition report (merged_df disagreements_df : DataFrame) (output_file : string)
  : M unit :=
  let transported_cols :=
    filter (λ col, startswith col "Transported_" = true) (df_columns merged_df) in
  print (DisagreementRows (len disagreements_df));;
  if 0 <? len disagreements_df then
    reset_index_to_csv disagreements_df output_file;;
    print (SavedResult output_file);;
    print StatsHeader;;
    print (StatsTotal (len merged_df));;
    print (StatsDisagreements (len disagreements_df));;
    rate ← truediv (Z.of_nat (len merged_df) - Z.of_nat (len disagreements_df))
                   (Z.of_nat (len merged_df));
    print (StatsAgreementRate (rate * 100));;
    print DistributionHeader;;
    for_each transported_cols (λ col,
      let true_count :=
        length (filter (λ b, b = true) (pd.column disagreements_df col)) in
      let false_count :=
        length (filter (λ b, b = false) (pd.column disagreements_df col)) in
      print (Distribution col true_count false_count));;
    print SampleHeader;;
    print (Sample (pd.head 10 disagreements_df))
  else
    print NoDisagreements.

(** Lines 82-158. *)
Definition extract_disagreements (csv_files : list string) (output_file : string)
  : M (option DataFrame) :=
  match first_missing csv_files with
  | Some file =>
      print (ErrFileNotFound file);;
      mret None
  | None =>
      merged_df ← load_and_merge csv_files;
      print (MergedRows (len merged_df));;
      let disagreements_df := disagreements merged_df in
      report merged_df disagreements_df output_file;;
      mret (Some disagreements_df)
  end.

(** Lines 165-172. *)
Definition check_files (csv_files : list string) : list string * list string :=
  foldl (λ acc file,
           if exists_ file then (acc.1 ++ [file], acc.2)
           else (acc.1, acc.2 ++ [file]))
        ([], []) csv_files.

(** Lines 162-186. *)
Definition select_files (CSV_FILES : list string) : M (list string) :=
  let csv_files := CSV_FILES in
  let '(existing_files, missing_files) := check_files csv_files in
  (if bool_decide (missing_files ≠ []) then
     print WarnMissingHeader;;
     for_each missing_files (λ f, print (WarnMissingFile f))
   else mret tt);;
  (if bool_decide (existing_files = []) then
     print ErrNoFiles;;
     raise (SystemExit 1)
   else mret tt);;
  (if bool_decide (length existing_files ≠ length csv_files) then
     print (OnlyExisting existing_files)
   else mret tt);;
  mret existing_files.

(** Lines 200-207. *)
Definition final_submission (csv_files : list string)
    (CREATE_FINAL_SUBMISSION : bool) : M unit :=
  if CREATE_FINAL_SUBMISSION then
    if length csv_files mod 2 =? 1 then
      create_ensemble_prediction csv_files "final_submission.csv";;
      mret tt
    else
      print (NoteEvenCount (length csv_files))
  else
    print NoteCompareOnly.

(** Lines 188-212. *)
Definition process (csv_files : list string) (CREATE_FINAL_SUBMISSION : bool)
  : M unit :=
  let file_stems := stem <$> csv_files in
  let output_file := "disagreements_" +:+ py.join "_vs_" file_stems +:+ ".csv" in
  print Banner;;
  print (InputFiles csv_files);;
  print (OutputFile output_file);;
  print BlankLine;;
  disagreements_df ← extract_disagreements csv_files output_file;
  final_submission csv_files CREATE_FINAL_SUBMISSION;;
  closing disagreements_df output_file.

(** Lines 160-212, with the two module constants as arguments. *)
Definition main (CSV_FILES : list string) (CREATE_FINAL_SUBMISSION : bool)
  : M unit :=
  csv_files ← select_files CSV_FILES;
  process csv_files CREATE_FINAL_SUBMISSION.

(** One turn of either merging loop. *)
Definition merge_step (verbose : bool) (acc : DataFrame) (file : string)
  : M DataFrame :=
  df ← read_csv file;
  (if verbose then print (LoadedFile file (length df)) else mret tt);;
  pd.join_inner acc (frame_of stem file df).

End script.

(** The configured files that exist, in the configured order. *)
Definition existing (w : World) (csv_files : list string) : list string :=
  filter (λ f, is_Some (entries w !! f)) csv_files.

End io.

(** The prediction tables of a world: what its readable files hold. *)
Definition tables (w : World) : gmap string PredictionTable :=
  omap (λ e, match e with CsvFile t => Some t | NotCsv => None end) (entries w).

(** A map with an entry for every path that exists in a world. *)
Definition places (w : World) : gmap string PredictionTable :=
  (λ _, []) <$> entries w.

(** Every file of the list is missing or a readable CSV file. *)
Definition readable (w : World) (csv_files : list string) : Prop :=
  Forall (λ f, entries w !! f ≠ Some NotCsv) csv_files.

(** The ways in which merging files that exist can fail: the join raises on
    an overlapping label, or [pd.read_csv] raises on one of the files. *)
Definition read_or_join_failure (w : World) (csv_files : list string) (e : Exn) : Prop :=
  (∃ cols, e = ValueError_overlap cols) ∨
  (∃ file, file ∈ csv_files ∧ e = ReadError file ∧ entries w !! file = Some NotCsv).

(** The world in which the given tables are the files, all readable, and
    every path can be written. *)
Definition ideal (fs : gmap string PredictionTable) : World :=
  {| entries := CsvFile <$> fs; writable := λ _, true |}.

(** The same files where no path can be written. *)
Definition locked (fs : gmap string PredictionTable) : World :=
  {| entries := CsvFile <$> fs; writable := λ _, false |}.

(** ** A concrete [Path(file).stem] and the example of the specification *)

(** [name.rfind(c)] *)
Fixpoint rfind (c : ascii) (name : string) : option nat :=
  match name with
  | EmptyString => None
  | String a rest =>
      match rfind c rest with
      | Some i => Some (S i)
      | None => if decide (a = c) then Some 0 else None
      end
  end.

(** [Path(file).name] for a path without a trailing separator: what follows
    the last ["/"]. *)
Definition path_name (file : string) : string :=
  match rfind "/"%char file with
  | Some i => String.substring (S i) (String.length file - S i) file
  | None => file
  end.

(** [Path(file).stem]: the name up to its last dot, when that dot is neither
    the first nor the last character of the name. *)
Definition path_stem (file : string) : string :=
  let name := path_name file in
  match rfind "."%char name with
  | Some i =>
      if (0 <? i) && (i <? String.length name - 1)
      then String.substring 0 i name else name
  | None => name
  end.

Definition example_fs : gmap string PredictionTable :=
  list_to_map
    [ ("A.csv", [("1", true); ("2", false); ("3", true)]);
      ("B.csv", [("1", true); ("2", true); ("3", true)]);
      ("C.csv", [("1", false); ("2", false); ("3", true)]) ].

Definition example_files : list string := ["A.csv"; "B.csv"; "C.csv"].

Definition example_tables : list PredictionTable :=
  [ [("1", true); ("2", false); ("3", true)];
    [("1", true); ("2", true); ("3", true)];
    [("1", false); ("2", false); ("3", true)] ].

(** Two files of the same name in two directories. *)
Definition clash_files : list string := ["a/pred.csv"; "b/pred.csv"].

Definition clash_fs : gmap string PredictionTable :=
  list_to_map [ ("a/pred.csv", [("1", true)]); ("b/pred.csv", [("1", false)]) ].

(** Two files, the first of which lists the RecordId ["1"] twice. *)
Definition dup_table : PredictionTable := [("1", true); ("1", false)].

Definition dup_fs : gmap string PredictionTable :=
  list_to_map [ ("A.csv", dup_table); ("B.csv", [("1", true)]) ].

(** * Properties *)

(** ** Running a computation *)

Lemma outcome_bind {A B} (m : M A) (k : A → M B) :
  outcome (m ≫= k) =
  match outcome m with Ok a => outcome (k a) | Raised e => Raised e end.
Proof. destruct m as [t [a|e]]; simpl; [|done]. by destruct (k a). Qed.

Lemma events_bind {A B} (m : M A) (k : A → M B) :
  events (m ≫= k) =
  events m ++ match outcome m with Ok a => events (k a) | Raised _ => [] end.
Proof.
  destruct m as [t [a|e]]; simpl; [|by rewrite app_nil_r].
  by destruct (k a).
Qed.

Lemma run_eq {A} (m : M A) : m = (events m, outcome m).
Proof. by destruct m. Qed.

Lemma outcome_for_each_print {A} (xs : list A) (f : A → Msg) :
  outcome (for_each xs (λ x, print (f x))) = Ok tt.
Proof.
  induction xs as [|x xs IH]; [done|].
  cbn [for_each]. by rewrite outcome_bind.
Qed.

Lemma written_for_each_print {A} (xs : list A) (f : A → Msg) :
  written (events (for_each xs (λ x, print (f x)))) = [].
Proof.
  induction xs as [|x xs IH]; [done|]. cbn [for_each].
  rewrite events_bind. simpl. exact IH.
Qed.

Lemma printed_for_each_print {A} (xs : list A) (f : A → Msg) :
  printed (events (for_each xs (λ x, print (f x)))) = f <$> xs.
Proof.
  induction xs as [|x xs IH]; [done|]. cbn [for_each].
  rewrite events_bind. simpl. by rewrite IH.
Qed.

Lemma written_app (t1 t2 : list Event) :
  written (t1 ++ t2) = written t1 ++ written t2.
Proof. apply omap_app. Qed.

Lemma printed_app (t1 t2 : list Event) :
  printed (t1 ++ t2) = printed t1 ++ printed t2.
Proof. apply omap_app. Qed.

(** ** Lists, labels and cells *)

Lemma bind_ext_elem {A B} (f g : A → list B) (l : list A) :
  (∀ x, x ∈ l → f x = g x) → l ≫= f = l ≫= g.
Proof. intros H. apply Forall_bind_ext, Forall_forall. exact H. Qed.

Lemma fmap_ext_elem {A B} (f g : A → B) (l : list A) :
  (∀ x, x ∈ l → f x = g x) → f <$> l = g <$> l.
Proof. intros H. apply Forall_fmap_ext, Forall_forall. exact H. Qed.

Lemma filter_none {A} (P : A → Prop) `{∀ x, Decision (P x)} (l : list A) :
  (∀ x, x ∈ l → ¬ P x) → filter P l = [].
Proof.
  induction l as [|a l IH]; intros Hl; [done|].
  rewrite filter_cons_False; [|apply Hl; left].
  apply IH. intros x Hx. apply Hl. by right.
Qed.

Lemma filter_all {A} (P : A → Prop) `{∀ x, Decision (P x)} (l : list A) :
  (∀ x, x ∈ l → P x) → filter P l = l.
Proof.
  induction l as [|a l IH]; intros Hl; [done|].
  rewrite filter_cons_True; [|apply Hl; left].
  f_equal. apply IH. intros x Hx. apply Hl. by right.
Qed.

(** Selecting by every label of a duplicate-free labelling, in order, gives
    back the whole list. *)
Lemma bind_filter_by_label {A} (f : A → string) (l : list A) :
  NoDup (f <$> l) →
  (c ← f <$> l; filter (λ x, f x = c) l) = l.
Proof.
  induction l as [|a l IH]; intros Hnd; [done|].
  rewrite fmap_cons in Hnd. apply NoDup_cons in Hnd as [Ha Hnd].
  rewrite fmap_cons, bind_cons.
  rewrite filter_cons_True by done.
  rewrite (filter_none (λ x, f x = f a) l); last first.
  { intros x Hx Heq. apply Ha. rewrite <- Heq. by apply list_elem_of_fmap_2. }
  simpl. f_equal.
  rewrite <- (IH Hnd) at 2.
  apply bind_ext_elem. intros c Hc.
  rewrite filter_cons_False; [done|].
  intros Heq. subst c. done.
Qed.

Lemma cells_all (cols : list string) (vs : list bool) :
  NoDup cols → length vs = length cols →
  (c ← cols; pd.cells cols vs c) = vs.
Proof.
  intros Hnd Hlen. unfold pd.cells.
  assert (Hfst : (zip cols vs).*1 = cols) by (apply fst_zip; lia).
  assert (Hsnd : (zip cols vs).*2 = vs) by (apply snd_zip; lia).
  remember (zip cols vs) as l eqn:Hl. clear Hl Hlen.
  subst cols vs.
  transitivity ((c ← l.*1; filter (λ p, p.1 = c) l).*2).
  - generalize (l.*1). intros cs.
    induction cs as [|c cs IH]; [done|].
    rewrite !bind_cons, fmap_app. by rewrite IH.
  - by rewrite bind_filter_by_label.
Qed.

Lemma labels_all (cols : list string) :
  NoDup cols → (c ← cols; filter (λ c', c' = c) cols) = cols.
Proof.
  intros Hnd.
  pose proof (bind_filter_by_label id cols) as H.
  rewrite list_fmap_id in H. by apply H.
Qed.

(** Masking with a mask computed row by row is filtering. *)
Lemma mask_filter {A} (f : A → bool) (l : list A) :
  (filter (λ p, p.2 = true) (zip l (f <$> l))).*1 = filter (λ x, f x = true) l.
Proof.
  induction l as [|a l IH]; [done|].
  rewrite fmap_cons. cbn [zip_with].
  destruct (f a) eqn:Hfa.
  - rewrite filter_cons_True by done.
    rewrite (filter_cons_True (λ x, f x = true)) by done.
    rewrite fmap_cons. by rewrite IH.
  - rewrite filter_cons_False by done.
    rewrite (filter_cons_False (λ x, f x = true)) by (by rewrite Hfa).
    exact IH.
Qed.

(** More than one distinct cell: two cells of the row differ. *)
Lemma nunique_gt_1 (vs : list bool) :
  1 < length (remove_dups vs) ↔ ∃ a b, a ∈ vs ∧ b ∈ vs ∧ a ≠ b.
Proof.
  pose proof (NoDup_remove_dups vs) as Hnd.
  split.
  - intros Hlen.
    destruct (remove_dups vs) as [|a [|b l]] eqn:Heq; simpl in Hlen; [lia..|].
    exists a, b.
    assert (Ha : a ∈ remove_dups vs) by (rewrite Heq; left).
    assert (Hb : b ∈ remove_dups vs) by (rewrite Heq; right; left).
    rewrite elem_of_remove_dups in Ha, Hb.
    split_and!; [done..|].
    intros ->. apply NoDup_cons in Hnd as [Hn _]. apply Hn. left.
  - intros (a & b & Ha & Hb & Hne).
    apply (elem_of_remove_dups vs) in Ha, Hb.
    destruct (remove_dups vs) as [|x [|y l]]; simpl; [|exfalso|lia].
    + by apply elem_of_nil in Ha.
    + apply list_elem_of_singleton in Ha, Hb. congruence.
Qed.

Lemma startswith_column (s : string) :
  startswith ("Transported_" +:+ s) "Transported_" = true.
Proof. unfold startswith. simpl. by destruct s. Qed.

Lemma fmap_zip_fmap {A B C} (g : A → B) (h : A * B → C) (l : list A) :
  h <$> zip l (g <$> l) = (λ x, h (x, g x)) <$> l.
Proof.
  induction l as [|a l IH]; [done|].
  rewrite !fmap_cons. cbn [zip_with]. by rewrite !fmap_cons, IH.
Qed.

Lemma Qgtb_half (k n : nat) :
  Qgtb (inject_Z (Z.of_nat k)) (inject_Z (Z.of_nat n) / 2) = bool_decide (n < 2 * k).
Proof.
  unfold Qgtb, Qle_bool.
  destruct (decide (n < 2 * k)) as [H|H].
  - rewrite bool_decide_true by done.
    apply negb_true_iff, Z.leb_gt. simpl. lia.
  - rewrite bool_decide_false by done.
    apply negb_false_iff, Z.leb_le. simpl. lia.
Qed.

(** ** The join *)

Lemma elem_of_join_rows l r x :
  x ∈ join_rows l r ↔
  ∃ a b, a ∈ l ∧ b ∈ r ∧ b.1 = a.1 ∧ x = (a.1, a.2 ++ b.2).
Proof.
  unfold join_rows. rewrite list_elem_of_bind. split.
  - intros (a & Hx & Ha).
    apply list_elem_of_bind in Hx as (b & Hx & Hb).
    apply list_elem_of_filter in Hb as [Hk Hb].
    apply list_elem_of_singleton in Hx.
    by exists a, b.
  - intros (a & b & Ha & Hb & Hk & ->).
    exists a. split; [|done].
    apply list_elem_of_bind. exists b. split; [by left|].
    by apply list_elem_of_filter.
Qed.

Lemma join_rows_ids l r id :
  id ∈ (join_rows l r).*1 ↔ id ∈ l.*1 ∧ id ∈ r.*1.
Proof.
  rewrite !list_elem_of_fmap. split.
  - intros (x & -> & Hx).
    apply elem_of_join_rows in Hx as (a & b & Ha & Hb & Hk & ->).
    split; [by exists a|exists b]. by split; [simpl|].
  - intros [(a & -> & Ha) (b & Hk & Hb)].
    exists (a.1, a.2 ++ b.2). split; [done|].
    apply elem_of_join_rows. by exists a, b.
Qed.

Lemma join_rows_nil_l r : join_rows [] r = [].
Proof. done. Qed.

Lemma join_inner_disjoint (l r : DataFrame) :
  (∀ c, c ∈ df_columns l → c ∉ df_columns r) →
  pd.join_inner l r = ([], Ok (join_frames l r)).
Proof.
  intros Hd. unfold pd.join_inner.
  by rewrite (filter_none _ _ Hd).
Qed.

Lemma join_inner_outcome (l r : DataFrame) :
  (outcome (pd.join_inner l r) = Ok (join_frames l r) ∧
   ∀ c, c ∈ df_columns l → c ∉ df_columns r) ∨
  ∃ cols, outcome (pd.join_inner l r) = Raised (ValueError_overlap cols).
Proof.
  unfold pd.join_inner.
  destruct (filter _ _) as [|c cs] eqn:Hf; [left|right; by eexists].
  split; [done|].
  intros c Hc Hr.
  assert (c ∈ filter (λ c, c ∈ df_columns r) (df_columns l)) as Hin
    by by apply list_elem_of_filter.
  rewrite Hf in Hin. by apply elem_of_nil in Hin.
Qed.

Lemma events_join_inner (l r : DataFrame) : events (pd.join_inner l r) = [].
Proof. unfold pd.join_inner. by destruct (filter _ _). Qed.

Section merge.

Variable stem : string → string.
Variable fs : gmap string PredictionTable.

Lemma frame_of_eq file (t : PredictionTable) :
  frame_of stem file t =
  {| df_columns := [column_of stem file]; df_rows := (λ r, (r.1, [r.2])) <$> t |}.
Proof. reflexivity. Qed.

Lemma frame_of_ids file (t : PredictionTable) : (df_rows (frame_of stem file t)).*1 = t.*1.
Proof.
  rewrite frame_of_eq. simpl. rewrite <- list_fmap_compose.
  by apply list_fmap_ext.
Qed.

Lemma column_of_inj f g : column_of stem f = column_of stem g → stem f = stem g.
Proof. unfold column_of. intros H. by simplify_eq/=. Qed.

Lemma NoDup_columns (files : list string) :
  NoDup (stem <$> files) → NoDup (column_of stem <$> files).
Proof.
  intros Hnd.
  replace (column_of stem <$> files) with (String.append "Transported_" <$> (stem <$> files))
    by (by rewrite <- list_fmap_compose).
  by apply (NoDup_fmap_2 _).
Qed.

(** *** One turn of the loop *)

Lemma merge_step_ok verbose acc file (t : PredictionTable) :
  fs !! file = Some t →
  column_of stem file ∉ df_columns acc →
  merge_step stem fs verbose acc file =
    ((if verbose then [Print (LoadedFile file (length t))] else []),
     Ok (join_frames acc (frame_of stem file t))).
Proof.
  intros Hf Hc. unfold merge_step, read_csv. rewrite Hf.
  assert (pd.join_inner acc (frame_of stem file t) =
          ([], Ok (join_frames acc (frame_of stem file t)))) as Hj.
  { apply join_inner_disjoint. intros c Hin Hc'.
    rewrite frame_of_eq in Hc'. simpl in Hc'.
    apply list_elem_of_singleton in Hc'. by subst c. }
  destruct verbose; simpl; by rewrite Hj.
Qed.

Lemma merge_step_inv verbose acc file tr df :
  merge_step stem fs verbose acc file = (tr, Ok df) →
  ∃ t, fs !! file = Some t ∧ (column_of stem file ∉ df_columns acc) ∧
       df = join_frames acc (frame_of stem file t).
Proof.
  intros Hrun.
  assert (outcome (merge_step stem fs verbose acc file) = Ok df) as Ho
    by by rewrite Hrun.
  unfold merge_step, read_csv in Ho.
  destruct (fs !! file) as [t|] eqn:Hf; [|done].
  exists t. split; [done|].
  rewrite outcome_bind in Ho.
  change (outcome (mret t)) with (Ok t) in Ho. cbv beta iota in Ho.
  rewrite outcome_bind in Ho.
  assert (outcome (pd.join_inner acc (frame_of stem file t)) = Ok df) as Hj
    by by destruct verbose.
  destruct (join_inner_outcome acc (frame_of stem file t))
    as [[Hok Hd]|[cols Hbad]]; [|congruence].
  split; [|congruence].
  intros Hin. apply (Hd _ Hin). rewrite frame_of_eq. simpl. by left.
Qed.

Lemma merge_step_raised verbose acc file e :
  outcome (merge_step stem fs verbose acc file) = Raised e → merge_failure e.
Proof.
  unfold merge_step, read_csv.
  destruct (fs !! file) as [t|]; [|by intros [= <-]].
  rewrite outcome_bind.
  change (outcome (mret t)) with (Ok t). cbv beta iota.
  rewrite outcome_bind.
  intros Hj.
  assert (outcome (pd.join_inner acc (frame_of stem file t)) = Raised e) as Hj'
    by by destruct verbose.
  destruct (join_inner_outcome acc (frame_of stem file t))
    as [[Hok _]|[cols Hbad]]; [congruence|].
  rewrite Hbad in Hj'. by injection Hj' as <-.
Qed.

(** *** The whole loop *)

Lemma merge_loop_ok verbose files (tables : list PredictionTable) acc :
  Forall2 (λ f t, fs !! f = Some t) files tables →
  NoDup (column_of stem <$> files) →
  (∀ f, f ∈ files → column_of stem f ∉ df_columns acc) →
  for_fold files acc (merge_step stem fs verbose) =
    ((if verbose
      then (λ ft, Print (LoadedFile ft.1 (length ft.2))) <$> zip files tables
      else []),
     Ok (merge_all stem acc (zip files tables))).
Proof.
  intros Hall. revert acc.
  induction Hall as [|f t files tables Hf Hall IH]; intros acc Hnd Hacc; simpl.
  { by destruct verbose. }
  rewrite fmap_cons in Hnd. apply NoDup_cons in Hnd as [Hf' Hnd].
  rewrite (merge_step_ok verbose acc f t Hf) by (apply Hacc; left).
  cbn [mbind M_bind].
  rewrite IH; [by destruct verbose|done|].
  intros g Hg. simpl. rewrite elem_of_app, list_elem_of_singleton.
  intros [Hin|Heq].
  - by apply (Hacc g); [right|].
  - apply Hf'. rewrite <- Heq. by apply list_elem_of_fmap_2.
Qed.

Lemma merge_loop_inv verbose files acc tr df :
  for_fold files acc (merge_step stem fs verbose) = (tr, Ok df) →
  ∃ tables,
    Forall2 (λ f t, fs !! f = Some t) files tables ∧
    NoDup (column_of stem <$> files) ∧
    (∀ f, f ∈ files → column_of stem f ∉ df_columns acc) ∧
    df = merge_all stem acc (zip files tables).
Proof.
  revert acc tr.
  induction files as [|f files IH]; intros acc tr Hrun; simpl in Hrun.
  { exists []. injection Hrun as _ <-.
    split_and!; [constructor|constructor|by intros ? ?%elem_of_nil|done]. }
  destruct (merge_step stem fs verbose acc f) as [tr1 [acc'|e]] eqn:Hstep;
    [|done].
  apply merge_step_inv in Hstep as (t & Hf & Hc & ->).
  cbn [mbind M_bind] in Hrun.
  destruct (for_fold files _ _) as [tr2 r] eqn:Hrest.
  injection Hrun as _ ->.
  apply IH in Hrest as (tables & Hall & Hnd & Hacc & ->).
  exists (t :: tables).
  assert (∀ g, g ∈ files →
            (column_of stem g ∉ df_columns acc) ∧
            column_of stem g ≠ column_of stem f) as Hsplit.
  { intros g Hg. specialize (Hacc g Hg). simpl in Hacc.
    rewrite elem_of_app, list_elem_of_singleton in Hacc. tauto. }
  split_and!; [by constructor| |  |done].
  - rewrite fmap_cons. apply NoDup_cons. split; [|done].
    intros (g & Heq & Hg)%list_elem_of_fmap.
    by destruct (Hsplit g Hg) as [_ Hne].
  - intros g [->|Hg]%elem_of_cons; [done|]. by apply Hsplit.
Qed.

Lemma merge_loop_raised verbose files acc e :
  outcome (for_fold files acc (merge_step stem fs verbose)) = Raised e →
  merge_failure e.
Proof.
  revert acc. induction files as [|f files IH]; intros acc; [done|].
  cbn [for_fold]. rewrite outcome_bind.
  destruct (outcome (merge_step stem fs verbose acc f)) as [acc'|e'] eqn:Hstep.
  - apply IH.
  - intros [= <-]. by eapply merge_step_raised.
Qed.

Lemma events_merge_loop_written verbose files acc :
  written (events (for_fold files acc (merge_step stem fs verbose))) = [].
Proof.
  revert acc. induction files as [|f files IH]; intros acc; [done|].
  cbn [for_fold]. rewrite events_bind, written_app.
  assert (written (events (merge_step stem fs verbose acc f)) = []) as ->.
  { unfold merge_step, read_csv. destruct (fs !! f) as [t|]; [|done].
    rewrite events_bind. simpl. rewrite events_bind, written_app.
    rewrite events_join_inner.
    by destruct verbose. }
  destruct (outcome _); [apply IH|done].
Qed.

(** *** The joined frame *)

Lemma merge_all_cons acc ft inputs :
  merge_all stem acc (ft :: inputs) =
  merge_all stem (join_frames acc (frame_of stem ft.1 ft.2)) inputs.
Proof. done. Qed.

Lemma merge_all_columns acc inputs :
  df_columns (merge_all stem acc inputs) =
  df_columns acc ++ (column_of stem <$> inputs.*1).
Proof.
  revert acc. induction inputs as [|[f t] inputs IH]; intros acc.
  - simpl. by rewrite app_nil_r.
  - rewrite merge_all_cons, IH. simpl. by rewrite <- app_assoc.
Qed.

Lemma merge_all_cells acc inputs :
  Forall (λ r, length r.2 = length (df_columns acc)) (df_rows acc) →
  Forall (λ r, length r.2 = length (df_columns (merge_all stem acc inputs)))
         (df_rows (merge_all stem acc inputs)).
Proof.
  revert acc. induction inputs as [|[f t] inputs IH]; intros acc Hacc; [done|].
  rewrite merge_all_cons. apply IH. simpl.
  apply Forall_forall. intros x Hx.
  apply elem_of_join_rows in Hx as (a & b & Ha & Hb & _ & ->).
  rewrite Forall_forall in Hacc. simpl.
  rewrite !length_app, (Hacc a Ha). simpl. f_equal.
  apply list_elem_of_fmap in Hb as (p & -> & _). done.
Qed.

Lemma merge_all_ids acc inputs id :
  id ∈ (df_rows (merge_all stem acc inputs)).*1 ↔
  id ∈ (df_rows acc).*1 ∧ Forall (λ ft, id ∈ ft.2.*1) inputs.
Proof.
  revert acc. induction inputs as [|[f t] inputs IH]; intros acc.
  - simpl. split; [by intros ?; split|by intros [? _]].
  - rewrite merge_all_cons, IH.
    change (df_rows (join_frames acc (frame_of stem (f, t).1 (f, t).2)))
      with (join_rows (df_rows acc) (df_rows (frame_of stem f t))).
    rewrite join_rows_ids, frame_of_ids, Forall_cons. simpl. tauto.
Qed.

Lemma merge_all_nil acc inputs :
  df_rows acc = [] → df_rows (merge_all stem acc inputs) = [].
Proof.
  revert acc. induction inputs as [|[f t] inputs IH]; intros acc Hacc; [done|].
  rewrite merge_all_cons. apply IH. simpl. by rewrite Hacc.
Qed.

End merge.

(** ** The disagreement filter *)

Lemma disagreements_filter (df : DataFrame) :
  disagreements df =
  {| df_columns := df_columns df;
     df_rows := filter (λ r, row_mask (df_columns df) r = true) (df_rows df) |}.
Proof.
  unfold disagreements, pd.getitem_mask, pd.nunique_axis1, pd.getitem.
  cbn [df_rows df_columns]. f_equal.
  rewrite <- !list_fmap_compose.
  apply (mask_filter (row_mask (df_columns df))).
Qed.

Lemma getitem_all (df : DataFrame) :
  merged_shape df →
  pd.getitem df (filter (λ col, startswith col "Transported_" = true) (df_columns df))
  = df.
Proof.
  intros (Hnd & Hpre & Hlen).
  rewrite filter_all by (by apply Forall_forall).
  destruct df as [cols rows]. unfold pd.getitem. cbn [df_columns df_rows] in *.
  f_equal; [by apply labels_all|].
  rewrite <- (list_fmap_id rows) at 2.
  apply fmap_ext_elem. intros [k vs] Hr. simpl. f_equal.
  apply cells_all; [done|].
  rewrite Forall_forall in Hlen. by apply (Hlen _ Hr).
Qed.

Lemma row_mask_shape (df : DataFrame) (r : RecordId * list bool) :
  merged_shape df → r ∈ df_rows df →
  row_mask (df_columns df) r = (1 <? length (remove_dups r.2)).
Proof.
  intros (Hnd & Hpre & Hlen) Hr. unfold row_mask.
  rewrite filter_all by (by apply Forall_forall).
  rewrite cells_all; [done..|].
  rewrite Forall_forall in Hlen. by apply Hlen.
Qed.

Lemma len_disagreements (df : DataFrame) : len (disagreements df) ≤ len df.
Proof. rewrite disagreements_filter. unfold len. simpl. apply length_filter. Qed.

(** ** The majority column *)

Lemma cells_appended (cols : list string) (vs : list bool) (label : string) (b : bool) :
  label ∉ cols → length vs = length cols →
  pd.cells (cols ++ [label]) (vs ++ [b]) label = [b].
Proof.
  intros Hnew Hlen. unfold pd.cells.
  rewrite zip_with_app by done.
  rewrite filter_app, fmap_app.
  rewrite filter_none; [simpl; by rewrite filter_cons_True|].
  intros [c v] Hin Heq. simpl in Heq. subst c.
  apply Hnew. apply (list_elem_of_fmap_2 fst) in Hin.
  rewrite fst_zip in Hin by lia. done.
Qed.

Lemma prefix_not_label (cols : list string) :
  Forall (λ c, startswith c "Transported_" = true) cols → "Transported" ∉ cols.
Proof.
  intros Hpre Hin. rewrite Forall_forall in Hpre.
  by specialize (Hpre _ Hin).
Qed.

(** Lines 61-69 on a joined frame: the frame [final_df[['Transported']]]
    holds, per row, the vote computed from the number of [True] cells. *)
Lemma majority_frame (df : DataFrame) (g : nat → bool) :
  merged_shape df →
  pd.getitem
    (pd.setitem df "Transported"
       (g <$> pd.sum_axis1
                (pd.getitem df
                   (filter (λ col, startswith col "Transported_" = true)
                           (df_columns df)))))
    ["Transported"] =
  {| df_columns := ["Transported"];
     df_rows := (λ r, (r.1, [g (count_true r.2)])) <$> df_rows df |}.
Proof.
  intros Hshape. rewrite getitem_all by done.
  destruct Hshape as (Hnd & Hpre & Hlen).
  pose proof (prefix_not_label _ Hpre) as Hnew.
  unfold pd.setitem. rewrite decide_False by done.
  unfold pd.getitem, pd.sum_axis1. cbn [df_columns df_rows].
  rewrite <- !list_fmap_compose, fmap_zip_fmap.
  rewrite !bind_singleton. f_equal.
  - rewrite filter_app, filter_none; [by rewrite filter_cons_True|].
    intros c Hc ->. done.
  - apply fmap_ext_elem. intros [k vs] Hr.
    unfold compose. cbn [fst snd]. f_equal.
    rewrite bind_singleton. apply cells_appended; [done|].
    rewrite Forall_forall in Hlen. by apply (Hlen _ Hr).
Qed.

(** ** The two merging loops of the script *)

Lemma for_fold_ext {A S} (xs : list A) (acc : S) (body1 body2 : S → A → M S) :
  (∀ acc x, body1 acc x = body2 acc x) →
  for_fold xs acc body1 = for_fold xs acc body2.
Proof.
  intros Hext. revert acc.
  induction xs as [|x xs IH]; intros acc; [done|].
  cbn [for_fold]. rewrite Hext.
  destruct (body2 acc x) as [t [acc'|e]]; [|done].
  cbn [mbind M_bind]. by rewrite IH.
Qed.

(** Steps through the binds of a run whose head is a print or a write. *)
Ltac run_binds :=
  repeat (first [rewrite events_bind | rewrite outcome_bind];
          cbn [outcome events print emit raise mret M_ret snd fst
               pd.reset_index_to_csv]).

Lemma intersection_all_cons (X : gset RecordId) (Xs : list (gset RecordId)) id :
  id ∈ foldl (∩) X Xs ↔ id ∈ X ∧ Forall (λ Y, id ∈ Y) Xs.
Proof.
  revert X. induction Xs as [|Y Xs IH]; intros X; simpl.
  - split; [by intros ?; split|by intros [? _]].
  - rewrite IH, Forall_cons, elem_of_intersection. tauto.
Qed.

Section inputs.

Variable fs : gmap string PredictionTable.

Lemma first_missing_None (csv_files : list string) :
  first_missing fs csv_files = None ↔ Forall (λ f, is_Some (fs !! f)) csv_files.
Proof.
  induction csv_files as [|f files IH]; simpl.
  - split; [constructor|done].
  - rewrite Forall_cons, <- IH. unfold exists_.
    destruct (bool_decide_reflect (is_Some (fs !! f))); simpl; [tauto|].
    split; [done|tauto].
Qed.

Lemma first_missing_Some (csv_files : list string) (file : string) :
  first_missing fs csv_files = Some file → file ∈ csv_files ∧ fs !! file = None.
Proof.
  induction csv_files as [|f files IH]; simpl; [done|].
  unfold exists_.
  destruct (bool_decide_reflect (is_Some (fs !! f))) as [Hf|Hf]; simpl.
  - intros [Hin Hnone]%IH. split; [by right|done].
  - intros [= <-]. split; [by left|].
    by apply eq_None_not_Some.
Qed.

Lemma first_missing_elem (csv_files : list string) (file : string) :
  file ∈ csv_files → fs !! file = None → is_Some (first_missing fs csv_files).
Proof.
  intros Hin Hnone.
  destruct (first_missing fs csv_files) eqn:Hfm; [by eexists|].
  apply first_missing_None in Hfm. rewrite Forall_forall in Hfm.
  destruct (Hfm _ Hin) as [t Ht]. congruence.
Qed.

Lemma Forall2_lookup_exists (csv_files : list string) (tables : list PredictionTable) :
  Forall2 (λ f t, fs !! f = Some t) csv_files tables →
  Forall (λ f, is_Some (fs !! f)) csv_files.
Proof. induction 1; constructor; [by eexists|done]. Qed.

Lemma exists_lookup_Forall2 (csv_files : list string) :
  Forall (λ f, is_Some (fs !! f)) csv_files →
  ∃ tables : list PredictionTable,
    Forall2 (λ f t, fs !! f = Some t) csv_files tables.
Proof.
  induction 1 as [|f files [t Ht] _ [tables IH]].
  - exists []. constructor.
  - exists (t :: tables). by constructor.
Qed.

Lemma check_files_filter (csv_files : list string) :
  check_files fs csv_files = (existing fs csv_files, missing fs csv_files).
Proof.
  unfold check_files, existing, missing.
  enough (∀ e m,
    foldl (λ acc file,
             if exists_ fs file then (acc.1 ++ [file], acc.2)
             else (acc.1, acc.2 ++ [file])) (e, m) csv_files =
    (e ++ filter (λ f, is_Some (fs !! f)) csv_files,
     m ++ filter (λ f, ¬ is_Some (fs !! f)) csv_files)) as H by apply (H [] []).
  induction csv_files as [|f files IH]; intros e m; simpl.
  - by rewrite !app_nil_r.
  - unfold exists_ at 2.
    destruct (bool_decide_reflect (is_Some (fs !! f))) as [Hf|Hf].
    + rewrite IH. simpl. rewrite filter_cons_True by done.
      rewrite (filter_cons_False (λ f, ¬ is_Some (fs !! f))) by tauto.
      by rewrite <- app_assoc.
    + rewrite IH. simpl. rewrite filter_cons_False by done.
      rewrite (filter_cons_True (λ f, ¬ is_Some (fs !! f))) by done.
      by rewrite <- app_assoc.
Qed.

Lemma select_files_outcome (CSV_FILES : list string) :
  outcome (select_files fs CSV_FILES) =
  if bool_decide (existing fs CSV_FILES = []) then Raised (SystemExit 1)
  else Ok (existing fs CSV_FILES).
Proof.
  unfold select_files. rewrite check_files_filter.
  rewrite outcome_bind.
  assert (outcome (if bool_decide (missing fs CSV_FILES ≠ [])
                   then print WarnMissingHeader;;
                        for_each (missing fs CSV_FILES) (λ f, print (WarnMissingFile f))
                   else mret tt) = Ok tt) as ->.
  { case_bool_decide; [|done]. run_binds. apply outcome_for_each_print. }
  rewrite outcome_bind.
  case_bool_decide; [by run_binds|].
  cbn [outcome mret M_ret snd]. rewrite outcome_bind.
  by case_bool_decide.
Qed.

Lemma select_files_written (CSV_FILES : list string) :
  written (events (select_files fs CSV_FILES)) = [].
Proof.
  unfold select_files. rewrite check_files_filter.
  rewrite events_bind, written_app.
  assert (written (events (if bool_decide (missing fs CSV_FILES ≠ [])
                   then print WarnMissingHeader;;
                        for_each (missing fs CSV_FILES) (λ f, print (WarnMissingFile f))
                   else mret tt)) = []) as ->.
  { case_bool_decide; [|done]. run_binds. apply written_for_each_print. }
  destruct (outcome _); [|done].
  rewrite events_bind, written_app.
  case_bool_decide; [by run_binds|].
  cbn [outcome events mret M_ret snd fst]. rewrite events_bind.
  by case_bool_decide.
Qed.

Lemma select_files_warns (CSV_FILES : list string) (file : string) :
  file ∈ CSV_FILES → fs !! file = None →
  WarnMissingFile file ∈ printed (events (select_files fs CSV_FILES)).
Proof.
  intros Hin Hnone.
  assert (file ∈ missing fs CSV_FILES) as Hmiss.
  { apply list_elem_of_filter. split; [|done]. rewrite Hnone. by intros [? ?]. }
  unfold select_files. rewrite check_files_filter.
  rewrite events_bind, printed_app. apply elem_of_app. left.
  rewrite bool_decide_true by (intros Heq; rewrite Heq in Hmiss; by apply elem_of_nil in Hmiss).
  run_binds. rewrite printed_app, printed_for_each_print.
  apply elem_of_app. right. by apply list_elem_of_fmap_2.
Qed.

Lemma existing_exist (CSV_FILES : list string) :
  Forall (λ f, is_Some (fs !! f)) (existing fs CSV_FILES).
Proof. apply Forall_forall. intros f Hf. by apply list_elem_of_filter in Hf as [? _]. Qed.

End inputs.

Section runs.

Variable stem : string → string.
Variable fs : gmap string PredictionTable.

Lemma load_and_merge_unfold (csv_files : list string) :
  load_and_merge stem fs csv_files =
  (file0 ← py.getitem0 csv_files;
   merged_df ← read_csv fs file0;
   print (LoadedFile file0 (length merged_df));;
   for_fold (py.slice1 csv_files) (frame_of stem file0 merged_df)
            (merge_step stem fs true)).
Proof. reflexivity. Qed.

Lemma NoDup_columns_cons (f : string) (files : list string) :
  NoDup (stem <$> f :: files) →
  NoDup (column_of stem <$> files) ∧
  ∀ g, g ∈ files → column_of stem g ∉ df_columns (frame_of stem f []).
Proof.
  intros Hnd%NoDup_columns.
  rewrite fmap_cons in Hnd. apply NoDup_cons in Hnd as [Hf Hnd].
  split; [done|].
  intros g Hg Hin. rewrite frame_of_eq in Hin. simpl in Hin.
  apply list_elem_of_singleton in Hin.
  apply Hf. rewrite <- Hin. by apply list_elem_of_fmap_2.
Qed.

Lemma load_and_merge_ok (csv_files : list string) (tables : list PredictionTable) :
  csv_files ≠ [] →
  Forall2 (λ f t, fs !! f = Some t) csv_files tables →
  NoDup (stem <$> csv_files) →
  load_and_merge stem fs csv_files =
    ((λ ft, Print (LoadedFile ft.1 (length ft.2))) <$> zip csv_files tables,
     Ok (merged_table stem (zip csv_files tables))).
Proof.
  intros Hne Hall Hnd.
  destruct Hall as [|f0 t0 rest ts Hf0 Hall]; [done|].
  apply NoDup_columns_cons in Hnd as [Hnd Hacc].
  rewrite load_and_merge_unfold. unfold read_csv.
  cbn [py.getitem0 py.slice1 drop]. cbn [mbind M_bind mret M_ret app].
  rewrite Hf0. cbn [mbind M_bind mret M_ret app print emit].
  rewrite (merge_loop_ok stem fs true rest ts) by done.
  done.
Qed.

Lemma load_and_merge_inv (csv_files : list string) tr df :
  load_and_merge stem fs csv_files = (tr, Ok df) →
  ∃ tables : list PredictionTable,
    csv_files ≠ [] ∧
    Forall2 (λ f t, fs !! f = Some t) csv_files tables ∧
    NoDup (stem <$> csv_files) ∧
    df = merged_table stem (zip csv_files tables).
Proof.
  rewrite load_and_merge_unfold. unfold read_csv.
  destruct csv_files as [|f0 rest]; [done|].
  cbn [py.getitem0 py.slice1 drop]. cbn [mbind M_bind mret M_ret app].
  destruct (fs !! f0) as [t0|] eqn:Hf0; [|done].
  cbn [mbind M_bind mret M_ret app print emit].
  change (drop 0 rest) with rest.
  destruct (for_fold rest _ _) as [tr' r] eqn:Hloop.
  intros [= <- ->].
  apply merge_loop_inv in Hloop as (ts & Hall & Hnd & Hacc & ->).
  exists (t0 :: ts). split_and!; [done|by constructor| |done].
  apply (NoDup_fmap_1 (String.append "Transported_")).
  rewrite <- list_fmap_compose.
  change (String.append "Transported_" ∘ stem) with (column_of stem).
  rewrite fmap_cons. apply NoDup_cons. split; [|done].
  intros (g & Heq & Hg)%list_elem_of_fmap.
  apply (Hacc g Hg). rewrite frame_of_eq. simpl. rewrite Heq. by left.
Qed.

Lemma load_and_merge_raised (csv_files : list string) e :
  outcome (load_and_merge stem fs csv_files) = Raised e →
  e = IndexError ∨ merge_failure e.
Proof.
  rewrite load_and_merge_unfold. unfold read_csv.
  destruct csv_files as [|f0 rest]; [by intros [= <-]; left|].
  cbn [py.getitem0 py.slice1 drop].
  rewrite outcome_bind. change (outcome (mret f0)) with (Ok f0). cbv beta iota.
  rewrite outcome_bind.
  destruct (fs !! f0) as [t0|] eqn:Hf0; [|by intros [= <-]; right].
  change (outcome (mret t0)) with (Ok t0). cbv beta iota.
  rewrite outcome_bind. simpl.
  intros H. right. by eapply merge_loop_raised.
Qed.

Lemma load_and_merge_written (csv_files : list string) :
  written (events (load_and_merge stem fs csv_files)) = [].
Proof.
  rewrite load_and_merge_unfold. unfold read_csv.
  destruct csv_files as [|f0 rest]; [done|].
  cbn [py.getitem0 py.slice1 drop].
  rewrite events_bind. change (outcome (mret f0)) with (Ok f0). cbv beta iota.
  rewrite events_bind.
  destruct (fs !! f0) as [t0|] eqn:Hf0; [|done].
  change (outcome (mret t0)) with (Ok t0). cbv beta iota.
  rewrite events_bind. simpl.
  apply events_merge_loop_written.
Qed.

(** *** The shape and the RecordIds of the joined frame *)

Lemma merged_table_columns (csv_files : list string) (tables : list PredictionTable) :
  length csv_files = length tables →
  df_columns (merged_table stem (zip csv_files tables)) = column_of stem <$> csv_files.
Proof.
  intros Hlen. destruct csv_files as [|f0 rest], tables as [|t0 ts]; try done.
  simpl in Hlen. cbn [zip_with merged_table].
  rewrite merge_all_columns, fst_zip by lia. done.
Qed.

Lemma merged_table_shape (csv_files : list string) (tables : list PredictionTable) :
  length csv_files = length tables →
  NoDup (stem <$> csv_files) →
  merged_shape (merged_table stem (zip csv_files tables)).
Proof.
  intros Hlen Hnd. unfold merged_shape.
  rewrite merged_table_columns by done.
  split_and!.
  - by apply NoDup_columns.
  - apply Forall_fmap, Forall_forall. intros f _. apply startswith_column.
  - rewrite <- (merged_table_columns _ tables) by done.
    destruct csv_files as [|f0 rest], tables as [|t0 ts]; try done.
    cbn [zip_with merged_table]. apply merge_all_cells.
    rewrite frame_of_eq. simpl. apply Forall_fmap, Forall_forall. done.
Qed.

Lemma merged_table_ids (csv_files : list string) (tables : list PredictionTable) :
  csv_files ≠ [] →
  length csv_files = length tables →
  frame_ids (merged_table stem (zip csv_files tables)) =
  intersection_all (table_ids <$> tables).
Proof.
  intros Hne Hlen. destruct csv_files as [|f0 rest], tables as [|t0 ts]; try done.
  simpl in Hlen. cbn [zip_with merged_table].
  apply set_eq. intros id. unfold frame_ids.
  rewrite elem_of_list_to_set, merge_all_ids, frame_of_ids.
  rewrite fmap_cons. cbn [intersection_all].
  rewrite intersection_all_cons. unfold table_ids at 1.
  rewrite elem_of_list_to_set, Forall_fmap.
  assert (Forall (λ ft, id ∈ ft.2.*1) (zip rest ts) ↔
          Forall (λ t : PredictionTable, id ∈ t.*1) ts) as ->.
  { rewrite <- (snd_zip rest ts) at 2 by lia. by rewrite Forall_fmap. }
  apply and_iff_compat_l, Forall_iff. intros t. unfold table_ids. simpl.
  by rewrite elem_of_list_to_set.
Qed.

(** *** Saving and reporting *)

Lemma truediv_outcome (a b : Z) :
  b ≠ 0%Z → truediv a b = ([], Ok (inject_Z a / inject_Z b)%Q).
Proof. intros Hb. unfold truediv. by rewrite decide_False. Qed.

Lemma report_empty (merged_df disagreements_df : DataFrame) (output_file : string) :
  len disagreements_df = 0 →
  report merged_df disagreements_df output_file =
    ([Print (DisagreementRows 0); Print NoDisagreements], Ok tt).
Proof. intros Hlen. unfold report. by rewrite Hlen. Qed.

Lemma report_written (merged_df disagreements_df : DataFrame) (output_file : string) :
  0 < len disagreements_df →
  written (events (report merged_df disagreements_df output_file)) =
    [(output_file,
      ("PassengerId" :: df_columns disagreements_df, df_rows disagreements_df))].
Proof.
  intros Hlen. unfold report.
  replace (0 <? len disagreements_df) with true
    by (symmetry; by apply Nat.ltb_lt).
  unfold truediv. destruct (decide _) as [Hz|Hz]; run_binds;
    rewrite ?outcome_for_each_print; run_binds;
    rewrite !written_app, ?written_for_each_print; done.
Qed.

Lemma report_outcome (merged_df disagreements_df : DataFrame) (output_file : string) :
  len disagreements_df ≤ len merged_df →
  outcome (report merged_df disagreements_df output_file) = Ok tt.
Proof.
  intros Hle. unfold report.
  destruct (0 <? len disagreements_df) eqn:Hlen; [|by run_binds].
  apply Nat.ltb_lt in Hlen.
  rewrite truediv_outcome by lia.
  run_binds. rewrite outcome_for_each_print. by run_binds.
Qed.

Lemma report_raised (merged_df disagreements_df : DataFrame) (output_file : string) e :
  outcome (report merged_df disagreements_df output_file) = Raised e →
  e = ZeroDivisionError ∧ len merged_df = 0 ∧ 0 < len disagreements_df.
Proof.
  unfold report.
  destruct (0 <? len disagreements_df) eqn:Hlen; [|by run_binds].
  apply Nat.ltb_lt in Hlen.
  unfold truediv. destruct (decide _) as [Hz|Hz]; run_binds.
  - intros [= <-]. split_and!; [done|lia|done].
  - rewrite outcome_for_each_print. by run_binds.
Qed.

(** *** [extract_disagreements] *)

Lemma extract_disagreements_ok
    (csv_files : list string) (tables : list PredictionTable) (output_file : string) :
  csv_files ≠ [] →
  Forall2 (λ f t, fs !! f = Some t) csv_files tables →
  NoDup (stem <$> csv_files) →
  extract_disagreements stem fs csv_files output_file =
    (((λ ft, Print (LoadedFile ft.1 (length ft.2))) <$> zip csv_files tables) ++
     Print (MergedRows (len (merged_table stem (zip csv_files tables)))) ::
     events (report (merged_table stem (zip csv_files tables))
               (disagreements (merged_table stem (zip csv_files tables)))
               output_file),
     Ok (Some (disagreements (merged_table stem (zip csv_files tables))))).
Proof.
  intros Hne Hall Hnd. unfold extract_disagreements.
  pose proof (Forall2_lookup_exists fs _ _ Hall) as Hex.
  apply (first_missing_None fs csv_files) in Hex. rewrite Hex.
  rewrite (load_and_merge_ok _ tables) by done.
  cbn [mbind M_bind print emit mret M_ret app].
  pose proof (report_outcome (merged_table stem (zip csv_files tables))
                (disagreements (merged_table stem (zip csv_files tables)))
                output_file (len_disagreements _)) as Hrep.
  destruct (report _ _ _) as [tr r]. simpl in Hrep. subst r.
  simpl. by rewrite app_nil_r.
Qed.

Lemma extract_disagreements_outcome (csv_files : list string) (output_file : string) :
  match outcome (extract_disagreements stem fs csv_files output_file) with
  | Ok None => is_Some (first_missing fs csv_files)
  | Ok (Some disagreements_df) =>
      ∃ tr merged_df,
        first_missing fs csv_files = None ∧
        load_and_merge stem fs csv_files = (tr, Ok merged_df) ∧
        disagreements_df = disagreements merged_df
  | Raised e => e = IndexError ∨ merge_failure e
  end.
Proof.
  unfold extract_disagreements.
  destruct (first_missing fs csv_files) as [f|] eqn:Hfm; [by eexists|].
  rewrite outcome_bind.
  destruct (load_and_merge stem fs csv_files) as [tr [merged_df|e]] eqn:Hload.
  - cbn [outcome snd]. run_binds.
    rewrite (report_outcome _ _ _ (len_disagreements _)). cbn [outcome snd mret M_ret].
    by exists tr, merged_df.
  - cbn [outcome snd]. apply (load_and_merge_raised csv_files). by rewrite Hload.
Qed.

Lemma extract_disagreements_missing
    (csv_files : list string) (file : string) (output_file : string) :
  first_missing fs csv_files = Some file →
  extract_disagreements stem fs csv_files output_file =
    ([Print (ErrFileNotFound file)], Ok None).
Proof. intros Hfm. unfold extract_disagreements. by rewrite Hfm. Qed.

(** *** [create_ensemble_prediction] *)

Lemma odd_not_even (n : nat) : n mod 2 = 1 → (n mod 2 =? 0) = false.
Proof. intros ->. done. Qed.

Lemma load_and_join_unfold (csv_files : list string) :
  load_and_join stem fs csv_files =
  (file0 ← py.getitem0 csv_files;
   final_df ← read_csv fs file0;
   for_fold (py.slice1 csv_files) (frame_of stem file0 final_df)
            (merge_step stem fs false)).
Proof.
  unfold load_and_join.
  destruct csv_files as [|f0 rest]; [done|].
  cbn [py.getitem0 py.slice1 drop]. cbn [mbind M_bind mret M_ret app].
  unfold read_csv.
  destruct (fs !! f0) as [t0|]; [|done].
  cbn [mbind M_bind mret M_ret app].
  rewrite (for_fold_ext rest _ _ (merge_step stem fs false)); [done|].
  intros acc file. unfold merge_step, read_csv.
  destruct (fs !! file) as [t|]; [|done].
  cbn [mbind M_bind mret M_ret app].
  by destruct (pd.join_inner _ _).
Qed.

Lemma load_and_join_ok (csv_files : list string) (tables : list PredictionTable) :
  csv_files ≠ [] →
  Forall2 (λ f t, fs !! f = Some t) csv_files tables →
  NoDup (stem <$> csv_files) →
  load_and_join stem fs csv_files =
    ([], Ok (merged_table stem (zip csv_files tables))).
Proof.
  intros Hne Hall Hnd.
  destruct Hall as [|f0 t0 rest ts Hf0 Hall]; [done|].
  apply NoDup_columns_cons in Hnd as [Hnd Hacc].
  rewrite load_and_join_unfold. unfold read_csv.
  cbn [py.getitem0 py.slice1 drop]. cbn [mbind M_bind mret M_ret app].
  rewrite Hf0. cbn [mbind M_bind mret M_ret app].
  rewrite (merge_loop_ok stem fs false rest ts) by done.
  done.
Qed.

Lemma majority_vote_shape (df : DataFrame) :
  merged_shape df →
  majority_vote df =
  {| df_columns := ["Transported"];
     df_rows :=
       (λ r, (r.1, [bool_decide (length (df_columns df) < 2 * count_true r.2)]))
         <$> df_rows df |}.
Proof.
  intros Hshape. unfold majority_vote.
  rewrite majority_frame by done.
  rewrite (filter_all _ (df_columns df)); last first.
  { destruct Hshape as (_ & Hpre & _). by apply Forall_forall. }
  f_equal. apply fmap_ext_elem. intros r _. by rewrite Qgtb_half.
Qed.

Lemma create_ensemble_prediction_ok
    (csv_files : list string) (tables : list PredictionTable) (out : string) :
  length csv_files mod 2 = 1 →
  Forall2 (λ f t, fs !! f = Some t) csv_files tables →
  NoDup (stem <$> csv_files) →
  ∃ t f,
    create_ensemble_prediction stem fs csv_files out =
      ([ToCsv out ["PassengerId"; "Transported"]
          (df_rows (majority_vote (merged_table stem (zip csv_files tables))));
        Print EnsembleHeader;
        Print (EnsembleUsedFiles (length csv_files));
        Print (EnsembleTrue t);
        Print (EnsembleFalse f);
        Print (EnsembleSaved out)],
       Ok (Some (majority_vote (merged_table stem (zip csv_files tables))))).
Proof.
  intros Hodd Hall Hnd. unfold create_ensemble_prediction.
  rewrite (odd_not_even _ Hodd).
  assert (csv_files ≠ []) as Hne by (by intros ->).
  rewrite (load_and_join_ok csv_files tables) by done.
  pose proof (Forall2_length _ _ _ Hall) as Hlen.
  cbn [mbind M_bind mret M_ret app print emit pd.reset_index_to_csv].
  rewrite !(majority_vote_shape _ (merged_table_shape csv_files tables Hlen Hnd)).
  by do 2 eexists.
Qed.


(** *** [main] *)

Lemma main_outcome (CSV_FILES : list string) (flag : bool) :
  outcome (main stem fs CSV_FILES flag) =
  if bool_decide (existing fs CSV_FILES = []) then Raised (SystemExit 1)
  else outcome (process stem fs (existing fs CSV_FILES) flag).
Proof.
  unfold main. rewrite outcome_bind, select_files_outcome.
  by case_bool_decide.
Qed.

Lemma main_events (CSV_FILES : list string) (flag : bool) :
  events (main stem fs CSV_FILES flag) =
  events (select_files fs CSV_FILES) ++
  if bool_decide (existing fs CSV_FILES = []) then []
  else events (process stem fs (existing fs CSV_FILES) flag).
Proof.
  unfold main. rewrite events_bind, select_files_outcome.
  by case_bool_decide.
Qed.

(** *** [process] *)

Lemma closing_run (d : option DataFrame) (out : string) :
  outcome (closing d out) = Ok tt ∧ written (events (closing d out)) = [].
Proof. unfold closing. destruct d as [df|]; [|done]. by destruct (0 <? len df). Qed.


Lemma final_submission_ok
    (csv_files : list string) (tables : list PredictionTable) (flag : bool) :
  Forall2 (λ f t, fs !! f = Some t) csv_files tables →
  NoDup (stem <$> csv_files) →
  outcome (final_submission stem fs csv_files flag) = Ok tt.
Proof.
  intros Hall Hnd. unfold final_submission.
  destruct flag; [|done].
  destruct (length csv_files mod 2 =? 1) eqn:Hodd; [|done].
  apply Nat.eqb_eq in Hodd.
  destruct (create_ensemble_prediction_ok csv_files tables "final_submission.csv"
              Hodd Hall Hnd) as (t & f & ->).
  done.
Qed.

Lemma process_outcome (csv_files : list string) (flag : bool) :
  outcome (process stem fs csv_files flag) =
  match outcome (extract_disagreements stem fs csv_files (output_name stem csv_files)) with
  | Ok _ => outcome (final_submission stem fs csv_files flag)
  | Raised e => Raised e
  end.
Proof.
  unfold process, output_name. run_binds.
  destruct (outcome (extract_disagreements _ _ _ _)) as [d|e]; [|done].
  rewrite outcome_bind.
  destruct (outcome (final_submission _ _ _ _)) as [[]|e]; [|done].
  apply closing_run.
Qed.

Lemma process_events (csv_files : list string) (flag : bool) :
  events (process stem fs csv_files flag) =
  [Print Banner; Print (InputFiles csv_files);
   Print (OutputFile (output_name stem csv_files)); Print BlankLine] ++
  events (extract_disagreements stem fs csv_files (output_name stem csv_files)) ++
  match outcome (extract_disagreements stem fs csv_files (output_name stem csv_files)) with
  | Ok d =>
      events (final_submission stem fs csv_files flag) ++
      match outcome (final_submission stem fs csv_files flag) with
      | Ok _ => events (closing d (output_name stem csv_files))
      | Raised _ => []
      end
  | Raised _ => []
  end.
Proof.
  unfold process, output_name. run_binds.
  cbn [app]. do 5 f_equal.
  destruct (outcome (extract_disagreements _ _ _ _)) as [d|e]; [|done].
  apply events_bind.
Qed.

Lemma process_ok (csv_files : list string) (flag : bool) :
  csv_files ≠ [] →
  Forall (λ f, is_Some (fs !! f)) csv_files →
  NoDup (stem <$> csv_files) →
  outcome (process stem fs csv_files flag) = Ok tt.
Proof.
  intros Hne [tables Hall]%exists_lookup_Forall2 Hnd.
  rewrite process_outcome.
  rewrite (extract_disagreements_ok csv_files tables) by done.
  cbn [outcome snd]. by eapply final_submission_ok.
Qed.

End runs.

(** * The properties of the specification *)


Lemma disagree_mask (vs : list bool) :
  (1 <? length (remove_dups vs)) = true ↔ disagree vs.
Proof. rewrite Nat.ltb_lt. apply nunique_gt_1. Qed.

Lemma elem_of_disagreements (df : DataFrame) (row : RecordId * list bool) :
  merged_shape df →
  row ∈ df_rows (disagreements df) ↔ row ∈ df_rows df ∧ disagree row.2.
Proof.
  intros Hshape. rewrite disagreements_filter. cbn [df_rows].
  rewrite list_elem_of_filter. split.
  - intros [Hmask Hin]. split; [done|].
    apply disagree_mask. by rewrite <- (row_mask_shape df).
  - intros [Hin Hdis]. split; [|done].
    rewrite (row_mask_shape df) by done. by apply disagree_mask.
Qed.

(** C9: the disagreement filter is idempotent: applied to its own output,
    taken as the new merged frame with the same columns, it returns exactly
    that output. *)
Theorem disagreements_idempotent (merged_df : DataFrame) :
  disagreements (disagreements merged_df) = disagreements merged_df.
Proof.
  rewrite !disagreements_filter. cbn [df_columns df_rows]. f_equal.
  rewrite list_filter_filter.
  apply list_filter_iff. intros r. tauto.
Qed.

(** C3: on every merged frame produced by the Merger, the rows kept by the
    DisagreementExtractor are exactly the merged rows whose per-source
    predictions are not all equal; rows with all-equal predictions are left
    out, and a kept row is the merged row itself, under the same per-source
    columns, one per input file. *)
Theorem disagreements_exact
    (stem : string → string) (fs : gmap string PredictionTable)
    (csv_files : list string) (tr : list Event) (merged_df : DataFrame) :
  load_and_merge stem fs csv_files = (tr, Ok merged_df) →
  df_columns (disagreements merged_df) = column_of stem <$> csv_files ∧
  df_columns (disagreements merged_df) = df_columns merged_df ∧
  ∀ row, row ∈ df_rows (disagreements merged_df) ↔
         row ∈ df_rows merged_df ∧ disagree row.2.
Proof.
  intros (tables & Hne & Hall & Hnd & ->)%load_and_merge_inv.
  pose proof (Forall2_length _ _ _ Hall) as Hlen.
  split_and!.
  - rewrite disagreements_filter. cbn [df_columns].
    by apply merged_table_columns.
  - by rewrite disagreements_filter.
  - intros row. apply elem_of_disagreements. by apply merged_table_shape.
Qed.

Lemma disagreements_exact_witness :
  load_and_merge path_stem example_fs example_files =
    ((λ ft, Print (LoadedFile ft.1 (length ft.2))) <$> zip example_files example_tables,
     Ok (merged_table path_stem (zip example_files example_tables))) ∧
  ∀ row,
    row ∈ df_rows (disagreements (merged_table path_stem (zip example_files example_tables)))
    ↔ row ∈ df_rows (merged_table path_stem (zip example_files example_tables))
      ∧ disagree row.2.
Proof.
  assert (load_and_merge path_stem example_fs example_files =
    ((λ ft, Print (LoadedFile ft.1 (length ft.2))) <$> zip example_files example_tables,
     Ok (merged_table path_stem (zip example_files example_tables)))) as Hrun
    by (vm_compute; reflexivity).
  split; [exact Hrun|].
  exact (proj2 (proj2 (disagreements_exact path_stem example_fs example_files _ _ Hrun))).
Defined.

(** C8: with exactly one input source the DisagreementExtractor flags no row:
    the run succeeds, its disagreement frame has no rows and nothing is
    written. *)
Theorem single_source_no_disagreement
    (stem : string → string) (fs : gmap string PredictionTable)
    (file : string) (t : PredictionTable) (output_file : string) :
  fs !! file = Some t →
  ∃ disagreements_df,
    outcome (extract_disagreements stem fs [file] output_file)
      = Ok (Some disagreements_df) ∧
    df_rows disagreements_df = [] ∧
    written (events (extract_disagreements stem fs [file] output_file)) = [].
Proof.
  intros Hf.
  assert (Forall2 (λ f t, fs !! f = Some t) [file] [t]) as Hall
    by (by repeat constructor).
  assert (NoDup (stem <$> [file])) as Hnd by apply NoDup_singleton.
  rewrite (extract_disagreements_ok stem fs [file] [t]) by done.
  set (merged := merged_table stem (zip [file] [t])).
  assert (df_rows (disagreements merged) = []) as Hnil.
  { rewrite disagreements_filter. cbn [df_rows].
    apply filter_none. intros [k vs] Hin.
    rewrite (row_mask_shape merged) by (done || by apply merged_table_shape).
    unfold merged in Hin. cbn [zip_with merged_table merge_all foldl fst snd] in Hin.
    rewrite frame_of_eq in Hin. cbn [df_rows] in Hin.
    apply list_elem_of_fmap in Hin as ([k' b] & [= -> ->] & _).
    by destruct b. }
  exists (disagreements merged). split_and!; [done..|].
  cbn [events fst]. rewrite written_app.
  assert (len (disagreements merged) = 0) as Hlen by (unfold len; by rewrite Hnil).
  rewrite (report_empty _ _ _ Hlen).
  rewrite <- (app_nil_r (written _)) at 1. by f_equal.
Qed.

Lemma single_source_no_disagreement_witness :
  example_fs !! "A.csv" = Some [("1", true); ("2", false); ("3", true)] ∧
  ∃ disagreements_df,
    outcome (extract_disagreements path_stem example_fs ["A.csv"] "d.csv")
      = Ok (Some disagreements_df) ∧
    df_rows disagreements_df = [] ∧
    written (events (extract_disagreements path_stem example_fs ["A.csv"] "d.csv")) = [].
Proof.
  assert (example_fs !! "A.csv" = Some [("1", true); ("2", false); ("3", true)])
    as Hf by (vm_compute; reflexivity).
  split; [exact Hf|].
  exact (single_source_no_disagreement path_stem example_fs "A.csv" _ "d.csv" Hf).
Defined.

(** C2: for input tables read from files that exist (under distinct column
    labels), the Merger returns a merged frame, and the set of RecordIds of
    that frame is the intersection of the RecordId sets of all the input
    tables.  The loop of [create_ensemble_prediction] builds the same frame. *)
Theorem merged_ids_intersection
    (stem : string → string) (fs : gmap string PredictionTable)
    (csv_files : list string) (tables : list PredictionTable) :
  csv_files ≠ [] →
  Forall2 (λ f t, fs !! f = Some t) csv_files tables →
  NoDup (stem <$> csv_files) →
  ∃ merged_df,
    outcome (load_and_merge stem fs csv_files) = Ok merged_df ∧
    outcome (load_and_join stem fs csv_files) = Ok merged_df ∧
    frame_ids merged_df = intersection_all (table_ids <$> tables).
Proof.
  intros Hne Hall Hnd.
  exists (merged_table stem (zip csv_files tables)).
  rewrite (load_and_merge_ok stem fs csv_files tables) by done.
  rewrite (load_and_join_ok stem fs csv_files tables) by done.
  split_and!; [done..|].
  apply merged_table_ids; [done|]. by eapply Forall2_length.
Qed.

Lemma example_files_loaded :
  Forall2 (λ f t, example_fs !! f = Some t) example_files example_tables.
Proof. repeat constructor. Defined.

Lemma example_stems_distinct : NoDup (path_stem <$> example_files).
Proof. refine (bool_decide_unpack _ _). vm_compute. exact I. Defined.

Lemma merged_ids_intersection_witness :
  example_files ≠ [] ∧
  Forall2 (λ f t, example_fs !! f = Some t) example_files example_tables ∧
  NoDup (path_stem <$> example_files) ∧
  ∃ merged_df,
    outcome (load_and_merge path_stem example_fs example_files) = Ok merged_df ∧
    outcome (load_and_join path_stem example_fs example_files) = Ok merged_df ∧
    frame_ids merged_df = intersection_all (table_ids <$> example_tables).
Proof.
  assert (example_files ≠ []) as Hne by discriminate.
  split_and!; [exact Hne|exact example_files_loaded|exact example_stems_distinct|].
  exact (merged_ids_intersection path_stem example_fs example_files example_tables
           Hne example_files_loaded example_stems_distinct).
Defined.



(** The vote on the example of the specification: ids 1 and 3 are [True],
    id 2 is [False]. *)
Example majority_vote_example :
  outcome (create_ensemble_prediction path_stem example_fs example_files "f.csv") =
  Ok (Some {| df_columns := ["Transported"];
              df_rows := [("1", [true]); ("2", [false]); ("3", [true])] |}).
Proof. vm_compute. reflexivity. Qed.

(** ** What a run of [extract_disagreements] writes *)

Lemma report_written_cases
    (merged_df disagreements_df : DataFrame) (output_file : string) :
  written (events (report merged_df disagreements_df output_file)) =
  if 0 <? len disagreements_df
  then [(output_file,
         ("PassengerId" :: df_columns disagreements_df, df_rows disagreements_df))]
  else [].
Proof.
  destruct (0 <? len disagreements_df) eqn:Hlen.
  - apply report_written. by apply Nat.ltb_lt.
  - apply Nat.ltb_ge in Hlen.
    rewrite report_empty by lia. done.
Qed.

Lemma extract_disagreements_written
    (stem : string → string) (fs : gmap string PredictionTable)
    (csv_files : list string) (output_file : string) :
  written (events (extract_disagreements stem fs csv_files output_file)) =
  match outcome (extract_disagreements stem fs csv_files output_file) with
  | Ok (Some df) =>
      if 0 <? len df
      then [(output_file, ("PassengerId" :: df_columns df, df_rows df))]
      else []
  | _ => []
  end.
Proof.
  unfold extract_disagreements.
  destruct (first_missing fs csv_files) as [f|]; [done|].
  rewrite events_bind, outcome_bind, written_app, load_and_merge_written.
  destruct (outcome (load_and_merge stem fs csv_files)) as [merged_df|e]; [|done].
  run_binds.
  rewrite (report_outcome _ _ _ (len_disagreements _)).
  cbn [outcome events mret M_ret fst snd].
  rewrite app_nil_r. cbn [written omap app].
  apply report_written_cases.
Qed.

(** The disagreement file of the example of the specification holds the
    rows of ids 1 and 2. *)
Example disagreement_output_example :
  written (events (extract_disagreements path_stem example_fs example_files "d.csv")) =
  [("d.csv",
    (["PassengerId"; "Transported_A"; "Transported_B"; "Transported_C"],
     [("1", [true; true; false]); ("2", [false; true; false])]))].
Proof. vm_compute. reflexivity. Qed.

(** C10: the agreement rate divides by the number of merged rows only in
    the branch taken when there is a disagreement row; as the disagreement
    rows are among the merged rows, the report never fails, and no run of
    [extract_disagreements] ends in a division by zero. *)
Theorem agreement_rate_never_divides_by_zero
    (stem : string → string) (fs : gmap string PredictionTable)
    (csv_files : list string) (merged_df : DataFrame) (output_file : string) :
  no_zero_division (outcome (extract_disagreements stem fs csv_files output_file)) ∧
  len (disagreements merged_df) ≤ len merged_df ∧
  outcome (report merged_df (disagreements merged_df) output_file) = Ok tt.
Proof.
  split_and!.
  - pose proof (extract_disagreements_outcome stem fs csv_files output_file) as H.
    destruct (outcome (extract_disagreements _ _ _ _)) as [d|e]; [done|].
    by destruct H as [->|H]; [|destruct e].
  - apply len_disagreements.
  - apply report_outcome, len_disagreements.
Qed.

(** The division itself is modelled as failing: a report given a
    disagreement frame that is not drawn from the merged frame raises. *)
Example report_divides :
  outcome (report {| df_columns := []; df_rows := [] |}
                  {| df_columns := []; df_rows := [("1", [])] |} "d.csv")
  = Raised ZeroDivisionError.
Proof. reflexivity. Qed.

(** ** Missing files and duplicate RecordIds *)

Lemma load_and_join_inv
    (stem : string → string) (fs : gmap string PredictionTable)
    (csv_files : list string) (tr : list Event) (df : DataFrame) :
  load_and_join stem fs csv_files = (tr, Ok df) →
  Forall (λ f, is_Some (fs !! f)) csv_files.
Proof.
  rewrite load_and_join_unfold. unfold read_csv.
  destruct csv_files as [|f0 rest]; [done|].
  cbn [py.getitem0 py.slice1 drop]. cbn [mbind M_bind mret M_ret app].
  destruct (fs !! f0) as [t0|] eqn:Hf0; [|done].
  cbn [mbind M_bind mret M_ret app].
  change (drop 0 rest) with rest.
  destruct (for_fold rest _ _) as [tr' r] eqn:Hloop.
  intros [= <- ->].
  apply merge_loop_inv in Hloop as (ts & Hall & _).
  constructor; [by eexists|]. by eapply Forall2_lookup_exists.
Qed.

Lemma load_and_merge_needs_files
    (stem : string → string) (fs : gmap string PredictionTable)
    (csv_files : list string) (tr : list Event) (df : DataFrame) :
  load_and_merge stem fs csv_files = (tr, Ok df) →
  Forall (λ f, is_Some (fs !! f)) csv_files.
Proof.
  intros (tables & _ & Hall & _)%load_and_merge_inv.
  by eapply Forall2_lookup_exists.
Qed.

(** C5, as amended: the Merger fails whenever a declared input file is
    absent.  [extract_disagreements] reports the first absent file and
    returns nothing, without loading or joining anything, and neither
    merging loop yields a frame. *)
Theorem merger_fails_on_missing_file
    (stem : string → string) (fs : gmap string PredictionTable)
    (csv_files : list string) (file : string) (output_file : string) :
  file ∈ csv_files → fs !! file = None →
  (∃ f, f ∈ csv_files ∧ fs !! f = None ∧
        extract_disagreements stem fs csv_files output_file =
          ([Print (ErrFileNotFound f)], Ok None)) ∧
  (∀ df, outcome (load_and_merge stem fs csv_files) ≠ Ok df) ∧
  (∀ df, outcome (load_and_join stem fs csv_files) ≠ Ok df).
Proof.
  intros Hin Hnone.
  assert (¬ Forall (λ f, is_Some (fs !! f)) csv_files) as Hnot.
  { rewrite Forall_forall. intros Hall.
    destruct (Hall _ Hin) as [t Ht]. congruence. }
  split_and!.
  - destruct (first_missing_elem fs csv_files file Hin Hnone) as [f Hf].
    exists f. destruct (first_missing_Some fs _ _ Hf) as [Hf1 Hf2].
    split_and!; [done..|]. by apply extract_disagreements_missing.
  - intros df Hok. apply Hnot.
    apply (load_and_merge_needs_files stem fs csv_files
             (events (load_and_merge stem fs csv_files)) df).
    rewrite <- Hok. apply run_eq.
  - intros df Hok. apply Hnot.
    apply (load_and_join_inv stem fs csv_files
             (events (load_and_join stem fs csv_files)) df).
    rewrite <- Hok. apply run_eq.
Qed.

Lemma merger_fails_on_missing_file_witness :
  "X.csv" ∈ ["A.csv"; "X.csv"] ∧ example_fs !! "X.csv" = None ∧
  (∃ f, f ∈ ["A.csv"; "X.csv"] ∧ example_fs !! f = None ∧
        extract_disagreements path_stem example_fs ["A.csv"; "X.csv"] "d.csv" =
          ([Print (ErrFileNotFound f)], Ok None)) ∧
  (∀ df, outcome (load_and_merge path_stem example_fs ["A.csv"; "X.csv"]) ≠ Ok df) ∧
  (∀ df, outcome (load_and_join path_stem example_fs ["A.csv"; "X.csv"]) ≠ Ok df).
Proof.
  assert ("X.csv" ∈ ["A.csv"; "X.csv"]) as Hin by (right; left).
  assert (example_fs !! "X.csv" = None) as Hnone by (vm_compute; reflexivity).
  split; [exact Hin|]. split; [exact Hnone|].
  exact (merger_fails_on_missing_file path_stem example_fs ["A.csv"; "X.csv"]
           "X.csv" "d.csv" Hin Hnone).
Defined.

(** C5, as stated, fails: a table that lists a RecordId twice is joined
    like any other, and the Merger returns a frame. *)
Lemma merger_accepts_duplicate_ids :
  ¬ (dup_fs !! "A.csv" = Some dup_table →
     ¬ NoDup dup_table.*1 →
     ∃ e, outcome (load_and_merge path_stem dup_fs ["A.csv"; "B.csv"]) = Raised e).
Proof.
  intros H.
  destruct H as [e He].
  - vm_compute. reflexivity.
  - intros Hnd. apply NoDup_cons in Hnd as [Hnotin _].
    apply Hnotin. left.
  - vm_compute in He. discriminate He.
Qed.

(** The frame joined from the table with the duplicate: one row per
    matching pair. *)
Example duplicate_ids_joined :
  outcome (load_and_merge path_stem dup_fs ["A.csv"; "B.csv"]) =
  Ok {| df_columns := ["Transported_A"; "Transported_B"];
        df_rows := [("1", [true; true]); ("1", [false; true])] |}.
Proof. vm_compute. reflexivity. Qed.

(** ** Runs of [main] *)

(** Two existing files of the same stem get the same column label: both
    files are loaded, then the join raises. *)
Example clashing_labels_run :
  main path_stem clash_fs clash_files false =
  ([Print Banner; Print (InputFiles ["a/pred.csv"; "b/pred.csv"]);
    Print (OutputFile "disagreements_pred_vs_pred.csv"); Print BlankLine;
    Print (LoadedFile "a/pred.csv" 1); Print (LoadedFile "b/pred.csv" 1)],
   Raised (ValueError_overlap ["Transported_pred"])).
Proof. vm_compute. reflexivity. Qed.

(** With no configured file on disk the program stops with status 1. *)
Example no_input_exit :
  main path_stem example_fs ["Y.csv"] true =
  ([Print WarnMissingHeader; Print (WarnMissingFile "Y.csv"); Print ErrNoFiles],
   Raised (SystemExit 1)).
Proof. vm_compute. reflexivity. Qed.





(** The run with two existing files and the vote requested. *)
Example even_count_run :
  written (events (main path_stem example_fs ["A.csv"; "X.csv"; "B.csv"] true)) =
  [("disagreements_A_vs_B.csv",
    (["PassengerId"; "Transported_A"; "Transported_B"], [("2", [false; true])]))].
Proof. vm_compute. reflexivity. Qed.

(** * Further properties of the script *)

(** ** The two merging loops *)

Lemma for_fold_outcome_ext {A S} (xs : list A) (acc : S) (body1 body2 : S → A → M S) :
  (∀ acc x, outcome (body1 acc x) = outcome (body2 acc x)) →
  outcome (for_fold xs acc body1) = outcome (for_fold xs acc body2).
Proof.
  intros Hext. revert acc.
  induction xs as [|x xs IH]; intros acc; [done|].
  cbn [for_fold]. rewrite !outcome_bind, Hext.
  destruct (outcome (body2 acc x)); [apply IH|done].
Qed.

Lemma merge_step_outcome_quiet
    (stem : string → string) (fs : gmap string PredictionTable)
    (verbose : bool) (acc : DataFrame) (file : string) :
  outcome (merge_step stem fs verbose acc file) =
  outcome (merge_step stem fs false acc file).
Proof.
  unfold merge_step, read_csv.
  destruct (fs !! file) as [t|]; [|done].
  rewrite !outcome_bind.
  change (outcome (mret t)) with (Ok t). cbv beta iota.
  rewrite !outcome_bind. by destruct verbose.
Qed.

(** X1: the merging loop of [extract_disagreements] and the one of
    [create_ensemble_prediction] end the same way on every list of files:
    with the same joined frame, or with the same exception. *)
Theorem merging_loops_agree
    (stem : string → string) (fs : gmap string PredictionTable)
    (csv_files : list string) :
  outcome (load_and_merge stem fs csv_files) =
  outcome (load_and_join stem fs csv_files).
Proof.
  rewrite load_and_merge_unfold, load_and_join_unfold.
  rewrite !outcome_bind.
  destruct (outcome (py.getitem0 csv_files)) as [file0|e]; [|done].
  rewrite !outcome_bind.
  destruct (outcome (read_csv fs file0)) as [t0|e]; [|done].
  rewrite outcome_bind. cbn [outcome print emit snd].
  apply for_fold_outcome_ext. intros acc x. apply merge_step_outcome_quiet.
Qed.

(** ** Choosing the files *)

Lemma events_for_each_print {A} (xs : list A) (f : A → Msg) :
  events (for_each xs (λ x, print (f x))) = (λ x, Print (f x)) <$> xs.
Proof.
  induction xs as [|x xs IH]; [done|]. cbn [for_each].
  rewrite events_bind. simpl. by rewrite IH.
Qed.

(** X2: the loop of lines 168-172 splits the configured files into those
    that exist and those that do not, each in the configured order, and
    loses or repeats none. *)
Theorem check_files_partition
    (fs : gmap string PredictionTable) (csv_files : list string) :
  (check_files fs csv_files).1 = filter (λ f, is_Some (fs !! f)) csv_files ∧
  (check_files fs csv_files).2 = filter (λ f, ¬ is_Some (fs !! f)) csv_files ∧
  (check_files fs csv_files).1 ++ (check_files fs csv_files).2 ≡ₚ csv_files.
Proof.
  rewrite check_files_filter. cbn [fst snd]. split_and!; [done..|].
  apply filter_app_complement.
Qed.

Lemma select_files_eq
    (fs : gmap string PredictionTable) (CSV_FILES : list string) :
  select_files fs CSV_FILES =
  ((if bool_decide (missing fs CSV_FILES ≠ [])
    then Print WarnMissingHeader ::
         ((λ f, Print (WarnMissingFile f)) <$> missing fs CSV_FILES)
    else []) ++
   (if bool_decide (existing fs CSV_FILES = []) then [Print ErrNoFiles]
    else if bool_decide (length (existing fs CSV_FILES) ≠ length CSV_FILES)
         then [Print (OnlyExisting (existing fs CSV_FILES))]
         else []),
   if bool_decide (existing fs CSV_FILES = []) then Raised (SystemExit 1)
   else Ok (existing fs CSV_FILES)).
Proof.
  rewrite (run_eq (select_files fs CSV_FILES)), select_files_outcome.
  f_equal.
  unfold select_files. rewrite check_files_filter.
  rewrite events_bind. f_equal.
  { case_bool_decide; [|done]. run_binds. by rewrite events_for_each_print. }
  assert (outcome (if bool_decide (missing fs CSV_FILES ≠ [])
                   then print WarnMissingHeader;;
                        for_each (missing fs CSV_FILES) (λ f, print (WarnMissingFile f))
                   else mret tt) = Ok tt) as ->.
  { case_bool_decide; [|done]. run_binds. apply outcome_for_each_print. }
  rewrite events_bind.
  case_bool_decide; [by run_binds|].
  cbn [outcome events mret M_ret snd fst app]. rewrite events_bind.
  by case_bool_decide.
Qed.

(** X3: what [main] prints and decides before it processes anything: one
    warning line per missing file, in the configured order and only when a
    file is missing; then it stops with status 1 when no file exists, and
    otherwise keeps exactly the existing files, telling so only when some
    file was dropped. *)
Theorem select_files_run
    (fs : gmap string PredictionTable) (CSV_FILES : list string) :
  select_files fs CSV_FILES =
  ((if bool_decide (missing fs CSV_FILES ≠ [])
    then Print WarnMissingHeader ::
         ((λ f, Print (WarnMissingFile f)) <$> missing fs CSV_FILES)
    else []) ++
   (if bool_decide (existing fs CSV_FILES = []) then [Print ErrNoFiles]
    else if bool_decide (length (existing fs CSV_FILES) ≠ length CSV_FILES)
         then [Print (OnlyExisting (existing fs CSV_FILES))]
         else []),
   if bool_decide (existing fs CSV_FILES = []) then Raised (SystemExit 1)
   else Ok (existing fs CSV_FILES)).
Proof. apply select_files_eq. Qed.

(** X4: when every configured file exists, [main] selects the configured
    list as it is and prints no warning. *)
Theorem select_files_all_exist
    (fs : gmap string PredictionTable) (CSV_FILES : list string) :
  CSV_FILES ≠ [] →
  Forall (λ f, is_Some (fs !! f)) CSV_FILES →
  select_files fs CSV_FILES = ([], Ok CSV_FILES).
Proof.
  intros Hne Hall. rewrite Forall_forall in Hall.
  assert (existing fs CSV_FILES = CSV_FILES) as Hex by (by apply filter_all).
  assert (missing fs CSV_FILES = []) as Hmiss.
  { apply filter_none. intros f Hf Hnot. by apply Hnot, Hall. }
  rewrite select_files_eq, Hex, Hmiss.
  rewrite (bool_decide_false (CSV_FILES = [])) by done.
  rewrite (bool_decide_false ([] ≠ [])) by (by intros ?).
  by rewrite bool_decide_false by (by intros ?).
Qed.

Lemma example_files_exist : Forall (λ f, is_Some (example_fs !! f)) example_files.
Proof. repeat constructor; by eexists. Defined.

Lemma select_files_all_exist_witness :
  example_files ≠ [] ∧
  Forall (λ f, is_Some (example_fs !! f)) example_files ∧
  select_files example_fs example_files = ([], Ok example_files).
Proof.
  assert (example_files ≠ []) as Hne by discriminate.
  split_and!; [exact Hne|exact example_files_exist|].
  exact (select_files_all_exist example_fs example_files Hne example_files_exist).
Defined.

(** ** Missing files *)

(** X5: [extract_disagreements] stops at the first file of the list that
    does not exist: it names that file alone, whatever comes after it, and
    loads nothing. *)
Theorem first_missing_file_reported
    (stem : string → string) (fs : gmap string PredictionTable)
    (before after : list string) (file : string) (output_file : string) :
  Forall (λ f, is_Some (fs !! f)) before →
  fs !! file = None →
  extract_disagreements stem fs (before ++ file :: after) output_file =
    ([Print (ErrFileNotFound file)], Ok None).
Proof.
  intros Hbefore Hnone. apply extract_disagreements_missing.
  induction Hbefore as [|f before [t Ht] _ IH]; simpl.
  - unfold exists_. rewrite Hnone.
    rewrite bool_decide_false by (by intros [? ?]). done.
  - unfold exists_ at 1. rewrite Ht.
    rewrite bool_decide_true by (by eexists). done.
Qed.

Lemma first_missing_file_reported_witness :
  Forall (λ f, is_Some (example_fs !! f)) ["A.csv"] ∧
  example_fs !! "X.csv" = None ∧
  extract_disagreements path_stem example_fs (["A.csv"] ++ "X.csv" :: ["Y.csv"; "B.csv"])
      "d.csv" =
    ([Print (ErrFileNotFound "X.csv")], Ok None).
Proof.
  assert (Forall (λ f, is_Some (example_fs !! f)) ["A.csv"]) as Hb
    by (repeat constructor; by eexists).
  assert (example_fs !! "X.csv" = None) as Hn by (vm_compute; reflexivity).
  split_and!; [exact Hb|exact Hn|].
  exact (first_missing_file_reported path_stem example_fs ["A.csv"] ["Y.csv"; "B.csv"]
           "X.csv" "d.csv" Hb Hn).
Defined.

(** ** How [main] ends *)

Lemma merge_loop_raised_exist
    (stem : string → string) (fs : gmap string PredictionTable)
    (verbose : bool) (files : list string) (acc : DataFrame) (e : Exn) :
  Forall (λ f, is_Some (fs !! f)) files →
  outcome (for_fold files acc (merge_step stem fs verbose)) = Raised e →
  ∃ cols, e = ValueError_overlap cols.
Proof.
  intros Hall. revert acc.
  induction Hall as [|f files [t Ht] _ IH]; intros acc; [done|].
  cbn [for_fold]. rewrite outcome_bind.
  destruct (outcome (merge_step stem fs verbose acc f)) as [acc'|e'] eqn:Hstep.
  { apply IH. }
  intros [= <-].
  unfold merge_step, read_csv in Hstep. rewrite Ht in Hstep.
  rewrite outcome_bind in Hstep.
  change (outcome (mret t)) with (Ok t) in Hstep. cbv beta iota in Hstep.
  rewrite outcome_bind in Hstep.
  assert (outcome (pd.join_inner acc (frame_of stem f t)) = Raised e') as Hj
    by by destruct verbose.
  destruct (join_inner_outcome acc (frame_of stem f t)) as [[Hok _]|[cols Hbad]];
    [congruence|].
  exists cols. congruence.
Qed.

Lemma load_and_merge_clash
    (stem : string → string) (fs : gmap string PredictionTable)
    (csv_files : list string) :
  csv_files ≠ [] →
  Forall (λ f, is_Some (fs !! f)) csv_files →
  ¬ NoDup (stem <$> csv_files) →
  ∃ cols, outcome (load_and_merge stem fs csv_files) = Raised (ValueError_overlap cols).
Proof.
  intros Hne Hall Hdup.
  destruct (load_and_merge stem fs csv_files) as [tr [df|e]] eqn:Hrun.
  { apply load_and_merge_inv in Hrun as (tables & _ & _ & Hnd & _). done. }
  assert (outcome (load_and_merge stem fs csv_files) = Raised e) as He
    by (by rewrite Hrun).
  rewrite load_and_merge_unfold in He. unfold read_csv in He.
  destruct Hall as [|f0 rest [t0 Ht0] Hrest]; [done|].
  cbn [py.getitem0 py.slice1 drop] in He.
  rewrite outcome_bind in He.
  change (outcome (mret f0)) with (Ok f0) in He. cbv beta iota in He.
  rewrite Ht0, outcome_bind in He.
  change (outcome (mret t0)) with (Ok t0) in He. cbv beta iota in He.
  rewrite outcome_bind in He. cbn [outcome print emit snd] in He.
  change (drop 0 rest) with rest in He.
  destruct (merge_loop_raised_exist stem fs true rest _ e Hrest He) as [cols ->].
  by exists cols.
Qed.

Lemma extract_disagreements_clash
    (stem : string → string) (fs : gmap string PredictionTable)
    (csv_files : list string) (output_file : string) :
  csv_files ≠ [] →
  Forall (λ f, is_Some (fs !! f)) csv_files →
  ¬ NoDup (stem <$> csv_files) →
  ∃ cols, outcome (extract_disagreements stem fs csv_files output_file)
          = Raised (ValueError_overlap cols).
Proof.
  intros Hne Hall Hdup.
  destruct (load_and_merge_clash stem fs csv_files Hne Hall Hdup) as [cols Hcl].
  exists cols. unfold extract_disagreements.
  apply (first_missing_None fs csv_files) in Hall. rewrite Hall.
  by rewrite outcome_bind, Hcl.
Qed.

(** Closes the side of an equivalence between outcomes and conditions on
    the files once the outcome is known. *)
Ltac settle_case :=
  intros;
  repeat match goal with
         | H : _ ∧ _ |- _ => destruct H
         | H : ∃ _, _ |- _ => destruct H
         | H : _ ∨ _ |- _ => destruct H
         end;
  simplify_eq; try done; eauto.

(** Where every file that exists holds a table and every write succeeds,
    [main] runs to the end, stops for want of files, or dies of the join's
    [ValueError]. *)
Lemma main_outcome_on_tables
    (stem : string → string) (fs : gmap string PredictionTable)
    (CSV_FILES : list string) (CREATE_FINAL_SUBMISSION : bool) :
  (outcome (main stem fs CSV_FILES CREATE_FINAL_SUBMISSION) = Ok tt
   ↔ existing fs CSV_FILES ≠ [] ∧ NoDup (stem <$> existing fs CSV_FILES)) ∧
  (outcome (main stem fs CSV_FILES CREATE_FINAL_SUBMISSION) = Raised (SystemExit 1)
   ↔ existing fs CSV_FILES = []) ∧
  ((∃ cols, outcome (main stem fs CSV_FILES CREATE_FINAL_SUBMISSION)
            = Raised (ValueError_overlap cols))
   ↔ existing fs CSV_FILES ≠ [] ∧ ¬ NoDup (stem <$> existing fs CSV_FILES)) ∧
  (exit_status (outcome (main stem fs CSV_FILES CREATE_FINAL_SUBMISSION)) ≠ 0%Z
   ↔ existing fs CSV_FILES = [] ∨ ¬ NoDup (stem <$> existing fs CSV_FILES)).
Proof.
  rewrite main_outcome.
  destruct (decide (existing fs CSV_FILES = [])) as [Hnil|Hne].
  { rewrite bool_decide_true by done. rewrite Hnil.
    split_and!; split; try done; settle_case. }
  rewrite bool_decide_false by done.
  destruct (decide (NoDup (stem <$> existing fs CSV_FILES))) as [Hnd|Hdup].
  - rewrite process_ok by (done || apply existing_exist).
    split_and!; split; try done; settle_case.
  - rewrite process_outcome.
    destruct (extract_disagreements_clash stem fs (existing fs CSV_FILES)
                (output_name stem (existing fs CSV_FILES)) Hne
                (existing_exist fs CSV_FILES) Hdup) as [cols ->].
    split_and!; split; try done; settle_case.
Qed.

(** ** What [main] writes *)

Lemma load_and_join_written
    (stem : string → string) (fs : gmap string PredictionTable)
    (csv_files : list string) :
  written (events (load_and_join stem fs csv_files)) = [].
Proof.
  rewrite load_and_join_unfold. unfold read_csv.
  destruct csv_files as [|f0 rest]; [done|].
  cbn [py.getitem0 py.slice1 drop].
  rewrite events_bind. change (outcome (mret f0)) with (Ok f0). cbv beta iota.
  rewrite events_bind.
  destruct (fs !! f0) as [t0|] eqn:Hf0; [|done].
  change (outcome (mret t0)) with (Ok t0). cbv beta iota.
  simpl. apply events_merge_loop_written.
Qed.

Lemma create_ensemble_prediction_written
    (stem : string → string) (fs : gmap string PredictionTable)
    (csv_files : list string) (final_output_file : string) :
  written (events (create_ensemble_prediction stem fs csv_files final_output_file)) =
  match outcome (create_ensemble_prediction stem fs csv_files final_output_file) with
  | Ok (Some df) => [(final_output_file, ("PassengerId" :: df_columns df, df_rows df))]
  | _ => []
  end.
Proof.
  unfold create_ensemble_prediction.
  destruct (length csv_files mod 2 =? 0); [done|].
  rewrite events_bind, outcome_bind, written_app, load_and_join_written.
  destruct (outcome (load_and_join stem fs csv_files)) as [final_df|e]; [|done].
  by run_binds.
Qed.

Lemma final_submission_written
    (stem : string → string) (fs : gmap string PredictionTable)
    (csv_files : list string) (flag : bool) :
  written (events (final_submission stem fs csv_files flag)) =
  if flag && (length csv_files mod 2 =? 1)
  then written (events (create_ensemble_prediction stem fs csv_files
                          "final_submission.csv"))
  else [].
Proof.
  unfold final_submission. destruct flag; [|done].
  destruct (length csv_files mod 2 =? 1); [|done].
  cbn [andb]. rewrite events_bind, written_app.
  destruct (outcome (create_ensemble_prediction _ _ _ _)); by rewrite app_nil_r.
Qed.

Lemma main_written
    (stem : string → string) (fs : gmap string PredictionTable)
    (CSV_FILES : list string) (flag : bool) :
  written (events (main stem fs CSV_FILES flag)) =
  if bool_decide (existing fs CSV_FILES = []) then []
  else
    written (events (extract_disagreements stem fs (existing fs CSV_FILES)
                       (output_name stem (existing fs CSV_FILES)))) ++
    match outcome (extract_disagreements stem fs (existing fs CSV_FILES)
                     (output_name stem (existing fs CSV_FILES))) with
    | Ok _ => written (events (final_submission stem fs (existing fs CSV_FILES) flag))
    | Raised _ => []
    end.
Proof.
  rewrite main_events, written_app, select_files_written.
  case_bool_decide; [done|].
  rewrite process_events, !written_app.
  assert (∀ a b c d, written [Print a; Print b; Print c; Print d] = [])
    as -> by done.
  rewrite !app_nil_l. f_equal.
  destruct (outcome (extract_disagreements _ _ _ _)) as [d|e]; [|done].
  rewrite written_app.
  destruct (outcome (final_submission _ _ _ _)); [|by rewrite app_nil_r].
  destruct (closing_run d (output_name stem (existing fs CSV_FILES))) as [_ ->].
  by rewrite app_nil_r.
Qed.

(** X7: a run of [main] that does not reach its end has written no file:
    both ways to fail, the exit for want of input and the clash of column
    labels in the join, come before the first [to_csv]. *)
Theorem failed_main_writes_nothing
    (stem : string → string) (fs : gmap string PredictionTable)
    (CSV_FILES : list string) (CREATE_FINAL_SUBMISSION : bool) (e : Exn) :
  outcome (main stem fs CSV_FILES CREATE_FINAL_SUBMISSION) = Raised e →
  written (events (main stem fs CSV_FILES CREATE_FINAL_SUBMISSION)) = [].
Proof.
  rewrite main_outcome, main_written.
  case_bool_decide as Hex; [done|].
  destruct (decide (NoDup (stem <$> existing fs CSV_FILES))) as [Hnd|Hdup].
  { rewrite process_ok by (done || apply existing_exist). done. }
  intros _.
  rewrite extract_disagreements_written.
  destruct (extract_disagreements_clash stem fs (existing fs CSV_FILES)
              (output_name stem (existing fs CSV_FILES)) Hex
              (existing_exist fs CSV_FILES) Hdup) as [cols ->].
  done.
Qed.

Lemma failed_main_writes_nothing_witness :
  outcome (main path_stem clash_fs clash_files true)
    = Raised (ValueError_overlap ["Transported_pred"]) ∧
  written (events (main path_stem clash_fs clash_files true)) = [].
Proof.
  assert (outcome (main path_stem clash_fs clash_files true)
          = Raised (ValueError_overlap ["Transported_pred"])) as Hrun
    by (vm_compute; reflexivity).
  split; [exact Hrun|].
  exact (failed_main_writes_nothing path_stem clash_fs clash_files true _ Hrun).
Defined.

(** X8: [main] writes at most two files and never any other than its two
    outputs: the disagreement file, named after the stems of the existing
    files, and [final_submission.csv]; the latter only when the vote is
    switched on and the number of existing files is odd. *)
Theorem main_writes_only_outputs
    (stem : string → string) (fs : gmap string PredictionTable)
    (CSV_FILES : list string) (CREATE_FINAL_SUBMISSION : bool) :
  length (written (events (main stem fs CSV_FILES CREATE_FINAL_SUBMISSION))) ≤ 2 ∧
  ∀ w, w ∈ written (events (main stem fs CSV_FILES CREATE_FINAL_SUBMISSION)) →
       w.1 = output_name stem (existing fs CSV_FILES) ∨
       (w.1 = "final_submission.csv" ∧
        CREATE_FINAL_SUBMISSION = true ∧
        length (existing fs CSV_FILES) mod 2 = 1).
Proof.
  rewrite main_written.
  case_bool_decide as Hex.
  { split; [simpl; lia|by intros w ?%elem_of_nil]. }
  rewrite extract_disagreements_written.
  assert (∃ ws, ws = written (events (final_submission stem fs (existing fs CSV_FILES)
                                        CREATE_FINAL_SUBMISSION)) ∧
                length ws ≤ 1 ∧
                ∀ w, w ∈ ws → w.1 = "final_submission.csv" ∧
                              CREATE_FINAL_SUBMISSION = true ∧
                              length (existing fs CSV_FILES) mod 2 = 1)
    as (ws & <- & Hlen & Hws).
  { eexists. split; [done|].
    rewrite final_submission_written.
    destruct CREATE_FINAL_SUBMISSION; cbn [andb];
      [|split; [simpl; lia|by intros w ?%elem_of_nil]].
    destruct (length (existing fs CSV_FILES) mod 2 =? 1) eqn:Hodd;
      [|split; [simpl; lia|by intros w ?%elem_of_nil]].
    apply Nat.eqb_eq in Hodd.
    rewrite create_ensemble_prediction_written.
    destruct (outcome (create_ensemble_prediction _ _ _ _)) as [[df|]|e];
      try (split; [simpl; lia|by intros w ?%elem_of_nil]).
    split; [simpl; lia|].
    by intros w ->%list_elem_of_singleton. }
  destruct (outcome (extract_disagreements _ _ _ _)) as [[d|]|e].
  - destruct (0 <? len d).
    + split; [simpl; lia|].
      intros w [->|Hw]%elem_of_cons; [by left|right; by apply Hws].
    + split; [simpl; lia|]. intros w Hw. right. by apply Hws.
  - split; [simpl; lia|]. intros w Hw. right. by apply Hws.
  - split; [simpl; lia|by intros w ?%elem_of_nil].
Qed.

(** What a run on tables writes when every write succeeds. *)
Lemma main_written_on_tables
    (stem : string → string) (fs : gmap string PredictionTable)
    (CSV_FILES : list string) (CREATE_FINAL_SUBMISSION : bool) :
  existing fs CSV_FILES ≠ [] →
  NoDup (stem <$> existing fs CSV_FILES) →
  ∃ merged_df,
    outcome (load_and_merge stem fs (existing fs CSV_FILES)) = Ok merged_df ∧
    written (events (main stem fs CSV_FILES CREATE_FINAL_SUBMISSION)) =
      (if bool_decide (df_rows (disagreements merged_df) = []) then []
       else [(output_name stem (existing fs CSV_FILES),
              ("PassengerId" :: df_columns merged_df,
               df_rows (disagreements merged_df)))]) ++
      (if CREATE_FINAL_SUBMISSION && (length (existing fs CSV_FILES) mod 2 =? 1)
       then [("final_submission.csv",
              (["PassengerId"; "Transported"], df_rows (majority_vote merged_df)))]
       else []).
Proof.
  intros Hne Hnd.
  destruct (exists_lookup_Forall2 fs _ (existing_exist fs CSV_FILES)) as [tables Hall].
  pose proof (Forall2_length _ _ _ Hall) as Hlen.
  pose proof (merged_table_shape stem _ tables Hlen Hnd) as Hshape.
  exists (merged_table stem (zip (existing fs CSV_FILES) tables)).
  set (merged := merged_table stem (zip (existing fs CSV_FILES) tables)) in *.
  split; [by rewrite (load_and_merge_ok stem fs _ tables)|].
  rewrite main_written, bool_decide_false by done.
  rewrite extract_disagreements_written.
  rewrite (extract_disagreements_ok stem fs _ tables) by done.
  cbn [outcome snd]. fold merged. f_equal.
  - rewrite disagreements_filter at 2. cbn [df_columns].
    unfold len. destruct (df_rows (disagreements merged)) as [|r rs]; [done|].
    by rewrite bool_decide_false.
  - rewrite final_submission_written.
    destruct CREATE_FINAL_SUBMISSION; cbn [andb]; [|done].
    destruct (length (existing fs CSV_FILES) mod 2 =? 1) eqn:Hodd; [|done].
    apply Nat.eqb_eq in Hodd.
    rewrite create_ensemble_prediction_written.
    destruct (create_ensemble_prediction_ok stem fs _ tables "final_submission.csv"
                Hodd Hall Hnd) as (nt & nf & ->).
    cbn [outcome snd]. fold merged.
    by rewrite (majority_vote_shape _ Hshape).
Qed.

(** ** Joining tables whose RecordIds are unique *)

Lemma filter_key_absent (r : list (RecordId * list bool)) (k : RecordId) :
  k ∉ r.*1 → filter (λ y, y.1 = k) r = [].
Proof.
  intros Hk. apply filter_none. intros y Hy Heq. apply Hk.
  rewrite <- Heq. by apply list_elem_of_fmap_2.
Qed.

Lemma filter_key_unique (r : list (RecordId * list bool)) (k : RecordId) :
  NoDup r.*1 → k ∈ r.*1 → ∃ y, filter (λ y, y.1 = k) r = [y].
Proof.
  induction r as [|x r IH]; intros Hnd Hk; [by apply elem_of_nil in Hk|].
  rewrite fmap_cons in Hnd, Hk. apply NoDup_cons in Hnd as [Hx Hnd].
  destruct (decide (x.1 = k)) as [Heq|Hne].
  - exists x. rewrite filter_cons_True by done.
    rewrite filter_key_absent; [done|by rewrite <- Heq].
  - apply elem_of_cons in Hk as [Hk|Hk]; [congruence|].
    destruct (IH Hnd Hk) as [y Hy]. exists y.
    by rewrite filter_cons_False.
Qed.

Lemma join_rows_ids_unique (l r : list (RecordId * list bool)) :
  NoDup r.*1 → (join_rows l r).*1 = filter (λ k, k ∈ r.*1) l.*1.
Proof.
  intros Hnd. induction l as [|x l IH]; [done|].
  unfold join_rows in *. rewrite bind_cons, fmap_app, IH, fmap_cons.
  destruct (decide (x.1 ∈ r.*1)) as [Hin|Hout].
  - destruct (filter_key_unique r x.1 Hnd Hin) as [y ->].
    by rewrite filter_cons_True.
  - rewrite (filter_key_absent r x.1 Hout).
    by rewrite filter_cons_False.
Qed.

Lemma merge_all_ids_unique
    (stem : string → string) (acc : DataFrame)
    (inputs : list (string * PredictionTable)) :
  Forall (λ ft, NoDup ft.2.*1) inputs →
  (df_rows (merge_all stem acc inputs)).*1 =
  filter (λ k, Forall (λ ft : string * PredictionTable, k ∈ ft.2.*1) inputs)
         (df_rows acc).*1.
Proof.
  intros Hnd. revert acc.
  induction Hnd as [|[f t] inputs Ht _ IH]; intros acc.
  - simpl. symmetry. apply filter_all. by intros.
  - rewrite merge_all_cons, IH.
    change (df_rows (join_frames acc (frame_of stem (f, t).1 (f, t).2)))
      with (join_rows (df_rows acc) (df_rows (frame_of stem f t))).
    rewrite join_rows_ids_unique by (by rewrite frame_of_ids).
    rewrite list_filter_filter. apply list_filter_iff.
    intros k. rewrite Forall_cons, frame_of_ids. simpl. tauto.
Qed.

Lemma load_and_merge_ids_unique
    (stem : string → string) (fs : gmap string PredictionTable)
    (file0 : string) (rest : list string)
    (table0 : PredictionTable) (tables : list PredictionTable) :
  Forall2 (λ f t, fs !! f = Some t) (file0 :: rest) (table0 :: tables) →
  NoDup (stem <$> file0 :: rest) →
  Forall (λ t : PredictionTable, NoDup t.*1) tables →
  ∃ merged_df,
    outcome (load_and_merge stem fs (file0 :: rest)) = Ok merged_df ∧
    (df_rows merged_df).*1 =
      filter (λ k, Forall (λ t : PredictionTable, k ∈ t.*1) tables) table0.*1.
Proof.
  intros Hall Hnd Huniq.
  rewrite (load_and_merge_ok stem fs _ (table0 :: tables)) by done.
  eexists. split; [done|].
  apply Forall2_cons in Hall as [_ Hall].
  pose proof (Forall2_length _ _ _ Hall) as Hlen.
  cbn [zip_with merged_table fst snd].
  rewrite merge_all_ids_unique, frame_of_ids.
  - apply list_filter_iff. intros k.
    rewrite <- (snd_zip rest tables) at 2 by lia. by rewrite Forall_fmap.
  - rewrite <- (snd_zip rest tables) in Huniq by lia.
    by rewrite Forall_fmap in Huniq.
Qed.

(** X10: when the RecordIds of every file after the first are unique within
    their file, the joined frame lists, in the order of the first file, the
    rows of the first file whose RecordId occurs in every other file. *)
Theorem merged_rows_follow_first_file
    (stem : string → string) (fs : gmap string PredictionTable)
    (file0 : string) (rest : list string)
    (table0 : PredictionTable) (tables : list PredictionTable) :
  Forall2 (λ f t, fs !! f = Some t) (file0 :: rest) (table0 :: tables) →
  NoDup (stem <$> file0 :: rest) →
  Forall (λ t : PredictionTable, NoDup t.*1) tables →
  ∃ merged_df,
    outcome (load_and_merge stem fs (file0 :: rest)) = Ok merged_df ∧
    (df_rows merged_df).*1 =
      filter (λ k, Forall (λ t : PredictionTable, k ∈ t.*1) tables) table0.*1.
Proof. apply load_and_merge_ids_unique. Qed.

Lemma example_ids_unique : Forall (λ t : PredictionTable, NoDup t.*1) example_tables.
Proof.
  repeat constructor; refine (bool_decide_unpack _ _); vm_compute; exact I.
Defined.

Lemma merged_rows_follow_first_file_witness :
  Forall2 (λ f t, example_fs !! f = Some t)
          ("A.csv" :: ["B.csv"; "C.csv"])
          ([("1", true); ("2", false); ("3", true)] ::
           [[("1", true); ("2", true); ("3", true)];
            [("1", false); ("2", false); ("3", true)]]) ∧
  NoDup (path_stem <$> "A.csv" :: ["B.csv"; "C.csv"]) ∧
  Forall (λ t : PredictionTable, NoDup t.*1)
         [[("1", true); ("2", true); ("3", true)];
          [("1", false); ("2", false); ("3", true)]] ∧
  ∃ merged_df,
    outcome (load_and_merge path_stem example_fs ("A.csv" :: ["B.csv"; "C.csv"]))
      = Ok merged_df ∧
    (df_rows merged_df).*1 =
      filter (λ k, Forall (λ t : PredictionTable, k ∈ t.*1)
                          [[("1", true); ("2", true); ("3", true)];
                           [("1", false); ("2", false); ("3", true)]])
             [("1", true); ("2", false); ("3", true)].*1.
Proof.
  assert (Forall (λ t : PredictionTable, NoDup t.*1)
                 [[("1", true); ("2", true); ("3", true)];
                  [("1", false); ("2", false); ("3", true)]]) as Hu
    by (exact (Forall_inv_tail example_ids_unique)).
  split_and!; [exact example_files_loaded|exact example_stems_distinct|exact Hu|].
  exact (merged_rows_follow_first_file path_stem example_fs "A.csv" ["B.csv"; "C.csv"]
           _ _ example_files_loaded example_stems_distinct Hu).
Defined.

(** X11: when the RecordIds are unique within every input file, they are
    unique in the joined frame, which has at most as many rows as the
    shortest input file. *)
Theorem unique_ids_preserved
    (stem : string → string) (fs : gmap string PredictionTable)
    (csv_files : list string) (tables : list PredictionTable) :
  csv_files ≠ [] →
  Forall2 (λ f t, fs !! f = Some t) csv_files tables →
  NoDup (stem <$> csv_files) →
  Forall (λ t : PredictionTable, NoDup t.*1) tables →
  ∃ merged_df,
    outcome (load_and_merge stem fs csv_files) = Ok merged_df ∧
    NoDup (df_rows merged_df).*1 ∧
    Forall (λ t : PredictionTable, len merged_df ≤ length t) tables.
Proof.
  intros Hne Hall Hnd Huniq.
  destruct Hall as [|file0 table0 rest ts Hf0 Hall]; [done|].
  apply Forall_cons in Huniq as [Hu0 Huniq].
  destruct (load_and_merge_ids_unique stem fs file0 rest table0 ts)
    as (merged_df & Hrun & Hids); [by constructor|done..|].
  exists merged_df.
  assert (NoDup (df_rows merged_df).*1) as Hmnd
    by (rewrite Hids; by apply NoDup_filter).
  split_and!; [done..|].
  assert (len merged_df = length (df_rows merged_df).*1) as Hlen
    by (unfold len; by rewrite length_fmap).
  constructor.
  - rewrite Hlen, Hids, <- (length_fmap fst table0). apply length_filter.
  - apply Forall_forall. intros t Ht.
    rewrite Hlen, <- (length_fmap fst t).
    apply submseteq_length, NoDup_submseteq; [done|].
    intros k Hk. rewrite Hids in Hk.
    apply list_elem_of_filter in Hk as [Hk _].
    rewrite Forall_forall in Hk. by apply Hk.
Qed.

Lemma unique_ids_preserved_witness :
  example_files ≠ [] ∧
  Forall2 (λ f t, example_fs !! f = Some t) example_files example_tables ∧
  NoDup (path_stem <$> example_files) ∧
  Forall (λ t : PredictionTable, NoDup t.*1) example_tables ∧
  ∃ merged_df,
    outcome (load_and_merge path_stem example_fs example_files) = Ok merged_df ∧
    NoDup (df_rows merged_df).*1 ∧
    Forall (λ t : PredictionTable, len merged_df ≤ length t) example_tables.
Proof.
  assert (example_files ≠ []) as Hne by discriminate.
  split_and!; [exact Hne|exact example_files_loaded|exact example_stems_distinct
              |exact example_ids_unique|].
  exact (unique_ids_preserved path_stem example_fs example_files example_tables
           Hne example_files_loaded example_stems_distinct example_ids_unique).
Defined.

(** ** The statistics of the report *)

Lemma bool_partition (l : list bool) :
  length (filter (λ b, b = true) l) + length (filter (λ b, b = false) l) = length l.
Proof.
  induction l as [|[] l IH]; [done| |].
  - rewrite filter_cons_True by done.
    rewrite (filter_cons_False (λ b, b = false)) by done. simpl. lia.
  - rewrite filter_cons_False by done.
    rewrite (filter_cons_True (λ b, b = false)) by done. simpl. lia.
Qed.

Lemma cells_single (cols : list string) (vs : list bool) (c : string) :
  NoDup cols → length vs = length cols → c ∈ cols →
  length (pd.cells cols vs c) = 1.
Proof.
  unfold pd.cells. rewrite length_fmap. revert vs.
  induction cols as [|a cols IH]; intros vs Hnd Hlen Hc;
    [by apply elem_of_nil in Hc|].
  destruct vs as [|v vs]; [done|]. simpl in Hlen.
  apply NoDup_cons in Hnd as [Ha Hnd]. cbn [zip_with].
  destruct (decide (a = c)) as [->|Hne].
  - rewrite filter_cons_True by done.
    rewrite filter_none; [done|].
    intros [c' v'] Hin Heq. simpl in Heq. subst c'.
    apply Ha. apply (list_elem_of_fmap_2 fst) in Hin.
    rewrite fst_zip in Hin by lia. done.
  - rewrite filter_cons_False by done.
    apply elem_of_cons in Hc as [Hc|Hc]; [congruence|].
    apply IH; [done|lia|done].
Qed.

Lemma column_length (df : DataFrame) (c : string) :
  merged_shape df → c ∈ df_columns df → length (pd.column df c) = len df.
Proof.
  intros (Hnd & _ & Hcells) Hc. unfold pd.column, len.
  induction Hcells as [|r rows Hr _ IH]; [done|].
  rewrite bind_cons, length_app, IH. simpl.
  by rewrite cells_single.
Qed.

Lemma disagreements_shape (df : DataFrame) :
  merged_shape df → merged_shape (disagreements df).
Proof.
  intros (Hnd & Hpre & Hcells). rewrite disagreements_filter.
  split_and!; [done..|]. cbn [df_columns df_rows].
  apply Forall_forall. intros r [_ Hr]%list_elem_of_filter.
  rewrite Forall_forall in Hcells. by apply Hcells.
Qed.

Lemma report_printed
    (merged_df disagreements_df : DataFrame) (output_file : string) :
  0 < len disagreements_df → 0 < len merged_df →
  printed (events (report merged_df disagreements_df output_file)) =
  [DisagreementRows (len disagreements_df); SavedResult output_file; StatsHeader;
   StatsTotal (len merged_df); StatsDisagreements (len disagreements_df);
   StatsAgreementRate
     (inject_Z (Z.of_nat (len merged_df) - Z.of_nat (len disagreements_df))
      / inject_Z (Z.of_nat (len merged_df)) * 100);
   DistributionHeader] ++
  ((λ col, Distribution col
             (length (filter (λ b, b = true) (pd.column disagreements_df col)))
             (length (filter (λ b, b = false) (pd.column disagreements_df col))))
     <$> filter (λ col, startswith col "Transported_" = true) (df_columns merged_df)) ++
  [SampleHeader; Sample (pd.head 10 disagreements_df)].
Proof.
  intros Hdis Hmerged. unfold report.
  replace (0 <? len disagreements_df) with true
    by (symmetry; by apply Nat.ltb_lt).
  rewrite truediv_outcome by lia.
  run_binds. rewrite outcome_for_each_print. run_binds.
  rewrite !printed_app, printed_for_each_print. done.
Qed.

Lemma printed_fmap_print {A} (f : A → Msg) (l : list A) :
  printed ((λ x, Print (f x)) <$> l) = f <$> l.
Proof.
  induction l as [|x l IH]; [done|].
  rewrite !fmap_cons. unfold printed in *. cbn [omap list_omap].
  f_equal. exact IH.
Qed.

Lemma extract_disagreements_printed
    (stem : string → string) (fs : gmap string PredictionTable)
    (csv_files : list string) (tables : list PredictionTable) (output_file : string) :
  csv_files ≠ [] →
  Forall2 (λ f t, fs !! f = Some t) csv_files tables →
  NoDup (stem <$> csv_files) →
  printed (events (extract_disagreements stem fs csv_files output_file)) =
  ((λ ft, LoadedFile ft.1 (length ft.2)) <$> zip csv_files tables) ++
  MergedRows (len (merged_table stem (zip csv_files tables))) ::
  printed (events (report (merged_table stem (zip csv_files tables))
                     (disagreements (merged_table stem (zip csv_files tables)))
                     output_file)).
Proof.
  intros Hne Hall Hnd.
  rewrite (extract_disagreements_ok stem fs csv_files tables) by done.
  cbn [events fst]. rewrite printed_app.
  by rewrite (printed_fmap_print (λ ft, LoadedFile ft.1 (length ft.2))).
Qed.

(** X12: the per-source distribution printed by [extract_disagreements]
    has one line per input file whenever there is a disagreement row, and
    on every such line the [True] and [False] counts add up to the number
    of disagreement rows. *)
Theorem distribution_counts_add_up
    (stem : string → string) (fs : gmap string PredictionTable)
    (csv_files : list string) (tables : list PredictionTable) (output_file : string) :
  csv_files ≠ [] →
  Forall2 (λ f t, fs !! f = Some t) csv_files tables →
  NoDup (stem <$> csv_files) →
  ∃ disagreements_df,
    outcome (extract_disagreements stem fs csv_files output_file)
      = Ok (Some disagreements_df) ∧
    (∀ col t f,
       Distribution col t f ∈
         printed (events (extract_disagreements stem fs csv_files output_file)) →
       col ∈ column_of stem <$> csv_files ∧ t + f = len disagreements_df) ∧
    (0 < len disagreements_df →
     ∀ file, file ∈ csv_files →
       ∃ t f, Distribution (column_of stem file) t f ∈
                printed (events (extract_disagreements stem fs csv_files output_file))).
Proof.
  intros Hne Hall Hnd.
  pose proof (Forall2_length _ _ _ Hall) as Hlen.
  pose proof (merged_table_shape stem csv_files tables Hlen Hnd) as Hshape.
  pose proof (merged_table_columns stem csv_files tables Hlen) as Hcols.
  rewrite (extract_disagreements_printed stem fs csv_files tables) by done.
  rewrite (extract_disagreements_ok stem fs csv_files tables) by done.
  set (merged := merged_table stem (zip csv_files tables)) in *.
  exists (disagreements merged). split; [done|].
  pose proof (len_disagreements merged) as Hle.
  destruct (decide (len (disagreements merged) = 0)) as [Hzero|Hpos].
  { rewrite (report_empty _ _ _ Hzero). split; [|lia].
    intros col t f [Hin|Hin]%elem_of_app.
    - by apply list_elem_of_fmap in Hin as (? & ? & _).
    - repeat (apply elem_of_cons in Hin as [Hin|Hin]; [done|]).
      by apply elem_of_nil in Hin. }
  rewrite report_printed by lia.
  rewrite (filter_all _ (df_columns merged)); last first.
  { destruct Hshape as (_ & Hpre & _). by apply Forall_forall. }
  split.
  - intros col t f [Hin|Hin]%elem_of_app.
    { by apply list_elem_of_fmap in Hin as (? & ? & _). }
    apply elem_of_cons in Hin as [Hin|Hin]; [done|].
    apply elem_of_app in Hin as [Hin|Hin].
    { repeat (apply elem_of_cons in Hin as [Hin|Hin]; [done|]).
      by apply elem_of_nil in Hin. }
    apply elem_of_app in Hin as [Hin|Hin].
    + apply list_elem_of_fmap in Hin as (c & [= -> -> ->] & Hc).
      split; [by rewrite <- Hcols|].
      rewrite bool_partition. apply column_length.
      * by apply disagreements_shape.
      * by rewrite disagreements_filter.
    + repeat (apply elem_of_cons in Hin as [Hin|Hin]; [done|]).
      by apply elem_of_nil in Hin.
  - intros _ file Hfile. do 2 eexists.
    apply elem_of_app. right. right.
    apply elem_of_app. right. apply elem_of_app. left.
    apply list_elem_of_fmap. exists (column_of stem file). split; [done|].
    rewrite Hcols. by apply list_elem_of_fmap_2.
Qed.

Lemma distribution_counts_add_up_witness :
  example_files ≠ [] ∧
  Forall2 (λ f t, example_fs !! f = Some t) example_files example_tables ∧
  NoDup (path_stem <$> example_files) ∧
  ∃ disagreements_df,
    outcome (extract_disagreements path_stem example_fs example_files "d.csv")
      = Ok (Some disagreements_df) ∧
    (∀ col t f,
       Distribution col t f ∈
         printed (events (extract_disagreements path_stem example_fs example_files "d.csv")) →
       col ∈ column_of path_stem <$> example_files ∧ t + f = len disagreements_df) ∧
    (0 < len disagreements_df →
     ∀ file, file ∈ example_files →
       ∃ t f, Distribution (column_of path_stem file) t f ∈
                printed (events (extract_disagreements path_stem example_fs
                                   example_files "d.csv"))).
Proof.
  assert (example_files ≠ []) as Hne by discriminate.
  split_and!; [exact Hne|exact example_files_loaded|exact example_stems_distinct|].
  exact (distribution_counts_add_up path_stem example_fs example_files example_tables
           "d.csv" Hne example_files_loaded example_stems_distinct).
Defined.

Lemma agreement_rate_bounds (m d : nat) :
  0 < d → d ≤ m →
  (0 <= inject_Z (Z.of_nat m - Z.of_nat d) / inject_Z (Z.of_nat m) * 100)%Q ∧
  (inject_Z (Z.of_nat m - Z.of_nat d) / inject_Z (Z.of_nat m) * 100 < 100)%Q.
Proof.
  intros Hd Hm.
  destruct (Z.of_nat m) as [|p|p] eqn:Hp; [lia| |lia].
  unfold Qle, Qlt, Qdiv, Qmult, Qinv, inject_Z. simpl.
  split; lia.
Qed.

(** X13: the agreement rate is printed only when there is a disagreement
    row, and it is then a percentage of at least 0 and strictly below 100. *)
Theorem agreement_rate_in_range
    (stem : string → string) (fs : gmap string PredictionTable)
    (csv_files : list string) (tables : list PredictionTable) (output_file : string)
    (rate : Q) :
  csv_files ≠ [] →
  Forall2 (λ f t, fs !! f = Some t) csv_files tables →
  NoDup (stem <$> csv_files) →
  StatsAgreementRate rate ∈
    printed (events (extract_disagreements stem fs csv_files output_file)) →
  (0 <= rate)%Q ∧ (rate < 100)%Q ∧
  ∃ disagreements_df,
    outcome (extract_disagreements stem fs csv_files output_file)
      = Ok (Some disagreements_df) ∧
    0 < len disagreements_df.
Proof.
  intros Hne Hall Hnd.
  rewrite (extract_disagreements_printed stem fs csv_files tables) by done.
  rewrite (extract_disagreements_ok stem fs csv_files tables) by done.
  set (merged := merged_table stem (zip csv_files tables)) in *.
  pose proof (len_disagreements merged) as Hle.
  destruct (decide (len (disagreements merged) = 0)) as [Hzero|Hpos].
  { rewrite (report_empty _ _ _ Hzero).
    intros [Hin|Hin]%elem_of_app.
    - by apply list_elem_of_fmap in Hin as (? & ? & _).
    - repeat (apply elem_of_cons in Hin as [Hin|Hin]; [done|]).
      by apply elem_of_nil in Hin. }
  rewrite report_printed by lia.
  intros [Hin|Hin]%elem_of_app.
  { by apply list_elem_of_fmap in Hin as (? & ? & _). }
  apply elem_of_cons in Hin as [Hin|Hin]; [done|].
  apply elem_of_app in Hin as [Hin|Hin].
  - do 5 (apply elem_of_cons in Hin as [Hin|Hin]; [done|]).
    apply elem_of_cons in Hin as [[= ->]|Hin].
    + destruct (agreement_rate_bounds (len merged) (len (disagreements merged)))
        as [H0 H100]; [lia..|].
      split_and!; [done..|]. eexists. split; [done|lia].
    + repeat (apply elem_of_cons in Hin as [Hin|Hin]; [done|]).
      by apply elem_of_nil in Hin.
  - apply elem_of_app in Hin as [Hin|Hin].
    + by apply list_elem_of_fmap in Hin as (? & ? & _).
    + repeat (apply elem_of_cons in Hin as [Hin|Hin]; [done|]).
      by apply elem_of_nil in Hin.
Qed.

Lemma agreement_rate_in_range_witness :
  example_files ≠ [] ∧
  Forall2 (λ f t, example_fs !! f = Some t) example_files example_tables ∧
  NoDup (path_stem <$> example_files) ∧
  StatsAgreementRate (100 # 3) ∈
    printed (events (extract_disagreements path_stem example_fs example_files "d.csv")) ∧
  (0 <= 100 # 3)%Q ∧ (100 # 3 < 100)%Q ∧
  ∃ disagreements_df,
    outcome (extract_disagreements path_stem example_fs example_files "d.csv")
      = Ok (Some disagreements_df) ∧
    0 < len disagreements_df.
Proof.
  assert (example_files ≠ []) as Hne by discriminate.
  assert (StatsAgreementRate (100 # 3) ∈
            printed (events (extract_disagreements path_stem example_fs
                               example_files "d.csv"))) as Hin.
  { vm_compute.
    repeat first [apply list_elem_of_here | apply list_elem_of_further]. }
  split_and!; [exact Hne|exact example_files_loaded|exact example_stems_distinct
              |exact Hin|..];
  apply (agreement_rate_in_range path_stem example_fs example_files example_tables
           "d.csv" (100 # 3) Hne example_files_loaded example_stems_distinct Hin).
Defined.

(** ** The votes *)






Lemma unanimous_vote (vs : list bool) (b : bool) :
  b ∈ vs → ¬ disagree vs →
  bool_decide (length vs < 2 * count_true vs) = b.
Proof.
  intros Hb Hagree.
  assert (∀ a, a ∈ vs → a = b) as Hall.
  { intros a Ha. destruct (decide (a = b)) as [|Hne]; [done|].
    destruct Hagree. by exists a, b. }
  assert (0 < length vs) as Hpos.
  { destruct vs; [by apply elem_of_nil in Hb|simpl; lia]. }
  unfold count_true. destruct b.
  - rewrite filter_all by done. apply bool_decide_eq_true. lia.
  - rewrite filter_none; [apply bool_decide_eq_false; simpl; lia|].
    intros a Ha ->. by specialize (Hall _ Ha).
Qed.

(** X15: on a joined row that is no disagreement, the majority vote is the
    prediction every source gave: the two outputs of the script agree on all
    the rows the disagreement file leaves out. *)
Theorem unanimous_rows_keep_their_prediction
    (stem : string → string) (fs : gmap string PredictionTable)
    (csv_files : list string) (tr : list Event) (merged_df : DataFrame) :
  load_and_merge stem fs csv_files = (tr, Ok merged_df) →
  ∀ row, row ∈ df_rows merged_df →
         row ∉ df_rows (disagreements merged_df) →
         ∀ b, b ∈ row.2 → (row.1, [b]) ∈ df_rows (majority_vote merged_df).
Proof.
  intros (tables & Hne & Hall & Hnd & ->)%load_and_merge_inv row Hrow Hout b Hb.
  pose proof (Forall2_length _ _ _ Hall) as Hlen.
  pose proof (merged_table_shape stem csv_files tables Hlen Hnd) as Hshape.
  rewrite (majority_vote_shape _ Hshape). cbn [df_rows].
  apply list_elem_of_fmap. exists row. split; [|done].
  do 2 f_equal. symmetry.
  assert (length (df_columns (merged_table stem (zip csv_files tables)))
          = length row.2) as ->.
  { destruct Hshape as (_ & _ & Hcells). rewrite Forall_forall in Hcells.
    by rewrite (Hcells _ Hrow). }
  apply unanimous_vote; [done|].
  intros Hdis. apply Hout. by apply elem_of_disagreements.
Qed.

Lemma unanimous_rows_keep_their_prediction_witness :
  load_and_merge path_stem example_fs example_files =
    ((λ ft, Print (LoadedFile ft.1 (length ft.2))) <$> zip example_files example_tables,
     Ok (merged_table path_stem (zip example_files example_tables))) ∧
  ∀ row, row ∈ df_rows (merged_table path_stem (zip example_files example_tables)) →
         row ∉ df_rows (disagreements
                          (merged_table path_stem (zip example_files example_tables))) →
         ∀ b, b ∈ row.2 →
              (row.1, [b]) ∈
                df_rows (majority_vote
                           (merged_table path_stem (zip example_files example_tables))).
Proof.
  assert (load_and_merge path_stem example_fs example_files =
    ((λ ft, Print (LoadedFile ft.1 (length ft.2))) <$> zip example_files example_tables,
     Ok (merged_table path_stem (zip example_files example_tables)))) as Hrun
    by (vm_compute; reflexivity).
  split; [exact Hrun|].
  exact (unanimous_rows_keep_their_prediction path_stem example_fs example_files
           _ _ Hrun).
Defined.




(** X17: in every disagreement row at least one source says [True] and at
    least one says [False]: the number of [True] cells lies strictly between
    0 and the number of files. *)
Theorem disagreement_rows_are_split
    (stem : string → string) (fs : gmap string PredictionTable)
    (csv_files : list string) (tr : list Event) (merged_df : DataFrame) :
  load_and_merge stem fs csv_files = (tr, Ok merged_df) →
  Forall (λ row, true ∈ row.2 ∧ false ∈ row.2 ∧
                 0 < count_true row.2 < length csv_files)
         (df_rows (disagreements merged_df)).
Proof.
  intros (tables & Hne & Hall & Hnd & ->)%load_and_merge_inv.
  pose proof (Forall2_length _ _ _ Hall) as Hlen.
  pose proof (merged_table_shape stem csv_files tables Hlen Hnd) as Hshape.
  apply Forall_forall. intros row Hrow.
  apply (elem_of_disagreements _ _ Hshape) in Hrow as [Hrow (a & b & Ha & Hb & Hne')].
  assert (true ∈ row.2 ∧ false ∈ row.2) as [Ht Hf].
  { destruct a, b; try done; by split. }
  destruct Hshape as (_ & _ & Hcells). rewrite Forall_forall in Hcells.
  specialize (Hcells _ Hrow).
  rewrite (merged_table_columns stem csv_files tables Hlen), length_fmap in Hcells.
  split_and!; [done..| |].
  - unfold count_true.
    assert (true ∈ filter (λ b, b = true) row.2) as Hin
      by (by apply list_elem_of_filter).
    destruct (filter (λ b, b = true) row.2); [by apply elem_of_nil in Hin|simpl; lia].
  - rewrite <- Hcells. unfold count_true.
    by apply (length_filter_lt _ _ false).
Qed.

Lemma disagreement_rows_are_split_witness :
  load_and_merge path_stem example_fs example_files =
    ((λ ft, Print (LoadedFile ft.1 (length ft.2))) <$> zip example_files example_tables,
     Ok (merged_table path_stem (zip example_files example_tables))) ∧
  Forall (λ row, true ∈ row.2 ∧ false ∈ row.2 ∧
                 0 < count_true row.2 < length example_files)
         (df_rows (disagreements
                     (merged_table path_stem (zip example_files example_tables)))).
Proof.
  assert (load_and_merge path_stem example_fs example_files =
    ((λ ft, Print (LoadedFile ft.1 (length ft.2))) <$> zip example_files example_tables,
     Ok (merged_table path_stem (zip example_files example_tables)))) as Hrun
    by (vm_compute; reflexivity).
  split; [exact Hrun|].
  exact (disagreement_rows_are_split path_stem example_fs example_files _ _ Hrun).
Defined.

(** ** Edge cases of the pipeline *)



(** X19: when one of the input files has no row, the joined frame has no
    row: [extract_disagreements] writes nothing and reports that all
    predictions agree. *)
Theorem empty_table_empties_the_join
    (stem : string → string) (fs : gmap string PredictionTable)
    (csv_files : list string) (tables : list PredictionTable) (output_file : string) :
  csv_files ≠ [] →
  Forall2 (λ f t, fs !! f = Some t) csv_files tables →
  NoDup (stem <$> csv_files) →
  [] ∈ tables →
  ∃ merged_df,
    outcome (load_and_merge stem fs csv_files) = Ok merged_df ∧
    df_rows merged_df = [] ∧
    outcome (extract_disagreements stem fs csv_files output_file)
      = Ok (Some {| df_columns := df_columns merged_df; df_rows := [] |}) ∧
    written (events (extract_disagreements stem fs csv_files output_file)) = [] ∧
    NoDisagreements ∈
      printed (events (extract_disagreements stem fs csv_files output_file)).
Proof.
  intros Hne Hall Hnd Hempty.
  pose proof (Forall2_length _ _ _ Hall) as Hlen.
  exists (merged_table stem (zip csv_files tables)).
  set (merged := merged_table stem (zip csv_files tables)).
  assert (df_rows merged = []) as Hrows.
  { destruct (df_rows merged) as [|r rows] eqn:Hr; [done|]. exfalso.
    assert (r.1 ∈ frame_ids merged) as Hin
      by (unfold frame_ids; rewrite Hr; set_solver).
    unfold merged in Hin. rewrite merged_table_ids in Hin by done.
    destruct tables as [|t0 ts]; [by apply elem_of_nil in Hempty|].
    rewrite fmap_cons in Hin. cbn [intersection_all] in Hin.
    apply intersection_all_cons in Hin as [H0 Hts].
    apply elem_of_cons in Hempty as [<-|Hempty].
    - unfold table_ids in H0. set_solver.
    - rewrite Forall_fmap, Forall_forall in Hts.
      specialize (Hts _ Hempty). unfold table_ids in Hts. simpl in Hts.
      set_solver. }
  assert (disagreements merged = {| df_columns := df_columns merged; df_rows := [] |})
    as Hdis by (rewrite disagreements_filter; by rewrite Hrows).
  split_and!.
  - by rewrite (load_and_merge_ok stem fs csv_files tables).
  - done.
  - rewrite (extract_disagreements_ok stem fs csv_files tables) by done.
    cbn [outcome snd]. fold merged. by rewrite Hdis.
  - rewrite extract_disagreements_written.
    rewrite (extract_disagreements_ok stem fs csv_files tables) by done.
    cbn [outcome snd]. fold merged. by rewrite Hdis.
  - rewrite (extract_disagreements_printed stem fs csv_files tables) by done.
    fold merged. rewrite Hdis, report_empty by done.
    apply elem_of_app. right. set_solver.
Qed.

Lemma empty_table_empties_the_join_witness :
  ["a/pred.csv"; "e.csv"] ≠ [] ∧
  Forall2 (λ f t, <["e.csv" := []]> clash_fs !! f = Some t)
          ["a/pred.csv"; "e.csv"] [[("1", true)]; []] ∧
  NoDup (path_stem <$> ["a/pred.csv"; "e.csv"]) ∧
  [] ∈ [[("1", true)]; ([] : PredictionTable)] ∧
  ∃ merged_df,
    outcome (load_and_merge path_stem (<["e.csv" := []]> clash_fs)
               ["a/pred.csv"; "e.csv"]) = Ok merged_df ∧
    df_rows merged_df = [] ∧
    outcome (extract_disagreements path_stem (<["e.csv" := []]> clash_fs)
               ["a/pred.csv"; "e.csv"] "d.csv")
      = Ok (Some {| df_columns := df_columns merged_df; df_rows := [] |}) ∧
    written (events (extract_disagreements path_stem (<["e.csv" := []]> clash_fs)
                       ["a/pred.csv"; "e.csv"] "d.csv")) = [] ∧
    NoDisagreements ∈
      printed (events (extract_disagreements path_stem (<["e.csv" := []]> clash_fs)
                         ["a/pred.csv"; "e.csv"] "d.csv")).
Proof.
  assert (["a/pred.csv"; "e.csv"] ≠ []) as Hne by discriminate.
  assert (Forall2 (λ f t, <["e.csv" := []]> clash_fs !! f = Some t)
                  ["a/pred.csv"; "e.csv"] [[("1", true)]; []]) as Hall
    by (repeat constructor).
  assert (NoDup (path_stem <$> ["a/pred.csv"; "e.csv"])) as Hnd
    by (refine (bool_decide_unpack _ _); vm_compute; exact I).
  assert ([] ∈ [[("1", true)]; ([] : PredictionTable)]) as Hin
    by (apply list_elem_of_further, list_elem_of_here).
  split_and!; [exact Hne|exact Hall|exact Hnd|exact Hin|].
  exact (empty_table_empties_the_join path_stem (<["e.csv" := []]> clash_fs)
           ["a/pred.csv"; "e.csv"] [[("1", true)]; []] "d.csv" Hne Hall Hnd Hin).
Defined.

(** X20: whatever the list of files, the disagreement file is written iff
    [extract_disagreements] returns a frame that has a row, and it then
    holds that frame: its columns after the identifier, and its rows.  A
    call that fails, or that returns nothing, writes nothing. *)
Theorem written_file_is_returned_frame
    (stem : string → string) (fs : gmap string PredictionTable)
    (csv_files : list string) (output_file : string) :
  written (events (extract_disagreements stem fs csv_files output_file)) =
  match outcome (extract_disagreements stem fs csv_files output_file) with
  | Ok (Some df) =>
      if 0 <? len df
      then [(output_file, ("PassengerId" :: df_columns df, df_rows df))]
      else []
  | Ok None | Raised _ => []
  end.
Proof.
  rewrite extract_disagreements_written.
  by destruct (outcome (extract_disagreements _ _ _ _)) as [[df|]|e].
Qed.

Lemma Forall_tables_files
    (fs : gmap string PredictionTable) (P : PredictionTable → Prop)
    (files : list string) (tables : list PredictionTable) :
  Forall2 (λ f t, fs !! f = Some t) files tables →
  Forall P tables ↔ ∀ f, f ∈ files → ∃ t, fs !! f = Some t ∧ P t.
Proof.
  induction 1 as [|f t files tables Hf _ IH].
  - split; [by intros _ f ?%elem_of_nil|constructor].
  - rewrite Forall_cons, IH. split.
    + intros [Ht Hrest] g [->|Hg]%elem_of_cons; [by exists t|by apply Hrest].
    + intros Hall. split.
      * destruct (Hall f) as (t' & Ht' & HP); [by left|]. congruence.
      * intros g Hg. apply Hall. by right.
Qed.

Lemma merged_ids_by_file
    (stem : string → string) (fs : gmap string PredictionTable)
    (csv_files : list string) (tables : list PredictionTable) (id : RecordId) :
  csv_files ≠ [] →
  Forall2 (λ f t, fs !! f = Some t) csv_files tables →
  id ∈ frame_ids (merged_table stem (zip csv_files tables)) ↔
  ∀ f, f ∈ csv_files → ∃ t, fs !! f = Some t ∧ id ∈ table_ids t.
Proof.
  intros Hne Hall.
  rewrite merged_table_ids by (done || by eapply Forall2_length).
  rewrite <- (Forall_tables_files fs (λ t, id ∈ table_ids t) _ _ Hall).
  destruct tables as [|t0 ts].
  { apply Forall2_nil_inv_r in Hall. done. }
  rewrite fmap_cons. cbn [intersection_all].
  by rewrite intersection_all_cons, Forall_cons, Forall_fmap.
Qed.

(** X21: the set of RecordIds of the joined frame does not depend on the
    order in which the files are listed. *)
Theorem merged_ids_ignore_file_order
    (stem : string → string) (fs : gmap string PredictionTable)
    (csv_files csv_files' : list string) :
  csv_files ≡ₚ csv_files' →
  csv_files ≠ [] →
  Forall (λ f, is_Some (fs !! f)) csv_files →
  NoDup (stem <$> csv_files) →
  ∃ merged_df merged_df',
    outcome (load_and_merge stem fs csv_files) = Ok merged_df ∧
    outcome (load_and_merge stem fs csv_files') = Ok merged_df' ∧
    frame_ids merged_df = frame_ids merged_df'.
Proof.
  intros Hperm Hne Hex Hnd.
  assert (csv_files' ≠ []) as Hne'.
  { intros ->. by apply Permutation_nil_r in Hperm. }
  assert (Forall (λ f, is_Some (fs !! f)) csv_files') as Hex'
    by (by rewrite <- Hperm).
  assert (NoDup (stem <$> csv_files')) as Hnd' by (by rewrite <- Hperm).
  destruct (exists_lookup_Forall2 fs _ Hex) as [tables Hall].
  destruct (exists_lookup_Forall2 fs _ Hex') as [tables' Hall'].
  rewrite (load_and_merge_ok stem fs csv_files tables) by done.
  rewrite (load_and_merge_ok stem fs csv_files' tables') by done.
  do 2 eexists. split_and!; [done..|].
  apply set_eq. intros id.
  rewrite (merged_ids_by_file stem fs csv_files tables) by done.
  rewrite (merged_ids_by_file stem fs csv_files' tables') by done.
  split; intros H f Hf; apply H; [by rewrite Hperm|by rewrite <- Hperm].
Qed.

Lemma merged_ids_ignore_file_order_witness :
  example_files ≡ₚ ["C.csv"; "A.csv"; "B.csv"] ∧
  example_files ≠ [] ∧
  Forall (λ f, is_Some (example_fs !! f)) example_files ∧
  NoDup (path_stem <$> example_files) ∧
  ∃ merged_df merged_df',
    outcome (load_and_merge path_stem example_fs example_files) = Ok merged_df ∧
    outcome (load_and_merge path_stem example_fs ["C.csv"; "A.csv"; "B.csv"])
      = Ok merged_df' ∧
    frame_ids merged_df = frame_ids merged_df'.
Proof.
  assert (example_files ≡ₚ ["C.csv"; "A.csv"; "B.csv"]) as Hperm.
  { unfold example_files.
    apply (Permutation_cons_app ["C.csv"] ["B.csv"] "A.csv").
    apply perm_swap. }
  assert (example_files ≠ []) as Hne by discriminate.
  split_and!; [exact Hperm|exact Hne|exact example_files_exist
              |exact example_stems_distinct|].
  exact (merged_ids_ignore_file_order path_stem example_fs example_files _
           Hperm Hne example_files_exist example_stems_distinct).
Defined.

(** ** The closing message *)

(** X22: a run of [main] that reaches its end closes with the number of
    disagreement rows and the name of the disagreement file when there is
    such a row, and with the plain message otherwise. *)
Theorem closing_message_counts_disagreements
    (stem : string → string) (fs : gmap string PredictionTable)
    (CSV_FILES : list string) (CREATE_FINAL_SUBMISSION : bool) :
  existing fs CSV_FILES ≠ [] →
  NoDup (stem <$> existing fs CSV_FILES) →
  ∃ merged_df before,
    outcome (load_and_merge stem fs (existing fs CSV_FILES)) = Ok merged_df ∧
    events (main stem fs CSV_FILES CREATE_FINAL_SUBMISSION) =
      before ++
      [Print (if bool_decide (df_rows (disagreements merged_df) = []) then Done
              else DoneSaved (len (disagreements merged_df))
                             (output_name stem (existing fs CSV_FILES)))].
Proof.
  intros Hne Hnd.
  destruct (exists_lookup_Forall2 fs _ (existing_exist fs CSV_FILES)) as [tables Hall].
  exists (merged_table stem (zip (existing fs CSV_FILES) tables)).
  set (merged := merged_table stem (zip (existing fs CSV_FILES) tables)).
  rewrite main_events, bool_decide_false by done.
  rewrite process_events.
  rewrite (final_submission_ok stem fs _ tables) by done.
  assert (outcome (extract_disagreements stem fs (existing fs CSV_FILES)
                     (output_name stem (existing fs CSV_FILES)))
          = Ok (Some (disagreements merged))) as ->
    by (by rewrite (extract_disagreements_ok stem fs _ tables)).
  assert (events (closing (Some (disagreements merged))
                    (output_name stem (existing fs CSV_FILES))) =
          [Print (if bool_decide (df_rows (disagreements merged) = []) then Done
                  else DoneSaved (len (disagreements merged))
                                 (output_name stem (existing fs CSV_FILES)))]) as ->.
  { unfold closing, len.
    destruct (df_rows (disagreements merged)) as [|r rs]; [done|].
    by rewrite bool_decide_false. }
  eexists. split; [by rewrite (load_and_merge_ok stem fs _ tables)|].
  by rewrite !app_assoc.
Qed.

Lemma closing_message_counts_disagreements_witness :
  existing example_fs example_files ≠ [] ∧
  NoDup (path_stem <$> existing example_fs example_files) ∧
  ∃ merged_df before,
    outcome (load_and_merge path_stem example_fs (existing example_fs example_files))
      = Ok merged_df ∧
    events (main path_stem example_fs example_files false) =
      before ++
      [Print (if bool_decide (df_rows (disagreements merged_df) = []) then Done
              else DoneSaved (len (disagreements merged_df))
                             (output_name path_stem (existing example_fs example_files)))].
Proof.
  assert (existing example_fs example_files ≠ []) as Hne
    by (vm_compute; discriminate).
  assert (NoDup (path_stem <$> existing example_fs example_files)) as Hnd
    by (refine (bool_decide_unpack _ _); vm_compute; exact I).
  split_and!; [exact Hne|exact Hnd|].
  exact (closing_message_counts_disagreements path_stem example_fs example_files
           false Hne Hnd).
Defined.

(** ** The name of the disagreement file *)

Lemma string_app_nil (s : string) : "" +:+ s = s.
Proof. reflexivity. Qed.

Lemma string_app_cons (a : ascii) (s1 s2 : string) :
  String a s1 +:+ s2 = String a (s1 +:+ s2).
Proof. reflexivity. Qed.

Lemma string_length_app (s1 s2 : string) :
  String.length (s1 +:+ s2) = String.length s1 + String.length s2.
Proof.
  induction s1 as [|a s1 IH]; [done|].
  rewrite string_app_cons. simpl. by rewrite IH.
Qed.

Lemma string_app_assoc (s1 s2 s3 : string) :
  (s1 +:+ s2) +:+ s3 = s1 +:+ (s2 +:+ s3).
Proof.
  induction s1 as [|a s1 IH]; [done|].
  rewrite !string_app_cons. by rewrite IH.
Qed.

Lemma rfind_app (c : ascii) (s1 s2 : string) :
  rfind c (s1 +:+ s2) =
  match rfind c s2 with
  | Some i => Some (String.length s1 + i)
  | None => rfind c s1
  end.
Proof.
  induction s1 as [|a s1 IH].
  - rewrite string_app_nil. by destruct (rfind c s2).
  - rewrite string_app_cons. simpl. rewrite IH. by destruct (rfind c s2).
Qed.

Lemma rfind_None_cons (c a : ascii) (s : string) :
  rfind c (String a s) = None ↔ a ≠ c ∧ rfind c s = None.
Proof.
  simpl. destruct (rfind c s); [split; [done|by intros [_ ?]]|].
  destruct (decide (a = c)); split; try done; by intros [? _].
Qed.

Lemma rfind_None_substring (c : ascii) (s : string) (n m : nat) :
  rfind c s = None → rfind c (String.substring n m s) = None.
Proof.
  revert n m. induction s as [|a s IH]; intros n m Hs.
  - by destruct n, m.
  - apply rfind_None_cons in Hs as [Ha Hs].
    destruct n as [|n].
    + destruct m as [|m]; [done|]. simpl String.substring.
      apply rfind_None_cons. split; [done|by apply IH].
    + simpl. by apply IH.
Qed.

Lemma rfind_Some_tail (c : ascii) (s : string) (i : nat) :
  rfind c s = Some i →
  rfind c (String.substring (S i) (String.length s - S i) s) = None.
Proof.
  revert i. induction s as [|a s IH]; intros i; [done|].
  simpl rfind. destruct (rfind c s) as [j|] eqn:Hj.
  - intros [= <-]. simpl. by apply IH.
  - destruct (decide (a = c)); [|done]. intros [= <-]. simpl.
    by apply rfind_None_substring.
Qed.

Lemma path_name_no_separator (file : string) :
  rfind "/"%char (path_name file) = None.
Proof.
  unfold path_name. destruct (rfind "/"%char file) as [i|] eqn:Hi; [|done].
  by apply rfind_Some_tail.
Qed.

Lemma path_stem_no_separator (file : string) :
  rfind "/"%char (path_stem file) = None.
Proof.
  unfold path_stem. pose proof (path_name_no_separator file) as Hname.
  destruct (rfind "."%char (path_name file)) as [i|]; [|done].
  destruct (_ && _); [|done]. by apply rfind_None_substring.
Qed.

Lemma rfind_concat (c : ascii) (sep : string) (l : list string) :
  rfind c sep = None →
  Forall (λ x, rfind c x = None) l →
  rfind c (String.concat sep l) = None.
Proof.
  intros Hsep. induction 1 as [|x l Hx Hl IH]; [done|].
  destruct l as [|y l]; [done|].
  change (String.concat sep (x :: y :: l))
    with (x +:+ sep +:+ String.concat sep (y :: l)).
  by rewrite !rfind_app, IH, Hsep.
Qed.

Lemma length_concat_ge (sep : string) (l : list string) (x : string) :
  x ∈ l → String.length x ≤ String.length (String.concat sep l).
Proof.
  induction l as [|y l IH]; intros Hx; [by apply elem_of_nil in Hx|].
  destruct l as [|z l].
  - apply list_elem_of_singleton in Hx as ->. done.
  - change (String.concat sep (y :: z :: l))
      with (y +:+ sep +:+ String.concat sep (z :: l)).
    rewrite !string_length_app.
    apply elem_of_cons in Hx as [->|Hx]; [lia|].
    specialize (IH Hx). lia.
Qed.

Lemma substring_prefix (s1 s2 : string) :
  String.substring 0 (String.length s1) (s1 +:+ s2) = s1.
Proof.
  induction s1 as [|a s1 IH].
  - rewrite string_app_nil. by destruct s2.
  - rewrite string_app_cons. simpl. by rewrite IH.
Qed.

Lemma path_stem_output_name (csv_files : list string) :
  path_stem (output_name path_stem csv_files) =
  "disagreements_" +:+ py.join "_vs_" (path_stem <$> csv_files).
Proof.
  unfold output_name.
  set (joined := py.join "_vs_" (path_stem <$> csv_files)).
  assert (rfind "/"%char joined = None) as Hjoined.
  { apply rfind_concat; [done|].
    apply Forall_fmap, Forall_forall. intros f _. apply path_stem_no_separator. }
  assert (path_name ("disagreements_" +:+ joined +:+ ".csv")
          = "disagreements_" +:+ joined +:+ ".csv") as Hname.
  { unfold path_name. by rewrite !rfind_app, Hjoined. }
  unfold path_stem. rewrite Hname.
  rewrite !rfind_app. change (rfind "."%char ".csv") with (Some 0).
  rewrite !string_length_app.
  replace ((0 <? String.length "disagreements_" + (String.length joined + 0)) &&
           (String.length "disagreements_" + (String.length joined + 0) <?
            String.length "disagreements_" +
            (String.length joined + String.length ".csv") - 1))
    with true; last first.
  { symmetry. apply andb_true_iff. split; apply Nat.ltb_lt; simpl; lia. }
  rewrite <- string_app_assoc.
  replace (String.length "disagreements_" + (String.length joined + 0))
    with (String.length ("disagreements_" +:+ joined))
    by (rewrite string_length_app; lia).
  apply substring_prefix.
Qed.

(** X23: the disagreement file is never one of the input files: its name is
    built around the stems of all of them, so its own stem is longer than
    the stem of each.  (Stems as [path_stem] computes them.) *)
Theorem output_is_no_input (csv_files : list string) (file : string) :
  file ∈ csv_files →
  output_name path_stem csv_files ≠ file ∧
  String.length (path_stem file)
    < String.length (path_stem (output_name path_stem csv_files)).
Proof.
  intros Hfile.
  assert (String.length (path_stem file)
          < String.length (path_stem (output_name path_stem csv_files))) as Hlt.
  { rewrite path_stem_output_name, string_length_app.
    pose proof (length_concat_ge "_vs_" (path_stem <$> csv_files) (path_stem file)
                  (list_elem_of_fmap_2 _ _ _ Hfile)) as Hge.
    unfold py.join. simpl. lia. }
  split; [|done].
  intros Heq. rewrite Heq in Hlt. lia.
Qed.

Lemma output_is_no_input_witness :
  "B.csv" ∈ example_files ∧
  output_name path_stem example_files ≠ "B.csv" ∧
  String.length (path_stem "B.csv")
    < String.length (path_stem (output_name path_stem example_files)).
Proof.
  assert ("B.csv" ∈ example_files) as Hin
    by (apply list_elem_of_further, list_elem_of_here).
  split; [exact Hin|].
  exact (output_is_no_input example_files "B.csv" Hin).
Defined.

(** ** Joining tables whose RecordIds repeat *)

Lemma occurrences_fst (k : RecordId) (r : list (RecordId * list bool)) :
  occurrences k r.*1 = length (filter (λ y, y.1 = k) r).
Proof.
  unfold occurrences. induction r as [|y r IH]; [done|]. rewrite fmap_cons.
  destruct (decide (y.1 = k)) as [Hk|Hk].
  - rewrite !filter_cons_True by done. simpl. by rewrite IH.
  - by rewrite !filter_cons_False by done.
Qed.

Lemma occurrences_app (k : RecordId) (l1 l2 : list RecordId) :
  occurrences k (l1 ++ l2) = occurrences k l1 + occurrences k l2.
Proof. unfold occurrences. by rewrite filter_app, length_app. Qed.

Lemma occurrences_paired (k : RecordId) (x : RecordId * list bool)
    (m : list (RecordId * list bool)) :
  occurrences k (m ≫= λ y, [(x.1, x.2 ++ y.2)]).*1 =
  if decide (x.1 = k) then length m else 0.
Proof.
  unfold occurrences. induction m as [|y m IH].
  - by destruct (decide (x.1 = k)).
  - rewrite bind_cons, fmap_app, filter_app, length_app, IH. simpl.
    destruct (decide (x.1 = k)) as [Hk|Hk].
    + by rewrite filter_cons_True.
    + by rewrite filter_cons_False.
Qed.

Lemma occurrences_join_rows (k : RecordId) (l r : list (RecordId * list bool)) :
  occurrences k (join_rows l r).*1 = occurrences k l.*1 * occurrences k r.*1.
Proof.
  induction l as [|x l IH]; [done|].
  unfold join_rows in *. rewrite bind_cons, fmap_app, occurrences_app, IH.
  rewrite occurrences_paired, fmap_cons.
  change (x.1 :: l.*1) with ([x.1] ++ l.*1). rewrite occurrences_app.
  unfold occurrences at 3. simpl.
  destruct (decide (x.1 = k)) as [Hk|Hk].
  - rewrite filter_cons_True by done. rewrite Hk, <- (occurrences_fst k r).
    simpl. lia.
  - rewrite filter_cons_False by done. simpl. lia.
Qed.

Lemma occurrences_merge_all
    (stem : string → string) (k : RecordId) (acc : DataFrame)
    (inputs : list (string * PredictionTable)) :
  occurrences k (df_rows (merge_all stem acc inputs)).*1 =
  occurrences k (df_rows acc).*1 *
  foldr (λ t n, occurrences k t.*1 * n) 1 inputs.*2.
Proof.
  revert acc. induction inputs as [|[f t] inputs IH]; intros acc.
  - simpl. lia.
  - rewrite merge_all_cons, IH.
    change (df_rows (join_frames acc (frame_of stem (f, t).1 (f, t).2)))
      with (join_rows (df_rows acc) (df_rows (frame_of stem f t))).
    rewrite occurrences_join_rows, frame_of_ids, fmap_cons.
    cbn [foldr snd]. by rewrite Nat.mul_assoc.
Qed.

(** X24: RecordIds that repeat within a file multiply in the join: a
    RecordId occurs in the joined frame as many times as the product of the
    numbers of times it occurs in each input file. *)
Theorem duplicate_ids_multiply
    (stem : string → string) (fs : gmap string PredictionTable)
    (csv_files : list string) (tables : list PredictionTable) (k : RecordId) :
  csv_files ≠ [] →
  Forall2 (λ f t, fs !! f = Some t) csv_files tables →
  NoDup (stem <$> csv_files) →
  ∃ merged_df,
    outcome (load_and_merge stem fs csv_files) = Ok merged_df ∧
    occurrences k (df_rows merged_df).*1 =
      foldr (λ t n, occurrences k t.*1 * n) 1 tables.
Proof.
  intros Hne Hall Hnd.
  rewrite (load_and_merge_ok stem fs csv_files tables) by done.
  eexists. split; [done|].
  destruct Hall as [|f0 t0 rest ts Hf0 Hall]; [done|].
  pose proof (Forall2_length _ _ _ Hall) as Hlen.
  cbn [zip_with merged_table fst snd].
  rewrite occurrences_merge_all, frame_of_ids, snd_zip by lia. done.
Qed.

Lemma duplicate_ids_multiply_witness :
  ["A.csv"; "B.csv"] ≠ [] ∧
  Forall2 (λ f t, dup_fs !! f = Some t) ["A.csv"; "B.csv"] [dup_table; [("1", true)]] ∧
  NoDup (path_stem <$> ["A.csv"; "B.csv"]) ∧
  ∃ merged_df,
    outcome (load_and_merge path_stem dup_fs ["A.csv"; "B.csv"]) = Ok merged_df ∧
    occurrences "1" (df_rows merged_df).*1 =
      foldr (λ t n, occurrences "1" t.*1 * n) 1 [dup_table; [("1", true)]].
Proof.
  assert (["A.csv"; "B.csv"] ≠ []) as Hne by discriminate.
  assert (Forall2 (λ f t, dup_fs !! f = Some t) ["A.csv"; "B.csv"]
                  [dup_table; [("1", true)]]) as Hall by (repeat constructor).
  assert (NoDup (path_stem <$> ["A.csv"; "B.csv"])) as Hnd
    by (refine (bool_decide_unpack _ _); vm_compute; exact I).
  split_and!; [exact Hne|exact Hall|exact Hnd|].
  exact (duplicate_ids_multiply path_stem dup_fs ["A.csv"; "B.csv"]
           [dup_table; [("1", true)]] "1" Hne Hall Hnd).
Defined.

(** * The script where reading and writing can fail *)

(** ** Choosing the files *)

Lemma for_fold_ext_elem {A S} (xs : list A) (acc : S) (body1 body2 : S → A → M S) :
  (∀ acc x, x ∈ xs → body1 acc x = body2 acc x) →
  for_fold xs acc body1 = for_fold xs acc body2.
Proof.
  revert acc. induction xs as [|x xs IH]; intros acc Hext; [done|].
  cbn [for_fold]. rewrite Hext by left.
  destruct (body2 acc x) as [t [acc'|e]]; [|done].
  cbn [mbind M_bind]. rewrite IH; [done|].
  intros acc0 y Hy. apply Hext. by right.
Qed.

Lemma filter_ext_elem {A} (P Q : A → Prop)
    `{∀ x, Decision (P x)} `{∀ x, Decision (Q x)} (l : list A) :
  (∀ x, x ∈ l → P x ↔ Q x) → filter P l = filter Q l.
Proof.
  induction l as [|x l IH]; intros Hext; [done|].
  assert (filter P l = filter Q l) as Hrest.
  { apply IH. intros y Hy. apply Hext. by right. }
  destruct (decide (P x)) as [HP|HP].
  - rewrite !filter_cons_True; [by rewrite Hrest|by apply Hext; [left|]|done].
  - rewrite !filter_cons_False; [done| |done].
    intros HQ. apply HP. by apply Hext; [left|].
Qed.

Section world.

Variable stem : string → string.
Variable w : World.

Lemma lookup_tables (file : string) :
  tables w !! file =
  match entries w !! file with
  | Some (CsvFile t) => Some t
  | _ => None
  end.
Proof.
  unfold tables. rewrite lookup_omap.
  by destruct (entries w !! file) as [[t|]|].
Qed.

Lemma io_exists_places (file : string) :
  io.exists_ w file = exists_ (places w) file.
Proof.
  unfold io.exists_, exists_, places. rewrite lookup_fmap.
  apply bool_decide_ext. by rewrite fmap_is_Some.
Qed.

Lemma io_exists_tables (file : string) :
  entries w !! file ≠ Some NotCsv →
  io.exists_ w file = exists_ (tables w) file.
Proof.
  intros Hr. unfold io.exists_, exists_. rewrite lookup_tables.
  apply bool_decide_ext.
  destruct (entries w !! file) as [[t|]|]; [by split; eexists|done|].
  split; by intros [? ?].
Qed.

Lemma check_files_ext (l : list string)
    (ex1 ex2 : string → bool) (acc : list string * list string) :
  (∀ f, f ∈ l → ex1 f = ex2 f) →
  foldl (λ acc file, if ex1 file then (acc.1 ++ [file], acc.2)
                     else (acc.1, acc.2 ++ [file])) acc l =
  foldl (λ acc file, if ex2 file then (acc.1 ++ [file], acc.2)
                     else (acc.1, acc.2 ++ [file])) acc l.
Proof.
  revert acc. induction l as [|f l IH]; intros acc Hext; [done|].
  simpl. rewrite (Hext f) by left. apply IH.
  intros g Hg. apply Hext. by right.
Qed.

Lemma io_check_files_places (csv_files : list string) :
  io.check_files w csv_files = check_files (places w) csv_files.
Proof.
  unfold io.check_files, check_files.
  apply check_files_ext.
  intros f _. apply io_exists_places.
Qed.

Lemma io_check_files_tables (csv_files : list string) :
  readable w csv_files →
  io.check_files w csv_files = check_files (tables w) csv_files.
Proof.
  intros Hr. unfold io.check_files, check_files.
  apply check_files_ext.
  intros f Hf. apply io_exists_tables.
  unfold readable in Hr. rewrite Forall_forall in Hr. by apply Hr.
Qed.

Lemma io_select_files_places (CSV_FILES : list string) :
  io.select_files w CSV_FILES = select_files (places w) CSV_FILES.
Proof. unfold io.select_files, select_files. by rewrite io_check_files_places. Qed.

Lemma io_select_files_tables (CSV_FILES : list string) :
  readable w CSV_FILES →
  io.select_files w CSV_FILES = select_files (tables w) CSV_FILES.
Proof.
  intros Hr. unfold io.select_files, select_files.
  by rewrite io_check_files_tables.
Qed.

Lemma existing_places (csv_files : list string) :
  existing (places w) csv_files = io.existing w csv_files.
Proof.
  unfold existing, io.existing, places. apply list_filter_iff. intros f.
  by rewrite lookup_fmap, fmap_is_Some.
Qed.

Lemma existing_tables (csv_files : list string) :
  readable w csv_files →
  existing (tables w) csv_files = io.existing w csv_files.
Proof.
  intros Hr. unfold existing, io.existing. apply filter_ext_elem.
  intros f Hf. unfold readable in Hr. rewrite Forall_forall in Hr.
  specialize (Hr _ Hf). rewrite lookup_tables.
  destruct (entries w !! f) as [[t|]|]; [by split; eexists|done|].
  split; by intros [? ?].
Qed.

Lemma io_existing_exist (csv_files : list string) :
  Forall (λ f, is_Some (entries w !! f)) (io.existing w csv_files).
Proof.
  apply Forall_forall. intros f Hf.
  by apply list_elem_of_filter in Hf as [? _].
Qed.

Lemma io_existing_subset (csv_files : list string) (file : string) :
  file ∈ io.existing w csv_files → file ∈ csv_files.
Proof. intros Hf. by apply list_elem_of_filter in Hf as [_ ?]. Qed.

Lemma readable_existing (csv_files : list string) :
  readable w csv_files → readable w (io.existing w csv_files).
Proof.
  unfold readable. rewrite !Forall_forall. intros Hr f Hf.
  by apply Hr, io_existing_subset.
Qed.

Lemma io_select_files_outcome (CSV_FILES : list string) :
  outcome (io.select_files w CSV_FILES) =
  if bool_decide (io.existing w CSV_FILES = []) then Raised (SystemExit 1)
  else Ok (io.existing w CSV_FILES).
Proof.
  by rewrite io_select_files_places, select_files_outcome, existing_places.
Qed.

Lemma io_select_files_written (CSV_FILES : list string) :
  written (events (io.select_files w CSV_FILES)) = [].
Proof. rewrite io_select_files_places. apply select_files_written. Qed.

Lemma io_select_files_warns (CSV_FILES : list string) (file : string) :
  file ∈ CSV_FILES → entries w !! file = None →
  WarnMissingFile file ∈ printed (events (io.select_files w CSV_FILES)).
Proof.
  intros Hin Hnone. rewrite io_select_files_places.
  apply select_files_warns; [done|].
  unfold places. by rewrite lookup_fmap, Hnone.
Qed.

Lemma io_main_outcome (CSV_FILES : list string) (flag : bool) :
  outcome (io.main stem w CSV_FILES flag) =
  if bool_decide (io.existing w CSV_FILES = []) then Raised (SystemExit 1)
  else outcome (io.process stem w (io.existing w CSV_FILES) flag).
Proof.
  unfold io.main. rewrite outcome_bind, io_select_files_outcome.
  by case_bool_decide.
Qed.

Lemma io_main_events (CSV_FILES : list string) (flag : bool) :
  events (io.main stem w CSV_FILES flag) =
  events (io.select_files w CSV_FILES) ++
  if bool_decide (io.existing w CSV_FILES = []) then []
  else events (io.process stem w (io.existing w CSV_FILES) flag).
Proof.
  unfold io.main. rewrite events_bind, io_select_files_outcome.
  by case_bool_decide.
Qed.

End world.

(** ** Where reading and writing succeed, the two embeddings agree *)

Section refinement.

Variable stem : string → string.
Variable w : World.

Lemma io_read_csv_tables (file : string) :
  entries w !! file ≠ Some NotCsv →
  io.read_csv w file = read_csv (tables w) file.
Proof.
  intros Hr. unfold io.read_csv, read_csv. rewrite lookup_tables.
  by destruct (entries w !! file) as [[t|]|].
Qed.

Lemma io_merge_step_tables (verbose : bool) (acc : DataFrame) (file : string) :
  entries w !! file ≠ Some NotCsv →
  io.merge_step stem w verbose acc file = merge_step stem (tables w) verbose acc file.
Proof.
  intros Hr. unfold io.merge_step, merge_step.
  by rewrite io_read_csv_tables.
Qed.

Lemma io_load_and_merge_unfold (csv_files : list string) :
  io.load_and_merge stem w csv_files =
  (file0 ← py.getitem0 csv_files;
   merged_df ← io.read_csv w file0;
   print (LoadedFile file0 (length merged_df));;
   for_fold (py.slice1 csv_files) (frame_of stem file0 merged_df)
            (io.merge_step stem w true)).
Proof. reflexivity. Qed.

Lemma io_load_and_join_unfold (csv_files : list string) :
  io.load_and_join stem w csv_files =
  (file0 ← py.getitem0 csv_files;
   final_df ← io.read_csv w file0;
   for_fold (py.slice1 csv_files) (frame_of stem file0 final_df)
            (io.merge_step stem w false)).
Proof.
  unfold io.load_and_join.
  destruct csv_files as [|f0 rest]; [done|].
  cbn [py.getitem0 py.slice1 drop]. cbn [mbind M_bind mret M_ret app].
  unfold io.read_csv.
  destruct (entries w !! f0) as [[t0|]|]; [|done|done].
  cbn [mbind M_bind mret M_ret app].
  rewrite (for_fold_ext rest _ _ (io.merge_step stem w false)); [done|].
  intros acc file. unfold io.merge_step, io.read_csv.
  destruct (entries w !! file) as [[t|]|]; [|done|done].
  cbn [mbind M_bind mret M_ret app].
  by destruct (pd.join_inner _ _).
Qed.

Lemma io_merge_loop_tables (verbose : bool) (files : list string) (acc : DataFrame) :
  readable w files →
  for_fold files acc (io.merge_step stem w verbose) =
  for_fold files acc (merge_step stem (tables w) verbose).
Proof.
  intros Hr. apply for_fold_ext_elem. intros acc' f Hf.
  apply io_merge_step_tables.
  unfold readable in Hr. rewrite Forall_forall in Hr. by apply Hr.
Qed.

Lemma io_load_and_merge_tables (csv_files : list string) :
  readable w csv_files →
  io.load_and_merge stem w csv_files = load_and_merge stem (tables w) csv_files.
Proof.
  intros Hr. rewrite io_load_and_merge_unfold, load_and_merge_unfold.
  destruct csv_files as [|f0 rest]; [done|].
  apply Forall_cons in Hr as [Hr0 Hr].
  cbn [py.getitem0 py.slice1 drop]. change (drop 0 rest) with rest.
  cbn [mbind M_bind mret M_ret app].
  unfold io.read_csv, read_csv. rewrite lookup_tables.
  destruct (entries w !! f0) as [[t0|]|]; [|done|done].
  cbn [mbind M_bind mret M_ret app].
  by rewrite (io_merge_loop_tables true rest).
Qed.

Lemma io_load_and_join_tables (csv_files : list string) :
  readable w csv_files →
  io.load_and_join stem w csv_files = load_and_join stem (tables w) csv_files.
Proof.
  intros Hr. rewrite io_load_and_join_unfold, load_and_join_unfold.
  destruct csv_files as [|f0 rest]; [done|].
  apply Forall_cons in Hr as [Hr0 Hr].
  cbn [py.getitem0 py.slice1 drop]. change (drop 0 rest) with rest.
  cbn [mbind M_bind mret M_ret app].
  unfold io.read_csv, read_csv. rewrite lookup_tables.
  destruct (entries w !! f0) as [[t0|]|]; [|done|done].
  cbn [mbind M_bind mret M_ret app].
  by rewrite (io_merge_loop_tables false rest).
Qed.

Lemma io_first_missing_tables (csv_files : list string) :
  readable w csv_files →
  io.first_missing w csv_files = first_missing (tables w) csv_files.
Proof.
  induction csv_files as [|f rest IH]; intros Hr; [done|].
  apply Forall_cons in Hr as [Hr0 Hr].
  cbn [io.first_missing first_missing].
  rewrite io_exists_tables by done. by rewrite IH.
Qed.

Lemma io_first_missing_None (csv_files : list string) :
  Forall (λ f, is_Some (entries w !! f)) csv_files →
  io.first_missing w csv_files = None.
Proof.
  induction 1 as [|f rest Hf _ IH]; [done|].
  cbn [io.first_missing]. unfold io.exists_.
  by rewrite bool_decide_eq_true_2.
Qed.

Lemma io_report_writable (merged_df d : DataFrame) (output_file : string) :
  writable w output_file = true →
  io.report w merged_df d output_file = report merged_df d output_file.
Proof.
  intros Hw. unfold io.report, report, io.reset_index_to_csv, pd.reset_index_to_csv.
  by rewrite Hw.
Qed.

Lemma io_report_empty (merged_df d : DataFrame) (output_file : string) :
  len d = 0 →
  io.report w merged_df d output_file = report merged_df d output_file.
Proof. intros Hd. unfold io.report, report. by rewrite Hd. Qed.

Lemma io_report_unwritable (merged_df d : DataFrame) (output_file : string) :
  writable w output_file = false → 0 < len d →
  io.report w merged_df d output_file =
  ([Print (DisagreementRows (len d))], Raised (OSError output_file)).
Proof.
  intros Hw Hd. unfold io.report, io.reset_index_to_csv.
  rewrite Hw. apply Nat.ltb_lt in Hd. by rewrite Hd.
Qed.

Lemma io_extract_disagreements_unfold (csv_files : list string) (output_file : string) :
  readable w csv_files →
  io.extract_disagreements stem w csv_files output_file =
  match first_missing (tables w) csv_files with
  | Some file => print (ErrFileNotFound file);; mret None
  | None =>
      merged_df ← load_and_merge stem (tables w) csv_files;
      print (MergedRows (len merged_df));;
      io.report w merged_df (disagreements merged_df) output_file;;
      mret (Some (disagreements merged_df))
  end.
Proof.
  intros Hr. unfold io.extract_disagreements.
  by rewrite io_first_missing_tables, io_load_and_merge_tables.
Qed.

Lemma io_extract_disagreements_tables (csv_files : list string) (output_file : string) :
  readable w csv_files → writable w output_file = true →
  io.extract_disagreements stem w csv_files output_file =
  extract_disagreements stem (tables w) csv_files output_file.
Proof.
  intros Hr Hw. rewrite io_extract_disagreements_unfold by done.
  unfold extract_disagreements.
  destruct (first_missing _ _); [done|].
  destruct (load_and_merge stem (tables w) csv_files) as [ev [m|e]]; [|done].
  cbn [mbind M_bind mret M_ret app]. by rewrite io_report_writable.
Qed.

Lemma io_create_ensemble_prediction_tables
    (csv_files : list string) (final_output_file : string) :
  readable w csv_files →
  (length csv_files mod 2 = 1 → writable w final_output_file = true) →
  io.create_ensemble_prediction stem w csv_files final_output_file =
  create_ensemble_prediction stem (tables w) csv_files final_output_file.
Proof.
  intros Hr Hw. unfold io.create_ensemble_prediction, create_ensemble_prediction.
  rewrite io_load_and_join_tables by done.
  destruct (length csv_files mod 2 =? 0) eqn:Hpar; [done|].
  apply Nat.eqb_neq in Hpar.
  assert (length csv_files mod 2 = 1) as Hodd.
  { pose proof (Nat.mod_upper_bound (length csv_files) 2). lia. }
  unfold io.reset_index_to_csv, pd.reset_index_to_csv.
  by rewrite (Hw Hodd).
Qed.

Lemma io_final_submission_tables (csv_files : list string) (flag : bool) :
  readable w csv_files →
  (flag = true → length csv_files mod 2 = 1 →
   writable w "final_submission.csv" = true) →
  io.final_submission stem w csv_files flag =
  final_submission stem (tables w) csv_files flag.
Proof.
  intros Hr Hw. unfold io.final_submission, final_submission.
  destruct flag; [|done].
  destruct (length csv_files mod 2 =? 1) eqn:Hpar; [|done].
  apply Nat.eqb_eq in Hpar.
  by rewrite io_create_ensemble_prediction_tables by auto.
Qed.

Lemma io_process_tables (csv_files : list string) (flag : bool) :
  readable w csv_files →
  writable w (output_name stem csv_files) = true →
  (flag = true → length csv_files mod 2 = 1 →
   writable w "final_submission.csv" = true) →
  io.process stem w csv_files flag = process stem (tables w) csv_files flag.
Proof.
  intros Hr Hout Hfin. unfold io.process, process.
  fold (output_name stem csv_files).
  rewrite io_extract_disagreements_tables by done.
  by rewrite io_final_submission_tables by done.
Qed.

Lemma io_main_tables (CSV_FILES : list string) (flag : bool) :
  readable w CSV_FILES →
  writable w (output_name stem (io.existing w CSV_FILES)) = true →
  (flag = true → length (io.existing w CSV_FILES) mod 2 = 1 →
   writable w "final_submission.csv" = true) →
  io.main stem w CSV_FILES flag = main stem (tables w) CSV_FILES flag.
Proof.
  intros Hr Hout Hfin. unfold io.main, main.
  rewrite io_select_files_tables by done.
  rewrite (run_eq (select_files (tables w) CSV_FILES)), select_files_outcome.
  rewrite existing_tables by done.
  case_bool_decide as Hex; [done|].
  cbn [mbind M_bind].
  by rewrite io_process_tables by (done || by apply readable_existing).
Qed.

Lemma tables_exist (csv_files : list string) :
  readable w csv_files →
  Forall (λ f, is_Some (entries w !! f)) csv_files →
  Forall (λ f, is_Some (tables w !! f)) csv_files.
Proof.
  unfold readable. rewrite !Forall_forall. intros Hr Hex f Hf.
  rewrite lookup_tables. specialize (Hr f Hf). specialize (Hex f Hf).
  destruct (entries w !! f) as [[t|]|]; [by eexists|done|by destruct Hex].
Qed.

Lemma tables_loaded (csv_files : list string) (ts : list PredictionTable) :
  Forall2 (λ f t, entries w !! f = Some (CsvFile t)) csv_files ts →
  Forall2 (λ f t, tables w !! f = Some t) csv_files ts ∧ readable w csv_files.
Proof.
  induction 1 as [|f t files ts Hf _ [IH1 IH2]]; [by split; constructor|].
  split; constructor; try done.
  - by rewrite lookup_tables, Hf.
  - by rewrite Hf.
Qed.

(** ** How a run can fail *)

Lemma io_merge_step_raised (verbose : bool) (acc : DataFrame) (file : string) (e : Exn) :
  is_Some (entries w !! file) →
  outcome (io.merge_step stem w verbose acc file) = Raised e →
  read_or_join_failure w [file] e.
Proof.
  intros [en Hen] Hraised. unfold io.merge_step, io.read_csv in Hraised.
  rewrite Hen in Hraised. destruct en as [t|].
  - left. rewrite outcome_bind in Hraised.
    change (outcome (mret t)) with (Ok t) in Hraised. cbv beta iota in Hraised.
    rewrite outcome_bind in Hraised.
    assert (outcome (if verbose then print (LoadedFile file (length t)) else mret tt)
            = Ok tt) as Hprint by by destruct verbose.
    rewrite Hprint in Hraised.
    unfold pd.join_inner in Hraised.
    destruct (filter _ (df_columns acc)) as [|c cs]; [discriminate Hraised|].
    injection Hraised as <-. by eexists.
  - right. exists file. injection Hraised as <-. split_and!; [by left|done|done].
Qed.

Lemma read_or_join_failure_mono (files files' : list string) (e : Exn) :
  (∀ f, f ∈ files → f ∈ files') →
  read_or_join_failure w files e → read_or_join_failure w files' e.
Proof.
  intros Hsub [Hv|(f & Hf & He & Hen)]; [by left|].
  right. exists f. split_and!; [by apply Hsub|done|done].
Qed.

Lemma io_merge_loop_raised (verbose : bool) (files : list string) (acc : DataFrame) (e : Exn) :
  Forall (λ f, is_Some (entries w !! f)) files →
  outcome (for_fold files acc (io.merge_step stem w verbose)) = Raised e →
  read_or_join_failure w files e.
Proof.
  intros Hex. revert acc. induction Hex as [|f files Hf _ IH]; intros acc Hraised.
  - discriminate Hraised.
  - cbn [for_fold] in Hraised. rewrite outcome_bind in Hraised.
    destruct (outcome (io.merge_step stem w verbose acc f)) as [acc'|e'] eqn:Hstep.
    + apply IH in Hraised.
      eapply read_or_join_failure_mono; [|done]. intros g Hg. by right.
    + injection Hraised as <-.
      apply io_merge_step_raised in Hstep; [|done].
      eapply read_or_join_failure_mono; [|done].
      intros g Hg. apply list_elem_of_singleton in Hg as ->. by left.
Qed.

End refinement.

Section failures.

Variable stem : string → string.
Variable w : World.

Lemma io_load_and_merge_raised (csv_files : list string) (e : Exn) :
  csv_files ≠ [] →
  Forall (λ f, is_Some (entries w !! f)) csv_files →
  outcome (io.load_and_merge stem w csv_files) = Raised e →
  read_or_join_failure w csv_files e.
Proof.
  intros Hne Hex. rewrite io_load_and_merge_unfold. unfold io.read_csv.
  destruct csv_files as [|f0 rest]; [done|].
  apply Forall_cons in Hex as [[en Hf0] Hex].
  cbn [py.getitem0 py.slice1 drop]. change (drop 0 rest) with rest.
  rewrite outcome_bind. change (outcome (mret f0)) with (Ok f0). cbv beta iota.
  rewrite outcome_bind. rewrite Hf0. destruct en as [t0|].
  - change (outcome (mret t0)) with (Ok t0). cbv beta iota.
    rewrite outcome_bind. simpl. intros Hraised.
    apply io_merge_loop_raised in Hraised; [|done].
    eapply read_or_join_failure_mono; [|done]. intros g Hg. by right.
  - intros [= <-]. right. exists f0. split_and!; [by left|done|done].
Qed.

Lemma io_load_and_join_raised (csv_files : list string) (e : Exn) :
  csv_files ≠ [] →
  Forall (λ f, is_Some (entries w !! f)) csv_files →
  outcome (io.load_and_join stem w csv_files) = Raised e →
  read_or_join_failure w csv_files e.
Proof.
  intros Hne Hex. rewrite io_load_and_join_unfold. unfold io.read_csv.
  destruct csv_files as [|f0 rest]; [done|].
  apply Forall_cons in Hex as [[en Hf0] Hex].
  cbn [py.getitem0 py.slice1 drop]. change (drop 0 rest) with rest.
  rewrite outcome_bind. change (outcome (mret f0)) with (Ok f0). cbv beta iota.
  rewrite outcome_bind. rewrite Hf0. destruct en as [t0|].
  - change (outcome (mret t0)) with (Ok t0). cbv beta iota.
    intros Hraised.
    apply io_merge_loop_raised in Hraised; [|done].
    eapply read_or_join_failure_mono; [|done]. intros g Hg. by right.
  - intros [= <-]. right. exists f0. split_and!; [by left|done|done].
Qed.

Lemma io_report_raised (merged_df d : DataFrame) (output_file : string) (e : Exn) :
  len d ≤ len merged_df →
  outcome (io.report w merged_df d output_file) = Raised e →
  e = OSError output_file ∧ writable w output_file = false ∧ 0 < len d.
Proof.
  intros Hle Hraised.
  destruct (writable w output_file) eqn:Hw.
  { rewrite io_report_writable, report_outcome in Hraised by done. discriminate. }
  destruct (decide (len d = 0)) as [Hz|Hz].
  { rewrite io_report_empty, report_outcome in Hraised by done. discriminate. }
  rewrite io_report_unwritable in Hraised by (done || lia).
  injection Hraised as <-. split_and!; [done|done|lia].
Qed.

Lemma io_report_written (merged_df d : DataFrame) (output_file : string) :
  written (events (io.report w merged_df d output_file)) =
  if (0 <? len d) && writable w output_file
  then [(output_file, ("PassengerId" :: df_columns d, df_rows d))]
  else [].
Proof.
  destruct (writable w output_file) eqn:Hw.
  { rewrite io_report_writable, report_written_cases by done.
    by destruct (0 <? len d). }
  destruct (0 <? len d) eqn:Hd.
  - apply Nat.ltb_lt in Hd. by rewrite io_report_unwritable.
  - apply Nat.ltb_ge in Hd.
    rewrite io_report_empty, report_written_cases by lia.
    by replace (0 <? len d) with false by (symmetry; apply Nat.ltb_ge; lia).
Qed.

Lemma io_extract_disagreements_raised
    (csv_files : list string) (output_file : string) (e : Exn) :
  csv_files ≠ [] →
  Forall (λ f, is_Some (entries w !! f)) csv_files →
  outcome (io.extract_disagreements stem w csv_files output_file) = Raised e →
  read_or_join_failure w csv_files e ∨
  (e = OSError output_file ∧ writable w output_file = false).
Proof.
  intros Hne Hex. unfold io.extract_disagreements.
  rewrite io_first_missing_None by done.
  rewrite outcome_bind.
  destruct (outcome (io.load_and_merge stem w csv_files)) as [m|e'] eqn:Hload.
  - rewrite outcome_bind. change (outcome (print _)) with (Ok tt). cbv beta iota.
    rewrite outcome_bind.
    destruct (outcome (io.report w m (disagreements m) output_file))
      as [[]|e''] eqn:Hrep; [done|].
    intros [= <-]. right.
    apply io_report_raised in Hrep as (? & ? & _); [done|apply len_disagreements].
  - intros [= <-]. left. by apply io_load_and_merge_raised.
Qed.

Lemma io_create_ensemble_prediction_raised
    (csv_files : list string) (final_output_file : string) (e : Exn) :
  csv_files ≠ [] →
  Forall (λ f, is_Some (entries w !! f)) csv_files →
  outcome (io.create_ensemble_prediction stem w csv_files final_output_file)
    = Raised e →
  read_or_join_failure w csv_files e ∨
  (e = OSError final_output_file ∧ writable w final_output_file = false).
Proof.
  intros Hne Hex. unfold io.create_ensemble_prediction.
  destruct (length csv_files mod 2 =? 0); [by run_binds|].
  rewrite outcome_bind.
  destruct (outcome (io.load_and_join stem w csv_files)) as [m|e'] eqn:Hload.
  - rewrite outcome_bind. unfold io.reset_index_to_csv.
    destruct (writable w final_output_file) eqn:Hw.
    + by run_binds.
    + intros [= <-]. by right.
  - intros [= <-]. left. by apply io_load_and_join_raised.
Qed.

Lemma io_final_submission_raised (csv_files : list string) (flag : bool) (e : Exn) :
  csv_files ≠ [] →
  Forall (λ f, is_Some (entries w !! f)) csv_files →
  outcome (io.final_submission stem w csv_files flag) = Raised e →
  read_or_join_failure w csv_files e ∨
  (e = OSError "final_submission.csv" ∧
   writable w "final_submission.csv" = false ∧
   flag = true ∧ length csv_files mod 2 = 1).
Proof.
  intros Hne Hex. unfold io.final_submission.
  destruct flag; [|by run_binds].
  destruct (length csv_files mod 2 =? 1) eqn:Hodd; [|by run_binds].
  apply Nat.eqb_eq in Hodd.
  rewrite outcome_bind.
  destruct (outcome (io.create_ensemble_prediction stem w csv_files
                       "final_submission.csv")) as [r|e'] eqn:Hens; [done|].
  intros [= <-].
  apply io_create_ensemble_prediction_raised in Hens as [?|[? ?]]; [by left| |done|done].
  right. by split_and!.
Qed.

Lemma io_process_outcome (csv_files : list string) (flag : bool) :
  outcome (io.process stem w csv_files flag) =
  match outcome (io.extract_disagreements stem w csv_files
                   (output_name stem csv_files)) with
  | Ok _ => outcome (io.final_submission stem w csv_files flag)
  | Raised e => Raised e
  end.
Proof.
  unfold io.process. fold (output_name stem csv_files).
  run_binds.
  destruct (outcome (io.extract_disagreements _ _ _ _)) as [d|e]; [|done].
  rewrite outcome_bind.
  destruct (outcome (io.final_submission _ _ _ _)) as [[]|e]; [|done].
  apply closing_run.
Qed.

Lemma io_process_raised (csv_files : list string) (flag : bool) (e : Exn) :
  csv_files ≠ [] →
  Forall (λ f, is_Some (entries w !! f)) csv_files →
  outcome (io.process stem w csv_files flag) = Raised e →
  read_or_join_failure w csv_files e ∨
  (e = OSError (output_name stem csv_files) ∧
   writable w (output_name stem csv_files) = false) ∨
  (e = OSError "final_submission.csv" ∧
   writable w "final_submission.csv" = false ∧
   flag = true ∧ length csv_files mod 2 = 1).
Proof.
  intros Hne Hex. rewrite io_process_outcome.
  destruct (outcome (io.extract_disagreements _ _ _ _)) as [d|e'] eqn:Hext.
  - intros Hfin. apply io_final_submission_raised in Hfin as [?|?]; auto.
  - intros [= <-].
    apply io_extract_disagreements_raised in Hext as [?|?]; auto.
Qed.

End failures.

(** ** The disagreement rows, as the specification words them *)

Lemma disagreements_rows (df : DataFrame) :
  merged_shape df →
  df_rows (disagreements df) = filter (λ row, disagree row.2) (df_rows df).
Proof.
  intros Hshape. rewrite disagreements_filter. cbn [df_rows].
  apply filter_ext_elem. intros r Hr.
  rewrite (row_mask_shape df r Hshape Hr). apply disagree_mask.
Qed.

Lemma written_fmap_print {A} (f : A → Msg) (l : list A) :
  written ((λ x, Print (f x)) <$> l) = [].
Proof. induction l as [|x l IH]; [done|exact IH]. Qed.

Lemma io_extract_disagreements_run
    (stem : string → string) (w : World)
    (csv_files : list string) (ts : list PredictionTable) (output_file : string) :
  csv_files ≠ [] →
  Forall2 (λ f t, entries w !! f = Some (CsvFile t)) csv_files ts →
  NoDup (stem <$> csv_files) →
  io.extract_disagreements stem w csv_files output_file =
    (((λ ft, Print (LoadedFile ft.1 (length ft.2))) <$> zip csv_files ts) ++
     Print (MergedRows (len (merged_table stem (zip csv_files ts)))) ::
     events (io.report w (merged_table stem (zip csv_files ts))
               (disagreements (merged_table stem (zip csv_files ts)))
               output_file),
     match outcome (io.report w (merged_table stem (zip csv_files ts))
                      (disagreements (merged_table stem (zip csv_files ts)))
                      output_file) with
     | Ok _ => Ok (Some (disagreements (merged_table stem (zip csv_files ts))))
     | Raised e => Raised e
     end).
Proof.
  intros Hne Hall Hnd.
  destruct (tables_loaded w csv_files ts Hall) as [Htabs Hread].
  rewrite io_extract_disagreements_unfold by done.
  pose proof (Forall2_lookup_exists (tables w) _ _ Htabs) as Hex.
  apply (first_missing_None (tables w) csv_files) in Hex. rewrite Hex.
  rewrite (load_and_merge_ok stem (tables w) csv_files ts) by done.
  cbn [mbind M_bind]. unfold print, emit. cbn [mbind M_bind].
  destruct (io.report w _ _ output_file) as [ev [[]|e]];
    cbn [events outcome fst snd mbind M_bind mret M_ret app].
  - by rewrite app_nil_r.
  - done.
Qed.

Lemma io_load_and_merge_ok
    (stem : string → string) (w : World)
    (csv_files : list string) (ts : list PredictionTable) :
  csv_files ≠ [] →
  Forall2 (λ f t, entries w !! f = Some (CsvFile t)) csv_files ts →
  NoDup (stem <$> csv_files) →
  outcome (io.load_and_merge stem w csv_files)
  = Ok (merged_table stem (zip csv_files ts)).
Proof.
  intros Hne Hall Hnd.
  destruct (tables_loaded w csv_files ts Hall) as [Htabs Hread].
  rewrite io_load_and_merge_tables by done.
  by rewrite (load_and_merge_ok stem (tables w) csv_files ts).
Qed.

Lemma example_world_loaded :
  Forall2 (λ f t, entries (ideal example_fs) !! f = Some (CsvFile t))
          example_files example_tables.
Proof. repeat constructor. Defined.

Lemma locked_world_loaded :
  Forall2 (λ f t, entries (locked example_fs) !! f = Some (CsvFile t))
          example_files example_tables.
Proof. repeat constructor. Defined.

(** * The properties that depend on reading and writing *)

(** ** The disagreement file *)

(** C7, as stated, fails: the three files of the example disagree on two
    RecordIds, but the output path cannot be written, so [to_csv] raises
    at line 135 and no disagreement file is written. *)
Lemma disagreement_csv_not_written :
  ∃ merged_df,
    outcome (io.load_and_merge path_stem (locked example_fs) example_files)
      = Ok merged_df ∧
    filter (λ row, disagree row.2) (df_rows merged_df) ≠ [] ∧
    outcome (io.extract_disagreements path_stem (locked example_fs) example_files
               "disagreements_A_vs_B_vs_C.csv")
      = Raised (OSError "disagreements_A_vs_B_vs_C.csv") ∧
    written (events (io.extract_disagreements path_stem (locked example_fs)
                       example_files "disagreements_A_vs_B_vs_C.csv")) = [].
Proof.
  eexists. split_and!.
  - vm_compute. reflexivity.
  - vm_compute. discriminate.
  - vm_compute. reflexivity.
  - vm_compute. reflexivity.
Qed.

(** C7, as amended: when the Merger has produced the merged table (every
    listed file is a readable prediction file and the stems are pairwise
    distinct), a disagreement file is written iff some merged row has cells
    that are not all equal and the output path can be written.  It then
    holds the identifier column, one column per input file and exactly the
    merged rows that disagree, and the frame of these rows is returned.
    With a disagreeing row and an output path that cannot be written the
    run ends in [OSError] and writes nothing.  With no disagreeing row, in
    particular when the join has no row, nothing is written, the run
    reports that all predictions agree and returns the empty frame. *)
Theorem disagreement_csv_written_iff
    (stem : string → string) (w : World)
    (csv_files : list string) (tables : list PredictionTable)
    (output_file : string) :
  csv_files ≠ [] →
  Forall2 (λ f t, entries w !! f = Some (CsvFile t)) csv_files tables →
  NoDup (stem <$> csv_files) →
  ∃ merged_df,
    outcome (io.load_and_merge stem w csv_files) = Ok merged_df ∧
    (written (events (io.extract_disagreements stem w csv_files output_file)) ≠ []
     ↔ filter (λ row, disagree row.2) (df_rows merged_df) ≠ [] ∧
       writable w output_file = true) ∧
    (filter (λ row, disagree row.2) (df_rows merged_df) ≠ [] →
     writable w output_file = true →
       outcome (io.extract_disagreements stem w csv_files output_file)
         = Ok (Some {| df_columns := column_of stem <$> csv_files;
                       df_rows := filter (λ row, disagree row.2)
                                         (df_rows merged_df) |}) ∧
       written (events (io.extract_disagreements stem w csv_files output_file)) =
         [(output_file,
           ("PassengerId" :: (column_of stem <$> csv_files),
            filter (λ row, disagree row.2) (df_rows merged_df)))]) ∧
    (filter (λ row, disagree row.2) (df_rows merged_df) ≠ [] →
     writable w output_file = false →
       outcome (io.extract_disagreements stem w csv_files output_file)
         = Raised (OSError output_file) ∧
       written (events (io.extract_disagreements stem w csv_files output_file)) = []) ∧
    (filter (λ row, disagree row.2) (df_rows merged_df) = [] →
       outcome (io.extract_disagreements stem w csv_files output_file)
         = Ok (Some {| df_columns := column_of stem <$> csv_files; df_rows := [] |}) ∧
       written (events (io.extract_disagreements stem w csv_files output_file)) = [] ∧
       NoDisagreements ∈
         printed (events (io.extract_disagreements stem w csv_files output_file))) ∧
    (df_rows merged_df = [] →
       filter (λ row, disagree row.2) (df_rows merged_df) = []).
Proof.
  intros Hne Hall Hnd.
  pose proof (Forall2_length _ _ _ Hall) as Hlen.
  pose proof (merged_table_shape stem csv_files tables Hlen Hnd) as Hshape.
  exists (merged_table stem (zip csv_files tables)).
  set (merged := merged_table stem (zip csv_files tables)) in *.
  set (rows := filter (λ row, disagree row.2) (df_rows merged)).
  assert (disagreements merged =
          {| df_columns := column_of stem <$> csv_files; df_rows := rows |}) as Hdis.
  { unfold rows. rewrite <- (disagreements_rows merged Hshape).
    rewrite disagreements_filter. cbn [df_rows]. f_equal.
    unfold merged. by rewrite merged_table_columns. }
  assert (len (disagreements merged) = length rows) as Hlenrows
    by (by rewrite Hdis).
  pose proof (io_extract_disagreements_run stem w csv_files tables output_file
                Hne Hall Hnd) as Hrun.
  fold merged in Hrun.
  assert (written (events (io.extract_disagreements stem w csv_files output_file)) =
          if (0 <? length rows) && writable w output_file
          then [(output_file, ("PassengerId" :: (column_of stem <$> csv_files), rows))]
          else []) as Hwritten.
  { rewrite Hrun. cbn [events fst].
    rewrite written_app.
    change (Print (MergedRows (len merged)) :: ?t)
      with ([Print (MergedRows (len merged))] ++ t).
    rewrite written_app, io_report_written, Hlenrows, Hdis. cbn [df_columns df_rows].
    match goal with
    | |- written ?l ++ _ = _ => assert (written l = []) as ->
    end.
    { apply (written_fmap_print
               (λ ft : string * PredictionTable, LoadedFile ft.1 (length ft.2))). }
    done. }
  assert (rows = [] →
          io.report w merged (disagreements merged) output_file =
          ([Print (DisagreementRows 0); Print NoDisagreements], Ok tt)) as Hempty.
  { intros Hrows.
    assert (len (disagreements merged) = 0) as Hz by (by rewrite Hlenrows, Hrows).
    rewrite io_report_empty by done. by apply report_empty. }
  split_and!.
  - by rewrite (io_load_and_merge_ok stem w csv_files tables).
  - rewrite Hwritten. destruct rows as [|r rs]; [by split; [|intros [? _]]|].
    cbn [length Nat.ltb Nat.leb andb].
    destruct (writable w output_file); [by split|by split; [|intros [_ ?]]].
  - intros Hrows Hw. split.
    + rewrite Hrun. cbn [outcome snd].
      rewrite io_report_writable, report_outcome by (done || apply len_disagreements).
      by rewrite Hdis.
    + rewrite Hwritten, Hw. destruct rows; [done|]. done.
  - intros Hrows Hw. split.
    + rewrite Hrun. cbn [outcome snd].
      rewrite io_report_unwritable; [done|done|].
      rewrite Hlenrows. destruct rows; [done|simpl; lia].
    + rewrite Hwritten, Hw. by rewrite andb_false_r.
  - intros Hrows. split_and!.
    + rewrite Hrun. cbn [outcome snd]. rewrite (Hempty Hrows).
      cbn [outcome snd]. by rewrite Hdis, Hrows.
    + by rewrite Hwritten, Hrows.
    + rewrite Hrun. cbn [events fst]. rewrite (Hempty Hrows).
      rewrite printed_app. apply elem_of_app. right.
      cbn [events fst printed omap]. set_solver.
  - intros Hrows. unfold rows. by rewrite Hrows.
Qed.

Lemma disagreement_csv_written_iff_witness :
  example_files ≠ [] ∧
  Forall2 (λ f t, entries (ideal example_fs) !! f = Some (CsvFile t))
          example_files example_tables ∧
  NoDup (path_stem <$> example_files) ∧
  ∃ merged_df,
    outcome (io.load_and_merge path_stem (ideal example_fs) example_files)
      = Ok merged_df ∧
    (written (events (io.extract_disagreements path_stem (ideal example_fs)
                        example_files "d.csv")) ≠ []
     ↔ filter (λ row, disagree row.2) (df_rows merged_df) ≠ [] ∧
       writable (ideal example_fs) "d.csv" = true) ∧
    (filter (λ row, disagree row.2) (df_rows merged_df) ≠ [] →
     writable (ideal example_fs) "d.csv" = true →
       outcome (io.extract_disagreements path_stem (ideal example_fs)
                  example_files "d.csv")
         = Ok (Some {| df_columns := column_of path_stem <$> example_files;
                       df_rows := filter (λ row, disagree row.2)
                                         (df_rows merged_df) |}) ∧
       written (events (io.extract_disagreements path_stem (ideal example_fs)
                          example_files "d.csv")) =
         [("d.csv",
           ("PassengerId" :: (column_of path_stem <$> example_files),
            filter (λ row, disagree row.2) (df_rows merged_df)))]) ∧
    (filter (λ row, disagree row.2) (df_rows merged_df) ≠ [] →
     writable (ideal example_fs) "d.csv" = false →
       outcome (io.extract_disagreements path_stem (ideal example_fs)
                  example_files "d.csv")
         = Raised (OSError "d.csv") ∧
       written (events (io.extract_disagreements path_stem (ideal example_fs)
                          example_files "d.csv")) = []) ∧
    (filter (λ row, disagree row.2) (df_rows merged_df) = [] →
       outcome (io.extract_disagreements path_stem (ideal example_fs)
                  example_files "d.csv")
         = Ok (Some {| df_columns := column_of path_stem <$> example_files;
                       df_rows := [] |}) ∧
       written (events (io.extract_disagreements path_stem (ideal example_fs)
                          example_files "d.csv")) = [] ∧
       NoDisagreements ∈
         printed (events (io.extract_disagreements path_stem (ideal example_fs)
                            example_files "d.csv"))) ∧
    (df_rows merged_df = [] →
       filter (λ row, disagree row.2) (df_rows merged_df) = []).
Proof.
  assert (example_files ≠ []) as Hne by discriminate.
  split_and!; [exact Hne|exact example_world_loaded|exact example_stems_distinct|].
  exact (disagreement_csv_written_iff path_stem (ideal example_fs) example_files
           example_tables "d.csv" Hne example_world_loaded example_stems_distinct).
Defined.

(** The disagreement file of the example, in a world where it can be
    written: the rows of RecordIds 1 and 2, on which the files disagree. *)
Example example_disagreement_file :
  written (events (io.extract_disagreements path_stem (ideal example_fs)
                     example_files "d.csv")) =
  [("d.csv",
    (["PassengerId"; "Transported_A"; "Transported_B"; "Transported_C"],
     [("1", [true; true; false]); ("2", [false; true; false])]))].
Proof. vm_compute. reflexivity. Qed.

(** ** The exit status of [main] *)

Lemma io_existing_all (w : World) (csv_files : list string) :
  Forall (λ f, is_Some (entries w !! f)) csv_files →
  io.existing w csv_files = csv_files.
Proof.
  intros Hex. unfold io.existing. apply filter_all.
  by apply Forall_forall.
Qed.

Lemma io_main_ok
    (stem : string → string) (w : World)
    (CSV_FILES : list string) (flag : bool) :
  io.existing w CSV_FILES ≠ [] →
  readable w CSV_FILES →
  NoDup (stem <$> io.existing w CSV_FILES) →
  writable w (output_name stem (io.existing w CSV_FILES)) = true →
  (flag = true → length (io.existing w CSV_FILES) mod 2 = 1 →
   writable w "final_submission.csv" = true) →
  outcome (io.main stem w CSV_FILES flag) = Ok tt.
Proof.
  intros Hne Hread Hnd Hout Hfin.
  rewrite io_main_tables, main_outcome by done.
  rewrite existing_tables by done.
  rewrite bool_decide_false by done.
  apply process_ok; [done| |done].
  apply tables_exist; [by apply readable_existing|apply io_existing_exist].
Qed.

(** C6, as stated, fails in two ways although every configured file
    exists.  Two files of the same stem get the same column label and the
    join raises [ValueError]; and when the disagreement file cannot be
    written [to_csv] raises [OSError].  Neither is caught, so the
    interpreter exits with a non-zero status. *)
Lemma exit_status_nonzero_with_input :
  ¬ (exit_status (outcome (io.main path_stem (ideal clash_fs) clash_files false)) ≠ 0%Z
     ↔ io.existing (ideal clash_fs) clash_files = []) ∧
  ¬ (exit_status (outcome (io.main path_stem (locked example_fs) example_files false))
       ≠ 0%Z
     ↔ io.existing (locked example_fs) example_files = []).
Proof.
  split.
  - intros [Hexit _].
    assert (io.existing (ideal clash_fs) clash_files = []) as Hnone.
    { apply Hexit. vm_compute. discriminate. }
    vm_compute in Hnone. discriminate Hnone.
  - intros [Hexit _].
    assert (io.existing (locked example_fs) example_files = []) as Hnone.
    { apply Hexit. vm_compute. discriminate. }
    vm_compute in Hnone. discriminate Hnone.
Qed.

(** The two runs of the counterexample. *)
Example clashing_labels_outcome :
  outcome (io.main path_stem (ideal clash_fs) clash_files false) =
  Raised (ValueError_overlap ["Transported_pred"]).
Proof. vm_compute. reflexivity. Qed.

Example unwritable_output_outcome :
  outcome (io.main path_stem (locked example_fs) example_files false) =
  Raised (OSError "disagreements_A_vs_B_vs_C.csv").
Proof. vm_compute. reflexivity. Qed.

(** C6, as amended.  For every configured list and every state of the
    disk: a warning naming each missing configured file is printed; with no
    existing file the program stops with exit status 1; with at least one it
    goes on with exactly the existing files, in the configured order, and
    ends as the processing of these files ends.  When moreover every
    existing file is a readable prediction file, the existing files have
    pairwise distinct stems and the output files can be written, the exit
    status is non-zero iff none of the configured files exists. *)
Theorem exit_status_of_main
    (stem : string → string) (w : World)
    (CSV_FILES : list string) (CREATE_FINAL_SUBMISSION : bool) :
  (∀ file, file ∈ CSV_FILES → entries w !! file = None →
     WarnMissingFile file ∈
       printed (events (io.main stem w CSV_FILES CREATE_FINAL_SUBMISSION))) ∧
  io.main stem w CSV_FILES CREATE_FINAL_SUBMISSION =
    (events (io.select_files w CSV_FILES) ++
     (if bool_decide (io.existing w CSV_FILES = []) then []
      else events (io.process stem w (io.existing w CSV_FILES)
                     CREATE_FINAL_SUBMISSION)),
     if bool_decide (io.existing w CSV_FILES = []) then Raised (SystemExit 1)
     else outcome (io.process stem w (io.existing w CSV_FILES)
                     CREATE_FINAL_SUBMISSION)) ∧
  exit_status (outcome (io.main stem w CSV_FILES CREATE_FINAL_SUBMISSION)) =
    (if bool_decide (io.existing w CSV_FILES = []) then 1%Z
     else exit_status (outcome (io.process stem w (io.existing w CSV_FILES)
                                  CREATE_FINAL_SUBMISSION))) ∧
  (readable w CSV_FILES →
   NoDup (stem <$> io.existing w CSV_FILES) →
   writable w (output_name stem (io.existing w CSV_FILES)) = true →
   (CREATE_FINAL_SUBMISSION = true →
    length (io.existing w CSV_FILES) mod 2 = 1 →
    writable w "final_submission.csv" = true) →
   (exit_status (outcome (io.main stem w CSV_FILES CREATE_FINAL_SUBMISSION)) ≠ 0%Z
    ↔ io.existing w CSV_FILES = [])).
Proof.
  split_and!.
  - intros file Hin Hnone.
    rewrite io_main_events, printed_app. apply elem_of_app. left.
    by apply io_select_files_warns.
  - rewrite (run_eq (io.main stem w CSV_FILES CREATE_FINAL_SUBMISSION)).
    by rewrite io_main_outcome, io_main_events.
  - rewrite io_main_outcome. by case_bool_decide.
  - intros Hread Hnd Hout Hfin.
    destruct (decide (io.existing w CSV_FILES = [])) as [Hnil|Hne].
    + rewrite io_main_outcome, bool_decide_true by done. by split.
    + rewrite io_main_ok by done. by split.
Qed.

Lemma exit_status_of_main_witness :
  readable (ideal example_fs) ["A.csv"; "X.csv"; "B.csv"] ∧
  NoDup (path_stem <$> io.existing (ideal example_fs) ["A.csv"; "X.csv"; "B.csv"]) ∧
  writable (ideal example_fs)
    (output_name path_stem
       (io.existing (ideal example_fs) ["A.csv"; "X.csv"; "B.csv"])) = true ∧
  (true = true →
   length (io.existing (ideal example_fs) ["A.csv"; "X.csv"; "B.csv"]) mod 2 = 1 →
   writable (ideal example_fs) "final_submission.csv" = true) ∧
  "X.csv" ∈ ["A.csv"; "X.csv"; "B.csv"] ∧
  entries (ideal example_fs) !! "X.csv" = None ∧
  WarnMissingFile "X.csv" ∈
    printed (events (io.main path_stem (ideal example_fs)
                       ["A.csv"; "X.csv"; "B.csv"] true)) ∧
  (exit_status (outcome (io.main path_stem (ideal example_fs)
                           ["A.csv"; "X.csv"; "B.csv"] true)) ≠ 0%Z
   ↔ io.existing (ideal example_fs) ["A.csv"; "X.csv"; "B.csv"] = []).
Proof.
  assert (readable (ideal example_fs) ["A.csv"; "X.csv"; "B.csv"]) as Hread
    by (repeat constructor; vm_compute; discriminate).
  assert (NoDup (path_stem <$>
                 io.existing (ideal example_fs) ["A.csv"; "X.csv"; "B.csv"])) as Hnd
    by (refine (bool_decide_unpack _ _); vm_compute; exact I).
  assert (writable (ideal example_fs)
            (output_name path_stem
               (io.existing (ideal example_fs) ["A.csv"; "X.csv"; "B.csv"])) = true)
    as Hout by reflexivity.
  assert (true = true →
          length (io.existing (ideal example_fs) ["A.csv"; "X.csv"; "B.csv"]) mod 2 = 1 →
          writable (ideal example_fs) "final_submission.csv" = true) as Hfin
    by (intros _ _; reflexivity).
  assert ("X.csv" ∈ ["A.csv"; "X.csv"; "B.csv"]) as Hin
    by (apply list_elem_of_further, list_elem_of_here).
  assert (entries (ideal example_fs) !! "X.csv" = None) as Hnone
    by (vm_compute; reflexivity).
  pose proof (exit_status_of_main path_stem (ideal example_fs)
                ["A.csv"; "X.csv"; "B.csv"] true) as (Hwarn & _ & _ & Hiff).
  split_and!; [exact Hread|exact Hnd|exact Hout|exact Hfin|exact Hin|exact Hnone
              |exact (Hwarn "X.csv" Hin Hnone)|exact (Hiff Hread Hnd Hout Hfin)].
Defined.

(** * Further properties of the script on a disk that can fail *)

Lemma io_main_raised
    (stem : string → string) (w : World)
    (CSV_FILES : list string) (flag : bool) (e : Exn) :
  outcome (io.main stem w CSV_FILES flag) = Raised e →
  (e = SystemExit 1 ∧ io.existing w CSV_FILES = []) ∨
  (io.existing w CSV_FILES ≠ [] ∧
   (read_or_join_failure w (io.existing w CSV_FILES) e ∨
    (e = OSError (output_name stem (io.existing w CSV_FILES)) ∧
     writable w (output_name stem (io.existing w CSV_FILES)) = false) ∨
    (e = OSError "final_submission.csv" ∧
     writable w "final_submission.csv" = false ∧
     flag = true ∧ length (io.existing w CSV_FILES) mod 2 = 1))).
Proof.
  rewrite io_main_outcome. case_bool_decide as Hex.
  - intros [= <-]. by left.
  - intros Hraised. right. split; [done|].
    apply io_process_raised in Hraised; [done|done|apply io_existing_exist].
Qed.

(** X6: how [main] can end, on a disk where every path that exists is a
    prediction file or a path [pd.read_csv] raises on.  It raises
    [SystemExit(1)] iff no configured file exists.  Every other exception
    it ends in is the join's [ValueError], the error of [pd.read_csv] on an
    existing configured file, or the [OSError] of [to_csv] on one of its
    two output paths, which then cannot be written (the second only when
    the vote is switched on and the number of existing files is odd); so it
    never ends in [IndexError], [FileNotFoundError] or a division by zero.
    When every existing file is a readable table and the output files can
    be written, it runs to the end iff some file exists and the stems of
    the existing files are pairwise distinct, and it ends in [ValueError]
    iff some file exists and two existing files share a stem. *)
Theorem main_ends_in_known_ways
    (stem : string → string) (w : World)
    (CSV_FILES : list string) (CREATE_FINAL_SUBMISSION : bool) :
  (outcome (io.main stem w CSV_FILES CREATE_FINAL_SUBMISSION) = Raised (SystemExit 1)
   ↔ io.existing w CSV_FILES = []) ∧
  (∀ e, outcome (io.main stem w CSV_FILES CREATE_FINAL_SUBMISSION) = Raised e →
     e = SystemExit 1 ∨
     (∃ cols, e = ValueError_overlap cols) ∨
     (∃ file, file ∈ io.existing w CSV_FILES ∧ e = ReadError file ∧
              entries w !! file = Some NotCsv) ∨
     (e = OSError (output_name stem (io.existing w CSV_FILES)) ∧
      writable w (output_name stem (io.existing w CSV_FILES)) = false) ∨
     (e = OSError "final_submission.csv" ∧
      writable w "final_submission.csv" = false ∧
      CREATE_FINAL_SUBMISSION = true ∧
      length (io.existing w CSV_FILES) mod 2 = 1)) ∧
  (readable w CSV_FILES →
   writable w (output_name stem (io.existing w CSV_FILES)) = true →
   (CREATE_FINAL_SUBMISSION = true →
    length (io.existing w CSV_FILES) mod 2 = 1 →
    writable w "final_submission.csv" = true) →
   (outcome (io.main stem w CSV_FILES CREATE_FINAL_SUBMISSION) = Ok tt
    ↔ io.existing w CSV_FILES ≠ [] ∧ NoDup (stem <$> io.existing w CSV_FILES)) ∧
   ((∃ cols, outcome (io.main stem w CSV_FILES CREATE_FINAL_SUBMISSION)
             = Raised (ValueError_overlap cols))
    ↔ io.existing w CSV_FILES ≠ [] ∧
      ¬ NoDup (stem <$> io.existing w CSV_FILES))).
Proof.
  split_and!.
  - split.
    + intros Hexit. apply io_main_raised in Hexit as [[_ ?]|[_ Hways]]; [done|].
      destruct Hways as [[[cols ?]|(f & _ & ? & _)]|[[? _]|[? _]]]; discriminate.
    + intros Hnil. by rewrite io_main_outcome, bool_decide_true.
  - intros e Hraised.
    apply io_main_raised in Hraised as [[-> _]|[_ Hways]]; [by left|].
    destruct Hways as [[?|?]|[?|?]]; auto.
  - intros Hread Hout Hfin.
    rewrite io_main_tables by done.
    rewrite <- (existing_tables w CSV_FILES Hread).
    pose proof (main_outcome_on_tables stem (tables w) CSV_FILES
                  CREATE_FINAL_SUBMISSION) as (Hok & _ & Hval & _).
    by split.
Qed.

Lemma main_ends_in_known_ways_witness :
  readable (ideal example_fs) example_files ∧
  writable (ideal example_fs)
    (output_name path_stem (io.existing (ideal example_fs) example_files)) = true ∧
  (true = true →
   length (io.existing (ideal example_fs) example_files) mod 2 = 1 →
   writable (ideal example_fs) "final_submission.csv" = true) ∧
  (outcome (io.main path_stem (ideal example_fs) example_files true) = Ok tt
   ↔ io.existing (ideal example_fs) example_files ≠ [] ∧
     NoDup (path_stem <$> io.existing (ideal example_fs) example_files)) ∧
  ((∃ cols, outcome (io.main path_stem (ideal example_fs) example_files true)
            = Raised (ValueError_overlap cols))
   ↔ io.existing (ideal example_fs) example_files ≠ [] ∧
     ¬ NoDup (path_stem <$> io.existing (ideal example_fs) example_files)).
Proof.
  assert (readable (ideal example_fs) example_files) as Hread
    by (repeat constructor; vm_compute; discriminate).
  assert (writable (ideal example_fs)
            (output_name path_stem (io.existing (ideal example_fs) example_files))
          = true) as Hout by reflexivity.
  assert (true = true →
          length (io.existing (ideal example_fs) example_files) mod 2 = 1 →
          writable (ideal example_fs) "final_submission.csv" = true) as Hfin
    by (intros _ _; reflexivity).
  pose proof (main_ends_in_known_ways path_stem (ideal example_fs) example_files true)
    as (_ & _ & Hcases).
  split_and!; [exact Hread|exact Hout|exact Hfin
              |exact (proj1 (Hcases Hread Hout Hfin))
              |exact (proj2 (Hcases Hread Hout Hfin))].
Defined.

(** X9: on existing, readable files of pairwise distinct stems, and when
    both output paths can be written, a run of [main] writes, in this order:
    the disagreement file, holding the identifier column, one column per
    file and exactly the joined rows whose cells are not all equal, iff
    there is such a row; and then, iff the vote is switched on and the
    number n of files is odd, [final_submission.csv] holding for every row
    of the same joined frame its RecordId and whether more than n/2 of its
    cells are [True]. *)
Theorem main_writes_both_outputs_when_writable
    (stem : string → string) (w : World)
    (CSV_FILES : list string) (ts : list PredictionTable)
    (CREATE_FINAL_SUBMISSION : bool) :
  CSV_FILES ≠ [] →
  Forall2 (λ f t, entries w !! f = Some (CsvFile t)) CSV_FILES ts →
  NoDup (stem <$> CSV_FILES) →
  writable w (output_name stem CSV_FILES) = true →
  writable w "final_submission.csv" = true →
  ∃ merged_df,
    outcome (io.load_and_merge stem w CSV_FILES) = Ok merged_df ∧
    outcome (io.main stem w CSV_FILES CREATE_FINAL_SUBMISSION) = Ok tt ∧
    written (events (io.main stem w CSV_FILES CREATE_FINAL_SUBMISSION)) =
      (if bool_decide (filter (λ row, disagree row.2) (df_rows merged_df) = [])
       then []
       else [(output_name stem CSV_FILES,
              ("PassengerId" :: (column_of stem <$> CSV_FILES),
               filter (λ row, disagree row.2) (df_rows merged_df)))]) ++
      (if CREATE_FINAL_SUBMISSION && (length CSV_FILES mod 2 =? 1)
       then [("final_submission.csv",
              (["PassengerId"; "Transported"],
               (λ row, (row.1,
                        [bool_decide (length CSV_FILES < 2 * count_true row.2)]))
                 <$> df_rows merged_df))]
       else []).
Proof.
  intros Hne Hall Hnd Hout Hfin.
  destruct (tables_loaded w CSV_FILES ts Hall) as [Htabs Hread].
  pose proof (Forall2_length _ _ _ Hall) as Hlen.
  pose proof (merged_table_shape stem CSV_FILES ts Hlen Hnd) as Hshape.
  assert (io.existing w CSV_FILES = CSV_FILES) as Hex.
  { apply io_existing_all. eapply Forall2_Forall_l; [exact Hall|].
    apply Forall_forall. intros t _ f Hf. by eexists. }
  assert (existing (tables w) CSV_FILES = CSV_FILES) as Hex'
    by (by rewrite existing_tables).
  exists (merged_table stem (zip CSV_FILES ts)).
  split_and!.
  - by apply io_load_and_merge_ok.
  - apply io_main_ok; rewrite ?Hex; auto.
  - rewrite io_main_tables by (rewrite ?Hex; auto).
    destruct (main_written_on_tables stem (tables w) CSV_FILES
                CREATE_FINAL_SUBMISSION) as (merged & Hmerged & ->);
      [by rewrite Hex'|by rewrite Hex'|].
    rewrite Hex' in Hmerged |- *.
    rewrite (load_and_merge_ok stem (tables w) CSV_FILES ts) in Hmerged by done.
    injection Hmerged as <-.
    rewrite (disagreements_rows _ Hshape).
    rewrite (majority_vote_shape _ Hshape). cbn [df_rows].
    by rewrite !(merged_table_columns stem CSV_FILES ts Hlen), length_fmap.
Qed.

Lemma main_writes_both_outputs_when_writable_witness :
  example_files ≠ [] ∧
  Forall2 (λ f t, entries (ideal example_fs) !! f = Some (CsvFile t))
          example_files example_tables ∧
  NoDup (path_stem <$> example_files) ∧
  writable (ideal example_fs) (output_name path_stem example_files) = true ∧
  writable (ideal example_fs) "final_submission.csv" = true ∧
  ∃ merged_df,
    outcome (io.load_and_merge path_stem (ideal example_fs) example_files)
      = Ok merged_df ∧
    outcome (io.main path_stem (ideal example_fs) example_files true) = Ok tt ∧
    written (events (io.main path_stem (ideal example_fs) example_files true)) =
      (if bool_decide (filter (λ row, disagree row.2) (df_rows merged_df) = [])
       then []
       else [(output_name path_stem example_files,
              ("PassengerId" :: (column_of path_stem <$> example_files),
               filter (λ row, disagree row.2) (df_rows merged_df)))]) ++
      (if true && (length example_files mod 2 =? 1)
       then [("final_submission.csv",
              (["PassengerId"; "Transported"],
               (λ row, (row.1,
                        [bool_decide (length example_files < 2 * count_true row.2)]))
                 <$> df_rows merged_df))]
       else []).
Proof.
  assert (example_files ≠ []) as Hne by discriminate.
  assert (writable (ideal example_fs) (output_name path_stem example_files) = true)
    as Hout by reflexivity.
  assert (writable (ideal example_fs) "final_submission.csv" = true)
    as Hfin by reflexivity.
  split_and!; [exact Hne|exact example_world_loaded|exact example_stems_distinct
              |exact Hout|exact Hfin|].
  exact (main_writes_both_outputs_when_writable path_stem (ideal example_fs)
           example_files example_tables true Hne example_world_loaded
           example_stems_distinct Hout Hfin).
Defined.

(** The two files written by the run on the example of the specification. *)
Example example_outputs :
  written (events (io.main path_stem (ideal example_fs) example_files true)) =
  [("disagreements_A_vs_B_vs_C.csv",
    (["PassengerId"; "Transported_A"; "Transported_B"; "Transported_C"],
     [("1", [true; true; false]); ("2", [false; true; false])]));
   ("final_submission.csv",
    (["PassengerId"; "Transported"],
     [("1", [true]); ("2", [false]); ("3", [true])]))].
Proof. vm_compute. reflexivity. Qed.
